(** * Pycord v3: channel discrimination, option declaration, interaction
    decoding and command synchronisation

  A shallow embedding of the parts of [pycord/channel.py],
  [pycord/interaction.py] and [pycord/commands/application/command.py]
  that build, serialise and dispatch application commands.

  Python values are an inductive type with the [MISSING] sentinel as a
  value of its own; exceptions are the [Raise] outcome of [result];
  objects that the source shares between several containers (an [Option]
  sits in [options], [_options_dict] and [_subs] at once) live in a store
  and are named by reference. *)

From Stdlib Require Import ZArith Lia Ascii String.
From stdpp Require Import gmap strings list fin_maps pretty.

Open Scope Z_scope.

(** ** Python values *)

Module Py.

(** JSON-like values, plus the [MISSING] singleton of [pycord.missing]. *)
#[warnings="-register-all"]
Inductive pyval : Type :=
| VMissing
| VNone
| VBool (b : bool)
| VInt (z : Z)
| VStr (s : string)
| VList (l : list pyval)
| VDict (d : list (string * pyval)).

(** A wire object: a Python [dict] with string keys, in insertion order. *)
Abbreviation payload := (list (string * pyval)).

(** Python's truth value. [MISSING] is falsy: the source tests
    [if choices:] on the default [choices=MISSING] before iterating it,
    and writes [name or callback.__name__.lower()] on [name=MISSING]. *)
Definition truthy (v : pyval) : bool :=
  match v with
  | VMissing => false
  | VNone => false
  | VBool b => b
  | VInt z => negb (z =? 0)
  | VStr s => negb (String.eqb s "")
  | VList l => match l with [] => false | _ => true end
  | VDict d => match d with [] => false | _ => true end
  end.

(** [a or b]. *)
Definition py_or (a b : pyval) : pyval := if truthy a then a else b.

(** [v == n] for an integer literal [n]; [bool] is a subclass of [int]. *)
Definition eq_int (v : pyval) (n : Z) : bool :=
  match v with
  | VInt z => z =? n
  | VBool b => (if b then 1 else 0) =? n
  | _ => false
  end.

Definition is_missing (v : pyval) : bool :=
  match v with VMissing => true | _ => false end.

Definition is_none (v : pyval) : bool :=
  match v with VNone => true | _ => false end.

(** The exceptions the modelled code can raise. [Unmodelled] is not a
    Python exception: it marks a run that leaves the modelled fragment
    (a reference outside the object store, [str()] of a container). No
    statement below counts it as a failure of the program. *)
Inductive pyexc : Type :=
| KeyError
| TypeError
| AttributeError
| IndexError
| RecursionError
| HTTPException
| Unmodelled
| ApplicationCommandException (msg : string)
| InteractionException (msg : string).

Inductive result (A : Type) : Type :=
| Ok (a : A)
| Raise (e : pyexc).
Arguments Ok {A} a.
Arguments Raise {A} e.

Definition bind {A B} (r : result A) (k : A -> result B) : result B :=
  match r with
  | Ok a => k a
  | Raise e => Raise e
  end.

(** [d[k]]: the first entry wins in the model; the dicts built here have
    distinct keys. *)
Fixpoint get (k : string) (d : payload) : option pyval :=
  match d with
  | [] => None
  | (k', v) :: rest => if String.eqb k k' then Some v else get k rest
  end.

Definition subscript (d : payload) (k : string) : result pyval :=
  match get k d with
  | Some v => Ok v
  | None => Raise KeyError
  end.

#[global] Instance result_ret : MRet result := fun A a => Ok a.
#[global] Instance result_bind : MBind result := fun A B k r => bind r k.

(** [d.get(k)]. *)
Definition dict_get (d : payload) (k : string) : pyval :=
  match get k d with
  | Some v => v
  | None => VNone
  end.

(** [v[k]] on a value: a dict is read by key, a list by index. Lists and
    dicts are unhashable, so using one as a key is a [TypeError]; the
    keys of a wire object are strings, so any other key is absent;
    [None], [MISSING], a number or a boolean cannot be subscripted.
    Indexing into a string is outside the model. *)
Definition getitem (v k : pyval) : result pyval :=
  match v with
  | VDict d =>
      match k with
      | VStr s => subscript d s
      | VList _ | VDict _ => Raise TypeError
      | _ => Raise KeyError
      end
  | VList l =>
      match k with
      | VInt i =>
          let n := Z.of_nat (length l) in
          let j := if i <? 0 then i + n else i in
          if (j <? 0) || (n <=? j) then Raise IndexError
          else match l !! Z.to_nat j with
               | Some x => Ok x
               | None => Raise IndexError
               end
      | VBool b =>
          match l !! (if b then 1%nat else 0%nat) with
          | Some x => Ok x
          | None => Raise IndexError
          end
      | _ => Raise TypeError
      end
  | VStr _ => Raise Unmodelled
  | _ => Raise TypeError
  end.

(** [str.lower()] on ASCII text. *)
Definition lower_ascii (c : ascii) : ascii :=
  let n := nat_of_ascii c in
  if ((65 <=? n) && (n <=? 90))%nat then ascii_of_nat (n + 32) else c.

Fixpoint lower (s : string) : string :=
  match s with
  | EmptyString => EmptyString
  | String c t => String (lower_ascii c) (lower t)
  end.

(** [needle in hay] on strings. *)
Fixpoint contains (needle hay : string) : bool :=
  String.prefix needle hay ||
  match hay with
  | EmptyString => false
  | String _ t => contains needle t
  end.

(** [str(v)] for the scalars of the wire format. *)
Definition str (v : pyval) : result string :=
  match v with
  | VStr s => Ok s
  | VInt z => Ok (pretty z)
  | VBool b => Ok (if b then "True" else "False")%string
  | VNone => Ok "None"%string
  | _ => Raise Unmodelled
  end.

End Py.

Import Py.

(** ** Channels: [pycord/channel.py] *)

Module Channel.

(** The concrete classes of the [CHANNEL_TYPE] union. *)
Inductive channel_class : Type :=
| Channel
| TextChannel
| DMChannel
| VoiceChannel
| GroupDMChannel
| CategoryChannel
| AnnouncementChannel
| AnnouncementThread
| Thread
| StageChannel
| DirectoryChannel
| ForumChannel.

#[global] Instance channel_class_eq_dec : EqDecision channel_class.
Proof. solve_decision. Defined.

(** A constructed channel: the class that was instantiated and the
    payload handed to its constructor. The constructors' field reads
    are not part of the discriminator and are not modelled. *)
Record channel : Type := MkChannel {
  cls : channel_class;
  data : payload;
}.

(** [identify_channel(data, state)]. *)
Definition identify_channel (data : payload) : result channel :=
  type ← subscript data "type";
  if eq_int type 0 then Ok (MkChannel TextChannel data)
  else if eq_int type 1 then Ok (MkChannel DMChannel data)
  else if eq_int type 2 then Ok (MkChannel VoiceChannel data)
  else if eq_int type 4 then Ok (MkChannel CategoryChannel data)
  else if eq_int type 5 then Ok (MkChannel AnnouncementChannel data)
  else if eq_int type 10 then Ok (MkChannel AnnouncementThread data)
  else if eq_int type 11 || eq_int type 12 then Ok (MkChannel Thread data)
  else if eq_int type 13 then Ok (MkChannel StageChannel data)
  else if eq_int type 14 then Ok (MkChannel DirectoryChannel data)
  else if eq_int type 15 then Ok (MkChannel ForumChannel data)
  else Ok (MkChannel Channel data).

(** The variant the data model documents for each type code:
    TextChannel(0), DM(1), Voice(2), GroupDM(3), Category(4),
    Announcement(5), AnnouncementThread(10), Thread(11/12), Stage(13),
    Directory(14), Forum(15); no variant for any other code. *)
Definition documented_variant (code : Z) : option channel_class :=
  if code =? 0 then Some TextChannel
  else if code =? 1 then Some DMChannel
  else if code =? 2 then Some VoiceChannel
  else if code =? 3 then Some GroupDMChannel
  else if code =? 4 then Some CategoryChannel
  else if code =? 5 then Some AnnouncementChannel
  else if code =? 10 then Some AnnouncementThread
  else if (code =? 11) || (code =? 12) then Some Thread
  else if code =? 13 then Some StageChannel
  else if code =? 14 then Some DirectoryChannel
  else if code =? 15 then Some ForumChannel
  else None.

End Channel.

(** ** Helpers of [pycord/utils.py] and [pycord/enums.py] *)

Module Utils.

(** Modelled from the spec: [remove_undefined] of [pycord/utils.py], which
    is not among the sources. It is the serialiser's rule "drop key if
    unset; emit null if explicit null; emit value otherwise": the keyword
    arguments whose value is the unset sentinel are dropped, every other
    one is kept with its value, in order. *)
Definition remove_undefined (kwargs : payload) : payload :=
  List.filter (fun kv => negb (is_missing (snd kv))) kwargs.

(** The Python classes that may annotate a command parameter. *)
Inductive pytype : Type :=
| PStr
| PInt
| PBool
| PFloat
| PUser
| PChannel
| PRole
| PAttachment
| POther (qualname : string).

(** Modelled from the spec: the members of [ApplicationCommandOptionType]
    ([pycord/enums.py] is not among the sources) that [_OPTION_BIND]
    names, with the wire codes that [_process_options] dispatches on:
    string 3, integer 4, boolean 5, user 6, channel 7, role 8, number 10,
    attachment 11. *)
Definition _OPTION_BIND (ty : pytype) : result Z :=
  match ty with
  | PStr => Ok 3
  | PInt => Ok 4
  | PBool => Ok 5
  | PFloat => Ok 10
  | PUser => Ok 6
  | PChannel => Ok 7
  | PRole => Ok 8
  | PAttachment => Ok 11
  | POther _ => Raise KeyError
  end.

(** A dictionary key as the declaration code uses it: a string, [None]
    (the default [name] of [Option.command]) or [MISSING] (the default
    [name] of [ApplicationCommand.command]). *)
Inductive pykey : Type :=
| KMissing
| KNone
| KStr (s : string).

#[global] Instance pykey_eq_dec : EqDecision pykey.
Proof. solve_decision. Defined.

#[global] Instance pykey_countable : Countable pykey.
Proof.
  refine (inj_countable'
            (fun k => match k with
                      | KMissing => inl true
                      | KNone => inl false
                      | KStr s => inr s
                      end)
            (fun x => match x with
                      | inl true => KMissing
                      | inl false => KNone
                      | inr s => KStr s
                      end) _).
  by intros [].
Defined.

Definition key_val (k : pykey) : pyval :=
  match k with
  | KMissing => VMissing
  | KNone => VNone
  | KStr s => VStr s
  end.

(** An object reference: an index into the object store. *)
Definition ref : Type := nat.

(** How a parameter of a callback is annotated, as [get_arg_defaults] and
    [get_args] report it. [Annotated[ty, x]] carries the class [ty] and
    either the reference to [x], when [x] is an [Option] instance, or the
    text [str(x)] of another object. *)
Inductive annotation : Type :=
| AnnInteraction
| AnnContext
| AnnMessage
| AnnUser
| AnnMember
| AnnUnionUserMember
| AnnAnnotated (ty : pytype) (meta : ref + string)
| AnnPlain.

(** A callback: its [__name__], its [__doc__] and its parameter list.
    What a callback does when it is called is the user's code. *)
Record AsyncFunc : Type := MkFunc {
  __name__ : string;
  __doc__ : pyval;
  params : list (string * annotation);
}.

End Utils.

Import Utils.

(** ** Entities bound to callback parameters *)

Module Entity.

(** [User], [Attachment] and [Message] are built from a payload and keep
    it; their classes are not among the sources, and what their
    constructors read of the payload is not modelled. [Role] keeps the
    payload it was built from; its constructor is [Role_init] below. *)
Record User : Type := MkUser { user_data : pyval }.
Record Role : Type := MkRole { role_data : pyval }.
Record Attachment : Type := MkAttachment { attachment_data : pyval }.
Record Message : Type := MkMessage { message_data : pyval }.

(** [Member]: the payload, the guild id it was built with and the [user]
    attribute ([None] stands for [MISSING]); its constructor is
    [Member_init] below. *)
Record Member : Type := MkMember {
  member_data : pyval;
  _guild_id : pyval;
  user : option User;
}.

(** [member.user = user]. *)
Definition set_user (m : Member) (u : User) : Member :=
  {| member_data := member_data m; _guild_id := _guild_id m; user := Some u |}.

(** A value bound to a parameter of a callback. *)
Inductive bound : Type :=
| BVal (v : pyval)
| BUser (u : User)
| BMember (m : Member)
| BRole (r : Role)
| BChannel (c : Channel.channel)
| BAttachment (a : Attachment)
| BMessage (m : Message).

End Entity.

Import Entity.

(** ** Interactions: [pycord/interaction.py] *)

Module InteractionOption.

(** One node of the option tree of a received interaction. The class is
    declared outside the sources; these are the attributes the decoder
    reads. [options] is empty on a leaf. *)
#[warnings="-register-all"]
Inductive t : Type := Mk {
  name : string;
  type : Z;
  value : pyval;
  options : list t;
  focused : pyval;
}.

End InteractionOption.

Module Interaction.

(** The attributes of an [Interaction] that command dispatch reads.
    [data] is the raw [data] object of the payload ([VMissing] when the
    payload has none), [guild_id] the guild snowflake or [VMissing].
    [options] is [None] when the object has no such attribute, which is
    how [Interaction.__init__] leaves it: it assigns none. *)
Record t : Type := Mk {
  type : Z;
  data : pyval;
  guild_id : pyval;
  member : option Member;
  user : option User;
  options : option (list InteractionOption.t);
}.

End Interaction.

(** ** What lies outside the sources *)

(** The sources import classes and functions from modules that are not
    among them, and they call the callbacks that the user of the library
    registered. What these do is left open: each is a function that
    returns or raises, and the statements below hold for every choice of
    them. [Snowflake], [Color], [Permissions_from_value] and
    [fromisoformat] stand for [Snowflake(v)], [Color(v)],
    [Permissions.from_value(v)] and [datetime.fromisoformat(v)];
    [callback_outcome f interaction args kwargs] is what the call of the
    callback [f] with the interaction, the positional arguments [args]
    and the keyword arguments [kwargs] does once it is awaited: it
    returns, or it raises (a [TypeError] when the arguments do not fit
    the parameters of [f], or what the body of [f] raises). *)
Class Outside : Type := {
  Snowflake : pyval -> result pyval;
  Color : pyval -> result pyval;
  Permissions_from_value : pyval -> result pyval;
  fromisoformat : pyval -> result pyval;
  callback_outcome :
    AsyncFunc -> Interaction.t -> list bound -> gmap string bound ->
    result unit;
}.

(** ** Roles and members: [pycord/role.py], [pycord/member.py] *)

Section Constructors.
Context {outside : Outside}.

(** [f(data.get(k)) if data.get(k, MISSING) is not MISSING else MISSING]. *)
Definition when_present (f : pyval -> result pyval) (d : payload)
  (k : string) : result unit :=
  match get k d with
  | Some v => if is_missing v then Ok tt else (_ ← f v; Ok tt)
  | None => Ok tt
  end.

(** [datetime.fromisoformat(data.get(k)) if data.get(k, MISSING) not in
    [MISSING, None] else data.get(k, MISSING)]. *)
Definition when_set (d : payload) (k : string) : result unit :=
  match get k d with
  | Some v =>
      if is_missing v || is_none v then Ok tt
      else (_ ← fromisoformat v; Ok tt)
  | None => Ok tt
  end.

(** [RoleTags.__init__(data)]: [data.get] on anything but a dict is an
    [AttributeError]. *)
Definition RoleTags_init (data : pyval) : result unit :=
  match data with
  | VDict d =>
      _ ← when_present Snowflake d "bot_id";
      when_present Snowflake d "integration_id"
  | _ => Raise AttributeError
  end.

(** [Role.__init__(data, state)]. *)
Definition Role_init (data : pyval) : result Role :=
  id ← getitem data (VStr "id");
  _ ← Snowflake id;
  _ ← getitem data (VStr "name");
  color ← getitem data (VStr "color");
  _ ← Color color;
  _ ← getitem data (VStr "hoist");
  _ ← getitem data (VStr "position");
  permissions ← getitem data (VStr "permissions");
  _ ← Permissions_from_value permissions;
  _ ← getitem data (VStr "managed");
  _ ← getitem data (VStr "mentionable");
  _ ← match data with
      | VDict d =>
          match get "tags" d with
          | Some tags => if is_missing tags then Ok tt else RoleTags_init tags
          | None => Ok tt
          end
      | _ => Raise AttributeError
      end;
  Ok (MkRole data).

(** [[Snowflake(s) for s in roles]]: a list gives its elements, a dict
    its keys; iterating a string is outside the model, and anything else
    is not iterable. *)
Definition snowflakes (roles : pyval) : result (list pyval) :=
  match roles with
  | VList l => mapM Snowflake l
  | VDict d => mapM Snowflake (VStr <$> d.*1)
  | VStr _ => Raise Unmodelled
  | _ => Raise TypeError
  end.

(** [Member.__init__(data, state, *, guild_id=None)]: [data.get] on
    anything but a dict is an [AttributeError]. *)
Definition Member_init (data guild_id : pyval) : result Member :=
  match data with
  | VDict d =>
      let user :=
        if is_none (dict_get d "user") then None
        else Some (MkUser (dict_get d "user")) in
      roles ← subscript d "roles";
      _ ← snowflakes roles;
      joined_at ← subscript d "joined_at";
      _ ← fromisoformat joined_at;
      _ ← when_set d "premium_since";
      _ ← when_present Permissions_from_value d "permissions";
      _ ← when_set d "communication_disabled_until";
      Ok {| member_data := data;
            _guild_id := py_or guild_id VNone;
            user := user |}
  | _ => Raise AttributeError
  end.

End Constructors.

(** ** Effects *)

(** A computation over a state [S] that may raise. The state reached when
    an exception escapes is kept: assignments made before the [raise]
    stay made. *)
Definition stateful (S A : Type) : Type := S -> result A * S.

Section Stateful.
Context {S : Type}.

Definition st_ret {A} (a : A) : stateful S A := fun s => (Ok a, s).

Definition st_raise {A} (e : pyexc) : stateful S A := fun s => (Raise e, s).

Definition st_bind {A B} (m : stateful S A) (k : A -> stateful S B)
  : stateful S B :=
  fun s =>
    match m s with
    | (Ok a, s') => k a s'
    | (Raise e, s') => (Raise e, s')
    end.

Definition st_lift {A} (r : result A) : stateful S A := fun s => (r, s).

Definition st_get : stateful S S := fun s => (Ok s, s).

Definition st_modify (f : S -> S) : stateful S unit := fun s => (Ok tt, f s).

(** [for x in xs: acc = body(x, acc)], stopping at the first exception. *)
Section Loop.
Context {A B : Type} (body : A -> B -> stateful S B).

Fixpoint for_each (xs : list A) (acc : B) : stateful S B :=
  match xs with
  | [] => st_ret acc
  | x :: rest => st_bind (body x acc) (for_each rest)
  end.

End Loop.

End Stateful.

#[global] Instance stateful_mret {S} : MRet (stateful S) := @st_ret S.
#[global] Instance stateful_mbind {S} : MBind (stateful S) :=
  fun A B k m => st_bind m k.

(** What the outside world sees of a dispatch: the calls of callbacks
    and completers, with the arguments that follow the interaction. *)
Inductive event : Type :=
| Await (f : AsyncFunc) (args : list bound) (kwargs : gmap string bound)
| AwaitCompleter (f : AsyncFunc) (real_option : ref) (string : pyval).

Definition io (A : Type) : Type := stateful (list event) A.

Definition emit (e : event) : io unit := st_modify (fun tr => tr ++ [e]).

(** [await f(interaction, *args, **kwargs)] where [f] is an attribute
    that holds a callback or [None]; calling [None] is a [TypeError].
    The call of a callback is recorded, and its outcome is the
    callback's. *)
Definition await {outside : Outside} (f : option AsyncFunc)
  (interaction : Interaction.t) (args : list bound)
  (kwargs : gmap string bound) : io unit :=
  match f with
  | Some fn =>
      _ ← emit (Await fn args kwargs);
      st_lift (callback_outcome fn interaction args kwargs)
  | None => st_raise TypeError
  end.

(** ** Declarations: [pycord/commands/application/command.py] *)

Module CommandChoice.

(** [value] is [None] when the attribute was never assigned. *)
Record t : Type := Mk {
  name : string;
  value : option pyval;
  name_localizations : pyval;
}.

(** [CommandChoice.__init__(name, name_localizations=None, value=None)]:
    [self.value] is assigned only when no [value] is given. *)
Definition __init__ (name : string) (name_localizations value : pyval) : t :=
  {| name := name;
     value := if is_none value then Some (VStr name) else None;
     name_localizations := name_localizations |}.

Definition _to_dict (self : t) : result payload :=
  match value self with
  | Some v =>
      Ok [("name", VStr (name self)); ("value", v);
          ("name_localizations", name_localizations self)]%string
  | None => Raise AttributeError
  end.

End CommandChoice.

Module Option.

(** The [autocompleter] of an option: the module's [_autocomplete] or a
    function of the user. *)
Inductive completer : Type :=
| DefaultAutocomplete
| UserCompleter (f : AsyncFunc).

(** The [type] argument: a member of [ApplicationCommandOptionType]
    (given by its value), an [int], or a Python class. *)
Inductive type_arg : Type :=
| TypeEnum (value : Z)
| TypeInt (z : Z)
| TypeClass (c : pytype).

(** An [Option] object. [_choices] is [None] when the attribute was never
    assigned; likewise [_param]; [_callback] is [None] when never
    assigned and [Some None] when it holds Python's [None]. [_level] is
    the class attribute (0) until an instance attribute replaces it. *)
Record t : Type := Mk {
  type : Z;
  autocompleter : completer;
  name : pyval;
  name_localizations : pyval;
  description : pyval;
  description_localizations : pyval;
  required : pyval;
  choices : pyval;
  _choices : option (list CommandChoice.t);
  options : list ref;
  channel_types : pyval;
  min_value : pyval;
  max_value : pyval;
  autocomplete : pyval;
  _subs : gmap pykey ref;
  _level : Z;
  _param : option string;
  _callback : option (option AsyncFunc);
}.

(** Attribute assignments. *)
Definition set_type (o : t) (v : Z) : t :=
  Mk v (autocompleter o) (name o) (name_localizations o) (description o)
     (description_localizations o) (required o) (choices o) (_choices o)
     (options o) (channel_types o) (min_value o) (max_value o)
     (autocomplete o) (_subs o) (_level o) (_param o) (_callback o).

Definition set_name (o : t) (v : pyval) : t :=
  Mk (type o) (autocompleter o) v (name_localizations o) (description o)
     (description_localizations o) (required o) (choices o) (_choices o)
     (options o) (channel_types o) (min_value o) (max_value o)
     (autocomplete o) (_subs o) (_level o) (_param o) (_callback o).

Definition set_options (o : t) (v : list ref) : t :=
  Mk (type o) (autocompleter o) (name o) (name_localizations o)
     (description o) (description_localizations o) (required o) (choices o)
     (_choices o) v (channel_types o) (min_value o) (max_value o)
     (autocomplete o) (_subs o) (_level o) (_param o) (_callback o).

Definition set_subs (o : t) (v : gmap pykey ref) : t :=
  Mk (type o) (autocompleter o) (name o) (name_localizations o)
     (description o) (description_localizations o) (required o) (choices o)
     (_choices o) (options o) (channel_types o) (min_value o) (max_value o)
     (autocomplete o) v (_level o) (_param o) (_callback o).

Definition set_level (o : t) (v : Z) : t :=
  Mk (type o) (autocompleter o) (name o) (name_localizations o)
     (description o) (description_localizations o) (required o) (choices o)
     (_choices o) (options o) (channel_types o) (min_value o) (max_value o)
     (autocomplete o) (_subs o) v (_param o) (_callback o).

Definition set_param (o : t) (v : string) : t :=
  Mk (type o) (autocompleter o) (name o) (name_localizations o)
     (description o) (description_localizations o) (required o) (choices o)
     (_choices o) (options o) (channel_types o) (min_value o) (max_value o)
     (autocomplete o) (_subs o) (_level o) (Some v) (_callback o).

Definition set_callback (o : t) (v : option AsyncFunc) : t :=
  Mk (type o) (autocompleter o) (name o) (name_localizations o)
     (description o) (description_localizations o) (required o) (choices o)
     (_choices o) (options o) (channel_types o) (min_value o) (max_value o)
     (autocomplete o) (_subs o) (_level o) (_param o) (Some v).

(** The arguments of [Option.__init__]. [None] for [a_choices] and
    [a_options] is the default [MISSING]. *)
Record args : Type := MkArgs {
  a_name : pyval;
  a_description : pyval;
  a_type : type_arg;
  a_name_localizations : pyval;
  a_description_localizations : pyval;
  a_required : pyval;
  a_choices : option (list CommandChoice.t);
  a_options : option (list ref);
  a_channel_types : pyval;
  a_min_value : pyval;
  a_max_value : pyval;
  a_autocomplete : pyval;
  a_autocompleter : completer;
}.

(** The defaults of the signature; [ApplicationCommandOptionType.STRING]
    has value 3. *)
Definition defaults : args :=
  {| a_name := VNone;
     a_description := VNone;
     a_type := TypeEnum 3;
     a_name_localizations := VMissing;
     a_description_localizations := VMissing;
     a_required := VMissing;
     a_choices := None;
     a_options := None;
     a_channel_types := VMissing;
     a_min_value := VMissing;
     a_max_value := VMissing;
     a_autocomplete := VMissing;
     a_autocompleter := DefaultAutocomplete |}.

(** [if choices:] on the [choices] argument. *)
Definition choices_truthy (c : option (list CommandChoice.t)) : bool :=
  match c with
  | Some (_ :: _) => true
  | _ => false
  end.

Definition choices_list (c : option (list CommandChoice.t))
  : list CommandChoice.t :=
  match c with
  | Some l => l
  | None => []
  end.

(** [Option.__init__]. *)
Definition __init__ (a : args) : result t :=
  ty ← match a_type a with
       | TypeEnum v => Ok v
       | TypeClass c => _OPTION_BIND c
       | TypeInt z => Ok z
       end;
  let description := py_or (a_description a) (VStr "No description provided") in
  let options := match a_options a with
                 | None => []
                 | Some l => l
                 end in
  let finish (choices : pyval) (_choices : option (list CommandChoice.t)) :=
    Mk ty (a_autocompleter a) (a_name a) (a_name_localizations a) description
       (a_description_localizations a) (a_required a) choices _choices
       options (a_channel_types a) (a_min_value a) (a_max_value a)
       (a_autocomplete a) ∅ 0 None None in
  if truthy (a_autocomplete a) then
    if choices_truthy (a_choices a) then
      Ok (finish (VList [])
            (Some (List.filter (fun _ => choices_truthy (a_choices a))
                     (choices_list (a_choices a)))))
    else Ok (finish (VList []) (Some []))
  else
    if choices_truthy (a_choices a) then
      ds ← mapM CommandChoice._to_dict (choices_list (a_choices a));
      Ok (finish (VList (VDict <$> ds)) None)
    else Ok (finish VMissing None).

(** [Option.to_dict]. The nested options are read through the store;
    [depth] is the room left on the interpreter's call stack. The source
    guards [self.options] against [MISSING]; the constructor never leaves
    it so, and the attribute is a list here. *)
Fixpoint to_dict (depth : nat) (h : list t) (self : t) : result payload :=
  match depth with
  | O => Raise RecursionError
  | S d =>
      opts ← mapM (fun r => match h !! r with
                            | Some o => to_dict d h o
                            | None => Raise Unmodelled
                            end) (options self);
      Ok (remove_undefined
            [("type", VInt (type self));
             ("name", name self);
             ("name_localizations", name_localizations self);
             ("description", description self);
             ("description_localizations", description_localizations self);
             ("required", required self);
             ("choices", choices self);
             ("options", VList (VDict <$> opts));
             ("channel_types", channel_types self);
             ("min_value", min_value self);
             ("max_value", max_value self);
             ("autocomplete", autocomplete self)]%string)
  end.

(** [Option.command(name, description, ...)(func)]: the decorator applied
    to [func], on the option stored at [self]. Works on the store of
    options and returns the reference of the new sub command. *)
Definition command (self : ref) (name : pykey)
  (description name_localizations description_localizations : pyval)
  (func : AsyncFunc) : stateful (list t) ref :=
  fun h =>
    match h !! self with
    | None => (Raise Unmodelled, h)
    | Some s =>
        match __init__
                (MkArgs (py_or (key_val name) (VStr (lower (__name__ func))))
                   (py_or (py_or description (__doc__ func))
                      (VStr "No description provided"))
                   (TypeInt 1) name_localizations description_localizations
                   VMissing None None VMissing VMissing VMissing VMissing
                   DefaultAutocomplete) with
        | Raise e => (Raise e, h)
        | Ok command =>
            let command := set_callback command (Some func) in
            if _level s =? 2 then
              (Raise (ApplicationCommandException
                        "Sub commands cannot be three levels deep"), h)
            else
              let command := set_level command (_level s + 1) in
              let r := length h in
              let s := if decide (_subs s = ∅)
                       then set_callback (set_options s []) None
                       else s in
              let s := set_options s (options s ++ [r]) in
              let s := set_subs s (<[name := r]> (_subs s)) in
              let s := if type s =? 1 then set_type s 2 else s in
              (Ok r, <[self := s]> h ++ [command])
        end
    end.

(** [_autocomplete(_, option, string)], the default completer: the list
    comprehension over [option._choices]. *)
Fixpoint matching (string : string) (cs : list CommandChoice.t)
  : result (list payload) :=
  match cs with
  | [] => Ok []
  | choice :: rest =>
      match CommandChoice.value choice with
      | None => Raise AttributeError
      | Some v =>
          sv ← str v;
          if contains string (lower sv) then
            d ← CommandChoice._to_dict choice;
            ds ← matching string rest;
            Ok (d :: ds)
          else matching string rest
      end
  end.

Definition _autocomplete (option : t) (string : pyval)
  : result (list payload) :=
  s ← str string;
  let string := lower s in
  match _choices option with
  | None => Raise AttributeError
  | Some cs => matching string cs
  end.

(** [Option._inter_copy(data)]: a shallow copy of the declared option
    with [focused], [value] and [options] taken from the received node. *)
Record copied : Type := MkCopied {
  declared : t;
  focused : pyval;
  value : pyval;
  received_options : list InteractionOption.t;
}.

Definition _inter_copy (self : t) (data : InteractionOption.t) : copied :=
  {| declared := self;
     focused := InteractionOption.focused data;
     value := InteractionOption.value data;
     received_options := InteractionOption.options data |}.

End Option.

(** ** The platform behind [self._state.http] *)

Module Http.

(** Modelled from the spec: the application-command endpoints of the HTTP
    router, which is not among the sources ("one async method per platform
    REST endpoint used, each returning a decoded JSON-like mapping or
    failing with a propagated HTTP error"). The platform keeps one list
    of commands per guild and one global list; a command is a mapping
    with at least ["id"], ["name"] and ["type"]. *)
Record world : Type := MkWorld {
  guild_commands : gmap Z (list payload);
  global_commands : list payload;
  next_id : Z;
}.

(** Snowflakes compare as strings (the wire form) or as integers. *)
Definition id_eqb (a b : pyval) : bool :=
  match a, b with
  | VStr x, VStr y => String.eqb x y
  | VInt x, VInt y => x =? y
  | _, _ => false
  end.

Definition has_id (id : pyval) (c : payload) : bool :=
  id_eqb (dict_get c "id") id.

Definition of_guild (w : world) (g : Z) : list payload :=
  default [] (guild_commands w !! g).

Definition set_guild (w : world) (g : Z) (l : list payload) : world :=
  MkWorld (<[g := l]> (guild_commands w)) (global_commands w) (next_id w).

Definition set_global (w : world) (l : list payload) : world :=
  MkWorld (guild_commands w) l (next_id w).

(** Deleting and editing an unknown command fail (the platform answers
    404). *)
Definition delete_in (id : pyval) (l : list payload) : result (list payload) :=
  if existsb (has_id id) l
  then Ok (List.filter (fun c => negb (has_id id c)) l)
  else Raise HTTPException.

Definition edit_in (id : pyval) (fields : payload) (l : list payload)
  : result (list payload) :=
  if existsb (has_id id) l
  then Ok ((fun c => if has_id id c then ("id"%string, id) :: fields else c) <$> l)
  else Raise HTTPException.

(** Whether the platform replaces a command of the same name and type
    when one is created ([true]), or stores the new one beside it. *)
Definition same_name_type (fields c : payload) : bool :=
  match dict_get fields "name", dict_get c "name",
        dict_get fields "type", dict_get c "type" with
  | VStr n, VStr n', VInt t, VInt t' => String.eqb n n' && (t =? t')
  | _, _, _, _ => false
  end.

Definition create_in (overwrite : bool) (id : pyval) (fields : payload)
  (l : list payload) : list payload :=
  (if overwrite
   then List.filter (fun c => negb (same_name_type fields c)) l
   else l) ++ [("id"%string, id) :: fields].

Section Endpoints.
Context (overwrite : bool).

Definition get_guild_application_commands (g : Z)
  : stateful world (list pyval) :=
  fun w => (Ok (VDict <$> of_guild w g), w).

Definition delete_guild_application_command (g : Z) (id : pyval)
  : stateful world unit :=
  fun w =>
    match delete_in id (of_guild w g) with
    | Ok l => (Ok tt, set_guild w g l)
    | Raise e => (Raise e, w)
    end.

Definition edit_guild_application_command (id : pyval) (g : Z)
  (fields : payload) : stateful world unit :=
  fun w =>
    match edit_in id fields (of_guild w g) with
    | Ok l => (Ok tt, set_guild w g l)
    | Raise e => (Raise e, w)
    end.

Definition create_guild_application_command (g : Z) (fields : payload)
  : stateful world pyval :=
  fun w =>
    let id := VStr (pretty (next_id w)) in
    (Ok (VDict (("id"%string, id) :: fields)),
     MkWorld (<[g := create_in overwrite id fields (of_guild w g)]>
                (guild_commands w))
       (global_commands w) (next_id w + 1)).

Definition delete_global_application_command (id : pyval)
  : stateful world unit :=
  fun w =>
    match delete_in id (global_commands w) with
    | Ok l => (Ok tt, set_global w l)
    | Raise e => (Raise e, w)
    end.

Definition edit_global_application_command (id : pyval) (fields : payload)
  : stateful world unit :=
  fun w =>
    match edit_in id fields (global_commands w) with
    | Ok l => (Ok tt, set_global w l)
    | Raise e => (Raise e, w)
    end.

Definition create_global_application_command (fields : payload)
  : stateful world pyval :=
  fun w =>
    let id := VStr (pretty (next_id w)) in
    (Ok (VDict (("id"%string, id) :: fields)),
     MkWorld (guild_commands w)
       (create_in overwrite id fields (global_commands w)) (next_id w + 1)).

End Endpoints.

End Http.

Module State.

(** The attributes of the session state that [instantiate] reads
    ([pycord/state.py] is not among the sources): the update-policy flag,
    the names of the declared top-level commands and the cached list of
    global commands. *)
Record t : Type := Mk {
  update_commands : bool;
  _application_command_names : list string;
  application_commands : list pyval;
}.

End State.

Module ApplicationCommand.

(** An [ApplicationCommand] object. An attribute that a constructor path
    leaves unassigned is [None]: [options] and [_options_dict] exist on
    chat-input commands, [_subs] when [type] is 1, [_user_command_field]
    on user commands, [id] once [instantiate] assigned it. [_callback]
    holds a callback or Python's [None]. *)
Record t : Type := Mk {
  name : string;
  type : Z;
  guild_id : option Z;
  name_localizations : pyval;
  description : pyval;
  description_localizations : pyval;
  dm_permission : pyval;
  nsfw : pyval;
  default_member_permissions : pyval;
  _callback : option AsyncFunc;
  options : option (list ref);
  _options_dict : option (gmap pykey ref);
  _options : list payload;
  _subs : option (gmap pykey ref);
  _created : bool;
  id : option pyval;
  _user_command_field : option string;
}.

(** Attribute assignments. *)
Definition set_callback (c : t) (v : option AsyncFunc) : t :=
  Mk (name c) (type c) (guild_id c) (name_localizations c) (description c)
     (description_localizations c) (dm_permission c) (nsfw c)
     (default_member_permissions c) v (options c) (_options_dict c)
     (_options c) (_subs c) (_created c) (id c) (_user_command_field c).

Definition set_options (c : t) (v : list ref) : t :=
  Mk (name c) (type c) (guild_id c) (name_localizations c) (description c)
     (description_localizations c) (dm_permission c) (nsfw c)
     (default_member_permissions c) (_callback c) (Some v) (_options_dict c)
     (_options c) (_subs c) (_created c) (id c) (_user_command_field c).

Definition set_options_dict (c : t) (v : gmap pykey ref) : t :=
  Mk (name c) (type c) (guild_id c) (name_localizations c) (description c)
     (description_localizations c) (dm_permission c) (nsfw c)
     (default_member_permissions c) (_callback c) (options c) (Some v)
     (_options c) (_subs c) (_created c) (id c) (_user_command_field c).

Definition set__options (c : t) (v : list payload) : t :=
  Mk (name c) (type c) (guild_id c) (name_localizations c) (description c)
     (description_localizations c) (dm_permission c) (nsfw c)
     (default_member_permissions c) (_callback c) (options c)
     (_options_dict c) v (_subs c) (_created c) (id c)
     (_user_command_field c).

Definition set_subs (c : t) (v : gmap pykey ref) : t :=
  Mk (name c) (type c) (guild_id c) (name_localizations c) (description c)
     (description_localizations c) (dm_permission c) (nsfw c)
     (default_member_permissions c) (_callback c) (options c)
     (_options_dict c) (_options c) (Some v) (_created c) (id c)
     (_user_command_field c).

Definition set_created (c : t) (v : bool) : t :=
  Mk (name c) (type c) (guild_id c) (name_localizations c) (description c)
     (description_localizations c) (dm_permission c) (nsfw c)
     (default_member_permissions c) (_callback c) (options c)
     (_options_dict c) (_options c) (_subs c) v (id c)
     (_user_command_field c).

Definition set_id (c : t) (v : pyval) : t :=
  Mk (name c) (type c) (guild_id c) (name_localizations c) (description c)
     (description_localizations c) (dm_permission c) (nsfw c)
     (default_member_permissions c) (_callback c) (options c)
     (_options_dict c) (_options c) (_subs c) (_created c) (Some v)
     (_user_command_field c).

Definition set_user_command_field (c : t) (v : string) : t :=
  Mk (name c) (type c) (guild_id c) (name_localizations c) (description c)
     (description_localizations c) (dm_permission c) (nsfw c)
     (default_member_permissions c) (_callback c) (options c)
     (_options_dict c) (_options c) (_subs c) (_created c) (id c) (Some v).

Definition set_default_member_permissions (c : t) (v : pyval) : t :=
  Mk (name c) (type c) (guild_id c) (name_localizations c) (description c)
     (description_localizations c) (dm_permission c) (nsfw c) v
     (_callback c) (options c) (_options_dict c) (_options c) (_subs c)
     (_created c) (id c) (_user_command_field c).

(** Reading an attribute that may be unassigned. *)
Definition attr {A} (a : option A) : result A :=
  match a with
  | Some x => Ok x
  | None => Raise AttributeError
  end.

(** [d[k]] on a dictionary of references. *)
Definition lookup_ref (d : gmap pykey ref) (k : pykey) : result ref :=
  match d !! k with
  | Some r => Ok r
  | None => Raise KeyError
  end.

(** The object a reference names. *)
Definition deref (h : list Option.t) (r : ref) : result Option.t :=
  match h !! r with
  | Some o => Ok o
  | None => Raise Unmodelled
  end.

(** The serialisations run with the interpreter's default stack depth. *)
Definition stack_depth : nat := 1000.

(** [ApplicationCommand.command(name, description, ...)(func)]: the
    decorator applied to [func]. Works on the command and on the store of
    options, and returns the reference of the new sub command. *)
Definition command (name : pykey)
  (description name_localizations description_localizations : pyval)
  (func : AsyncFunc) : stateful (t * list Option.t) ref :=
  fun '(self, h) =>
    if negb (type self =? 1) then
      (Raise (ApplicationCommandException
                "Sub Commands cannot be created on non-slash-commands"),
       (self, h))
    else
      match Option.__init__
              (Option.MkArgs
                 (py_or (key_val name) (VStr (lower (__name__ func))))
                 (py_or (py_or description (__doc__ func))
                    (VStr "No description provided"))
                 (Option.TypeInt 1) name_localizations
                 description_localizations
                 VMissing None None VMissing VMissing VMissing VMissing
                 Option.DefaultAutocomplete) with
      | Raise e => (Raise e, (self, h))
      | Ok command =>
          let command := Option.set_callback command (Some func) in
          let command := Option.set_level command 1 in
          match _subs self with
          | None => (Raise AttributeError, (self, h))
          | Some subs =>
              let self :=
                if decide (subs = ∅)
                then set_callback
                       (set__options
                          (set_options_dict (set_options self []) ∅) [])
                       None
                else self in
              let r := length h in
              let h := h ++ [command] in
              match options self, _options_dict self with
              | Some opts, Some d =>
                  let self := set_options self (opts ++ [r]) in
                  let self := set_options_dict self (<[name := r]> d) in
                  match Option.to_dict stack_depth h command with
                  | Raise e => (Raise e, (self, h))
                  | Ok dict =>
                      let self := set__options self (_options self ++ [dict]) in
                      let self := set_subs self (<[name := r]> subs) in
                      (Ok r, (self, h))
                  end
              | _, _ => (Raise AttributeError, (self, h))
              end
          end
      end.


(** [_parse_user_command_arguments]: the loop keeps the counter [i] and
    the flag [fielded]. *)
Definition user_annotation (a : annotation) : bool :=
  match a with
  | AnnMember | AnnUser | AnnInteraction | AnnUnionUserMember => true
  | _ => false
  end.

Definition _parse_user_command_arguments (func : AsyncFunc) (self : t)
  : result t :=
  '(i, fielded, self) ←
    foldl (fun acc '(name, ann) =>
             '(i, fielded, self) ← acc;
             if (i =? 2) then
               Raise (ApplicationCommandException
                 "User Command has too many arguments, only one is allowed")
             else if negb (user_annotation ann) then
               Raise (ApplicationCommandException
                        "Command argument incorrectly type hinted")
             else Ok (i + 1, true, set_user_command_field self name))
      (Ok (0, false, self)) (params func);
  if negb fielded then
    Raise (ApplicationCommandException "No argument set for a member/user")
  else Ok self.

Definition message_annotation (a : annotation) : bool :=
  match a with
  | AnnMessage | AnnInteraction | AnnUser | AnnMember
  | AnnUnionUserMember => true
  | _ => false
  end.

Definition _parse_message_command_arguments (func : AsyncFunc) (self : t)
  : result t :=
  '(i, fielded) ←
    foldl (fun acc '(_, ann) =>
             '(i, fielded) ← acc;
             if (i =? 3) then
               Raise (ApplicationCommandException
                 "Message Command has too many arguments, only two are allowed")
             else if negb (message_annotation ann) then
               Raise (ApplicationCommandException
                        "Command argument incorrectly type hinted")
             else Ok (i + 1,
                      match ann with
                      | AnnInteraction => fielded
                      | _ => true
                      end))
      (Ok (0, false)) (params func);
  if negb fielded then
    Raise (ApplicationCommandException
             "No argument set for a message and user")
  else Ok self.

(** One parameter of a chat-input callback. [get_args] of an
    [Annotated[ty, x]] annotation is the pair [(ty, x)]; of a plain
    class it is empty, and [args[1]] is an [IndexError]; of
    [Union[User, Member]] its second member is a class, not an
    [Option]. *)
Definition parse_parameter (name : string) (ann : annotation)
  : stateful (t * list Option.t) unit :=
  fun '(self, h) =>
    if String.eqb name "self" then (Ok tt, (self, h))
    else
      match ann with
      | AnnInteraction | AnnContext => (Ok tt, (self, h))
      | AnnAnnotated ty (inl r) =>
          match h !! r with
          | None => (Raise Unmodelled, (self, h))
          | Some option =>
              let option := Option.set_param option name in
              match _OPTION_BIND ty with
              | Raise e => (Raise e, (self, <[r := option]> h))
              | Ok code =>
                  let option := Option.set_type option code in
                  let option :=
                    if truthy (Option.name option) then option
                    else Option.set_name option (VStr name) in
                  let h := <[r := option]> h in
                  match options self, _options_dict self,
                        Option.name option with
                  | Some opts, Some d, VStr oname =>
                      (Ok tt,
                       (set_options_dict (set_options self (opts ++ [r]))
                          (<[KStr oname := r]> d), h))
                  | Some _, Some _, _ => (Raise Unmodelled, (self, h))
                  | _, _, _ => (Raise AttributeError, (self, h))
                  end
              end
          end
      | AnnAnnotated _ (inr shown) =>
          (Raise (ApplicationCommandException
                    ("Options may only be of type Option, not " +:+ shown)),
           (self, h))
      | AnnUnionUserMember =>
          (Raise (ApplicationCommandException
                    "Options may only be of type Option, not <class 'pycord.member.Member'>"),
           (self, h))
      | _ => (Raise IndexError, (self, h))
      end.

(** [_parse_arguments]. *)
Definition _parse_arguments : stateful (t * list Option.t) unit :=
  fun '(self, h) =>
    match _callback self with
    | None => (Raise TypeError, (self, h))
    | Some func =>
        if type self =? 2 then
          match _parse_user_command_arguments func self with
          | Ok self => (Ok tt, (self, h))
          | Raise e => (Raise e, (self, h))
          end
        else if type self =? 3 then
          match _parse_message_command_arguments func self with
          | Ok self => (Ok tt, (self, h))
          | Raise e => (Raise e, (self, h))
          end
        else
          let self := set_options_dict (set_options self []) ∅ in
          match for_each (fun p (_ : unit) => parse_parameter p.1 p.2)
                  (params func) tt (self, h) with
          | (Raise e, s) => (Raise e, s)
          | (Ok _, (self, h)) =>
              match mapM (fun r => o ← deref h r;
                                   Option.to_dict stack_depth h o)
                      (default [] (options self)) with
              | Raise e => (Raise e, (self, h))
              | Ok ds => (Ok tt, (set__options self (_options self ++ ds), h))
              end
          end
    end.

(** The arguments of [ApplicationCommand.__init__] ([state] and [group]
    apart, which the base class stores). *)
Record args : Type := MkArgs {
  a_callback : option AsyncFunc;
  a_name : pykey;
  a_type : Z;
  a_description : pyval;
  a_guild_id : option Z;
  a_name_localizations : pyval;
  a_description_localizations : pyval;
  a_dm_permission : pyval;
  a_nsfw : pyval;
  a_default_member_permissions : pyval;
}.

(** [ApplicationCommand.__init__]: the option objects named by the
    callback's annotations live in the store [h]. *)
Definition __init__ (a : args) (h : list Option.t)
  : result (t * list Option.t) :=
  name ← (if truthy (key_val (a_name a)) then
            match a_name a with
            | KStr s => Ok s
            | _ => Raise Unmodelled
            end
          else
            match a_callback a with
            | Some f => Ok (lower (__name__ f))
            | None => Raise AttributeError
            end);
  description ← (if a_type a =? 1 then
                   if truthy (a_description a) then Ok (a_description a)
                   else
                     match a_callback a with
                     | Some f =>
                         Ok (py_or (__doc__ f)
                               (VStr "No description provided"))
                     | None => Raise AttributeError
                     end
                 else Ok VMissing);
  let self :=
    Mk name (a_type a) (a_guild_id a) (a_name_localizations a) description
       (a_description_localizations a) (a_dm_permission a) (a_nsfw a)
       VMissing (a_callback a) None None [] None false None None in
  match _parse_arguments (self, h) with
  | (Raise e, _) => Raise e
  | (Ok _, (self, h)) =>
      let self := if type self =? 1 then set_subs self ∅ else self in
      let self := set_created self false in
      Ok (set_default_member_permissions self
            (a_default_member_permissions a), h)
  end.

(** *** Synchronisation with the platform: [instantiate] *)

Definition on_world {A} (m : stateful Http.world A)
  : stateful (t * Http.world) A :=
  fun '(self, w) =>
    match m w with
    | (r, w') => (r, (self, w'))
    end.

Definition on_self (f : t -> t) : stateful (t * Http.world) unit :=
  st_modify (fun '(self, w) => (f self, w)).

Definition get_self : stateful (t * Http.world) t :=
  fun '(self, w) => (Ok self, (self, w)).

(** [app_cmd['name'] == self.name]. *)
Definition str_eq (v : pyval) (s : string) : bool :=
  match v with
  | VStr x => String.eqb x s
  | _ => false
  end.

(** [app_cmd['name'] in self._state._application_command_names]. *)
Definition name_in (v : pyval) (names : list string) : bool :=
  match v with
  | VStr x => existsb (String.eqb x) names
  | _ => false
  end.

(** The keyword arguments of the edit and create calls. *)
Definition fields (self : t) : payload :=
  remove_undefined
    [("name", VStr (name self));
     ("name_localizations", name_localizations self);
     ("description", description self);
     ("description_localizations", description_localizations self);
     ("type", VInt (type self));
     ("options", VList (VDict <$> _options self))]%string.

Section Instantiate.
Context (overwrite : bool) (state : State.t).

(** The body of [for app_cmd in guild_commands]. *)
Definition guild_step (g : Z) (app_cmd : pyval) (_ : unit)
  : stateful (t * Http.world) unit :=
  cname ← st_lift (getitem app_cmd (VStr "name"));
  if negb (name_in cname (State._application_command_names state)) then
    cid ← st_lift (getitem app_cmd (VStr "id"));
    on_world (Http.delete_guild_application_command g cid)
  else
    self ← get_self;
    if str_eq cname (name self) && State.update_commands state then
      ctype ← st_lift (getitem app_cmd (VStr "type"));
      if negb (eq_int ctype (type self)) then st_ret tt
      else if _created self then
        cid ← st_lift (getitem app_cmd (VStr "id"));
        on_world (Http.delete_guild_application_command g cid)
      else
        cid ← st_lift (getitem app_cmd (VStr "id"));
        _ ← on_self (fun self => set_id self cid);
        cid ← st_lift (getitem app_cmd (VStr "id"));
        _ ← on_world (Http.edit_guild_application_command cid g (fields self));
        on_self (fun self => set_created self true)
    else st_ret tt.

(** The body of [for app_cmd in self._state.application_commands]. *)
Definition global_step (app_cmd : pyval) (_ : unit)
  : stateful (t * Http.world) unit :=
  cname ← st_lift (getitem app_cmd (VStr "name"));
  self ← get_self;
  if str_eq cname (name self) && State.update_commands state then
    ctype ← st_lift (getitem app_cmd (VStr "type"));
    if negb (eq_int ctype (type self)) then st_ret tt
    else
      _ ← (if _created self then
             cid ← st_lift (getitem app_cmd (VStr "id"));
             on_world (Http.delete_global_application_command cid)
           else st_ret tt);
      cid ← st_lift (getitem app_cmd (VStr "id"));
      _ ← on_world (Http.edit_global_application_command cid (fields self));
      _ ← on_self (fun self => set_created self true);
      cid ← st_lift (getitem app_cmd (VStr "id"));
      on_self (fun self => set_id self cid)
  else st_ret tt.

(** [if self.guild_id:] on an [int] or [None]. *)
Definition guild_of (self : t) : option Z :=
  match guild_id self with
  | Some g => if g =? 0 then None else Some g
  | None => None
  end.

(** [ApplicationCommand.instantiate]. *)
Definition instantiate : stateful (t * Http.world) unit :=
  self ← get_self;
  match guild_of self with
  | Some g =>
      guild_commands ← on_world (Http.get_guild_application_commands g);
      _ ← for_each (guild_step g) guild_commands tt;
      self ← get_self;
      if negb (_created self) then
        res ← on_world (Http.create_guild_application_command overwrite g
                          (fields self));
        rid ← st_lift (getitem res (VStr "id"));
        on_self (fun self => set_id self rid)
      else st_ret tt
  | None =>
      _ ← for_each global_step (State.application_commands state) tt;
      self ← get_self;
      if negb (_created self) then
        res ← on_world (Http.create_global_application_command overwrite
                          (fields self));
        rid ← st_lift (getitem res (VStr "id"));
        on_self (fun self => set_id self rid)
      else st_ret tt
  end.

End Instantiate.


(** *** Decoding a received option tree: [_process_options] *)

(** [interaction.data['resolved'][kind]]. *)
Definition resolved_map (interaction : Interaction.t) (kind : string)
  : result pyval :=
  resolved ← getitem (Interaction.data interaction) (VStr "resolved");
  getitem resolved (VStr kind).

(** [interaction.data['resolved'][kind][option.value]]. *)
Definition resolved_entry (interaction : Interaction.t) (kind : string)
  (value : pyval) : result pyval :=
  entries ← resolved_map interaction kind;
  getitem entries value.

(** [interaction.data['resolved'].get('roles')]. *)
Definition resolved_roles (interaction : Interaction.t) : result pyval :=
  resolved ← getitem (Interaction.data interaction) (VStr "resolved");
  match resolved with
  | VDict d => Ok (dict_get d "roles")
  | _ => Raise AttributeError
  end.

(** [identify_channel] on a resolved entry. *)
Definition identify (entry : pyval) : result Channel.channel :=
  match entry with
  | VDict d => Channel.identify_channel d
  | _ => Raise TypeError
  end.

Section Decode.
Context {outside : Outside}.
Context (h : list Option.t) (self : t) (interaction : Interaction.t).

(** The user or member a node names; [with_guild] tells whether the
    member is built with the interaction's guild id (option type 6) or
    without (option type 9). *)
Definition user_or_member (with_guild : bool) (value : pyval)
  : result bound :=
  u ← resolved_entry interaction "users" value;
  let user := MkUser u in
  if truthy (Interaction.guild_id interaction) then
    m ← resolved_entry interaction "members" value;
    member ← Member_init m (if with_guild
                            then Interaction.guild_id interaction
                            else VNone);
    Ok (BMember (set_user member user))
  else Ok (BUser user).

(** [binding[o._param] = v]: the right-hand side is evaluated first. *)
Definition bind_param (o : Option.t) (v : result bound)
  (binding : gmap string bound) : io (gmap string bound) :=
  v ← st_lift v;
  param ← st_lift (attr (Option._param o));
  st_ret (<[param := v]> binding).

(** The body of [for option in options], for the call whose [grouped]
    argument is given. A nested call of [_process_options] starts from
    its own empty [binding]. *)
Fixpoint process_option (grouped : bool) (option : InteractionOption.t)
  (binding : gmap string bound) {struct option}
  : io (gmap string bound) :=
  let ty := InteractionOption.type option in
  let value := InteractionOption.value option in
  o ← st_lift (d ← attr (_options_dict self);
               r ← lookup_ref d (KStr (InteractionOption.name option));
               deref h r);
  if ty =? 1 then
    sub ← st_lift (subs ← attr (_subs self);
                   r ← lookup_ref subs (KStr (InteractionOption.name option));
                   deref h r);
    opts ← for_each (process_option false)
             (InteractionOption.options option) ∅;
    _ ← (if grouped then st_ret tt
         else await (_callback self) interaction [] ∅);
    callback ← st_lift (attr (Option._callback sub));
    _ ← await callback interaction [] opts;
    st_ret binding
  else if ty =? 2 then
    _ ← await (_callback self) interaction [] ∅;
    _ ← for_each (process_option true)
          (InteractionOption.options option) ∅;
    st_ret binding
  else if (ty =? 3) || (ty =? 4) || (ty =? 5) || (ty =? 10) then
    bind_param o (Ok (BVal (Option.value (Option._inter_copy o option))))
      binding
  else if ty =? 6 then
    bind_param o (user_or_member true value) binding
  else if ty =? 7 then
    bind_param o (c ← (e ← resolved_entry interaction "channels" value;
                       identify e);
                  Ok (BChannel c)) binding
  else if ty =? 8 then
    bind_param o (r ← resolved_entry interaction "roles" value;
                  role ← Role_init r;
                  Ok (BRole role)) binding
  else if ty =? 9 then
    roles ← st_lift (resolved_roles interaction);
    if truthy roles then
      bind_param o (r ← resolved_entry interaction "roles" value;
                    role ← Role_init r;
                    Ok (BRole role)) binding
    else bind_param o (user_or_member false value) binding
  else if ty =? 11 then
    bind_param o (a ← resolved_entry interaction "attachments" value;
                  Ok (BAttachment (MkAttachment a))) binding
  else st_ret binding.

(** [_process_options(interaction, options, grouped)]. *)
Definition _process_options (options : list InteractionOption.t)
  (grouped : bool) : io (gmap string bound) :=
  for_each (process_option grouped) options ∅.

(** [_process_user_command]. *)
Definition _process_user_command : bound :=
  match Interaction.member interaction with
  | Some m => BMember m
  | None =>
      match Interaction.user interaction with
      | Some u => BUser u
      | None => BVal VMissing
      end
  end.

End Decode.


(** *** Dispatch: [_invoke] *)

(** [interaction.data.get(k)]. *)
Definition data_get (interaction : Interaction.t) (k : string)
  : result pyval :=
  match Interaction.data interaction with
  | VDict d => Ok (dict_get d k)
  | _ => Raise AttributeError
  end.

(** A received value used as a key of [_options_dict]. *)
Definition val_key (v : pyval) : result pykey :=
  match v with
  | VStr s => Ok (KStr s)
  | VNone => Ok KNone
  | VMissing => Ok KMissing
  | VList _ | VDict _ => Raise TypeError
  | _ => Raise KeyError
  end.

Section Invoke.
Context {outside : Outside}.
(** What a completer written by the user returns is the user's code. *)
Context (user_completer : AsyncFunc -> Option.t -> pyval -> result pyval).
Context (h : list Option.t) (self : t) (interaction : Interaction.t).

(** [await real_option.autocompleter(interaction, real_option, string)]. *)
Definition run_completer (r : ref) (real_option : Option.t)
  (string : pyval) : io pyval :=
  match Option.autocompleter real_option with
  | Option.DefaultAutocomplete =>
      ds ← st_lift (Option._autocomplete real_option string);
      st_ret (VList (VDict <$> ds))
  | Option.UserCompleter f =>
      _ ← emit (AwaitCompleter f r string);
      st_lift (user_completer f real_option string)
  end.

(** [ApplicationCommand._invoke] on an [Interaction]. The autocomplete
    branch ends with [interaction.response.autocomplete(choices)]: the
    class [InteractionResponse] defines [send] and nothing else, and
    [response] itself is assigned only when the interaction was built for
    one, so the attribute lookup raises [AttributeError] once the
    completer has returned. The chat-input branch reads
    [interaction.options] before it decodes anything. *)
Definition _invoke : io unit :=
  let data := Interaction.data interaction in
  if Interaction.type interaction =? 4 then
    n ← st_lift (data_get interaction "name");
    if negb (is_none n) then
      n ← st_lift (getitem data (VStr "name"));
      if str_eq n (name self) then
        options ← st_lift (getitem data (VStr "options"));
        option ← st_lift (getitem options (VInt 0));
        oname ← st_lift (getitem option (VStr "name"));
        r ← st_lift (d ← attr (_options_dict self);
                     k ← val_key oname;
                     lookup_ref d k);
        real_option ← st_lift (deref h r);
        string ← st_lift (getitem option (VStr "value"));
        _ ← run_completer r real_option string;
        st_raise AttributeError
      else st_ret tt
    else st_ret tt
  else if truthy data then
    n ← st_lift (data_get interaction "name");
    if negb (is_none n) then
      n ← st_lift (getitem data (VStr "name"));
      if str_eq n (name self) then
        ty ← st_lift (getitem data (VStr "type"));
        if eq_int ty 1 then
          options ← st_lift (attr (Interaction.options interaction));
          binding ← _process_options h self interaction options false;
          match _callback self with
          | Some _ => await (_callback self) interaction [] binding
          | None => st_ret tt
          end
        else if eq_int ty 2 then
          await (_callback self) interaction
            [_process_user_command interaction] ∅
        else if eq_int ty 3 then
          target ← st_lift (getitem data (VStr "target_id"));
          m ← st_lift (resolved_entry interaction "messages" target);
          await (_callback self) interaction
            [BMessage (MkMessage m); _process_user_command interaction] ∅
        else st_ret tt
      else st_ret tt
    else st_ret tt
  else st_ret tt.

End Invoke.

End ApplicationCommand.

(** ** Responding to an interaction: [pycord/interaction.py] *)

Module InteractionResponse.

Record t : Type := Mk { responded : bool }.

(** The transport as the response sees it: the responses the platform
    accepted and the number of requests issued so far. *)
Record wire : Type := MkWire {
  delivered : list payload;
  requests : nat;
}.

Section Send.
(** Whether the [n]-th request fails in transport. *)
Context (fails : nat -> bool).

(** [self._parent._state.http.create_interaction_response(id, token, body)]. *)
Definition create_interaction_response (body : payload)
  : stateful wire unit :=
  fun w =>
    if fails (requests w)
    then (Raise HTTPException, MkWire (delivered w) (S (requests w)))
    else (Ok tt, MkWire (delivered w ++ [body]) (S (requests w))).

(** [InteractionResponse.send(content, tts, embeds, flags)]. *)
Definition send (content tts embeds flags : pyval)
  : stateful (t * wire) unit :=
  fun '(self, w) =>
    if responded self then
      (Raise (InteractionException
                "This interaction has already been responded to"),
       (self, w))
    else
      match create_interaction_response
              [("type", VInt 4);
               ("data", VDict [("content", content); ("tts", tts);
                               ("embeds", embeds); ("flags", flags)])]%string
              w with
      | (Ok _, w') => (Ok tt, (Mk true, w'))
      | (Raise e, w') => (Raise e, (self, w'))
      end.

End Send.

End InteractionResponse.


(** ** Calls with keyword arguments *)

Module Call.

(** [f(k=v, ...)] on a function whose parameters after [*] are [params]:
    a keyword that names none of them is a [TypeError]. *)
Definition accepts (params : list string) (kwargs : payload) : result unit :=
  if forallb (fun kv => existsb (String.eqb (fst kv)) params) kwargs
  then Ok tt
  else Raise TypeError.

(** The value a parameter is bound to: the keyword argument of its name,
    or its default. *)
Definition given (kwargs : payload) (p : string) (default : pyval) : pyval :=
  match get p kwargs with
  | Some v => v
  | None => default
  end.

(** A parameter without default: leaving it out is a [TypeError]. *)
Definition required (kwargs : payload) (p : string) : result pyval :=
  match get p kwargs with
  | Some v => Ok v
  | None => Raise TypeError
  end.

End Call.

(** ** The channel endpoints: [pycord/api/routers/channels.py] *)

Module Channels.

(** What [BaseRouter.request] is called with: the method, the path
    template and the arguments of [Route], the JSON body if one is
    passed, and the [reason] keyword if one is passed. *)
Record http_request : Type := MkRequest {
  method : string;
  path : string;
  path_args : list (string * pyval);
  body : option payload;
  reason : option pyval;
}.

Definition http (A : Type) : Type := stateful (list http_request) A.

(** The parameters of [modify_channel] after [channel_id], as the source
    spells them. *)
Definition modify_channel_params : list string :=
  ["name"; "icon"; "archived"; "auto_archive_duration"; "locked";
   "invitable"; "applied_tags"; "rate_limit_per_user"; "flags"; "type";
   "position"; "topic"; "nsfw"; "bitrate"; "user_imit";
   "permission_overwrites"; "parent_id"; "rtc_region";
   "video_quality_mode"; "default_auto_archive_duration";
   "available_tags"; "default_reaction_emoji";
   "default_thread_rate_limit_per_user"; "default_sort_order";
   "default_forum_layout"; "reason"]%string.

(** The [data] dictionary that [modify_channel] builds. *)
Definition modify_channel_data (kwargs : payload) : payload :=
  let arg p := Call.given kwargs p VMissing in
  [("name", arg "name");
   ("archived", arg "archived");
   ("auto_archive_duration", arg "auto_archive_duration");
   ("locked", arg "locked");
   ("invitable", arg "invitable");
   ("applied_tags", arg "applied_tags");
   ("rate_limit_per_user", arg "rate_limit_per_user");
   ("flags", arg "flags");
   ("type", arg "type");
   ("position", arg "position");
   ("topic", arg "topic");
   ("nsfw", arg "nsfw");
   ("bitrate", arg "bitrate");
   ("user_limit", arg "user_imit");
   ("permission_overwrites", arg "permission_overwrites");
   ("parent_id", arg "parent_id");
   ("rtc_region", arg "rtc_region");
   ("video_quality_mode", arg "video_quality_mode");
   ("default_auto_archive_duration", arg "default_auto_archive_duration");
   ("available_tags", arg "available_tags");
   ("default_reaction_emoji", arg "default_reaction_emoji");
   ("default_thread_rate_limit_per_user",
    arg "default_thread_rate_limit_per_user");
   ("default_sort_order", arg "default_sort_order");
   ("default_forum_layout", arg "default_forum_layout")]%string.

Section Endpoints.
(** [BaseRouter.request] is not among the sources: the model records the
    request and lets the platform answer it. *)
Context (respond : http_request -> result pyval).

Definition request (r : http_request) : http pyval :=
  fun log => (respond r, log ++ [r]).

(** [modify_channel(channel_id, **kwargs)]. *)
Definition modify_channel (channel_id : pyval) (kwargs : payload)
  : http pyval :=
  _ ← st_lift (Call.accepts modify_channel_params kwargs);
  request (MkRequest "PATCH" "/channels/{channel_id}"
             [("channel_id"%string, channel_id)]
             (Some (remove_undefined (modify_channel_data kwargs)))
             (Some (Call.given kwargs "reason" VNone))).


(** [start_thread_in_forum_channel(channel_id, **kwargs)]. *)
Definition start_thread_in_forum_channel (channel_id : pyval)
  (kwargs : payload) : http pyval :=
  _ ← st_lift (Call.accepts
                 ["name"; "auto_archive_duration"; "rate_limit_per_user";
                  "message"; "applied_tags"; "reason"]%string kwargs);
  name ← st_lift (Call.required kwargs "name");
  _ ← st_lift (Call.required kwargs "message");
  request (MkRequest "POST" "/channels/{channel_id}/threads"
             [("channel_id"%string, channel_id)]
             (Some (remove_undefined
                      [("name", name);
                       ("auto_archive_duration",
                        Call.given kwargs "auto_archive_duration" VMissing);
                       ("rate_limit_per_user",
                        Call.given kwargs "rate_limit_per_user" VMissing)
                      ]%string))
             (Some (Call.given kwargs "reason" VNone))).

End Endpoints.

End Channels.

(** ** Channel objects and their [edit] methods: [pycord/channel.py] *)

Module _Overwrite.

(** [allow] and [deny] are kept by the [value] of the permission set;
    the class [Permissions] is not among the sources. *)
Record t : Type := Mk {
  id : pyval;
  type : pyval;
  allow_value : pyval;
  deny_value : pyval;
}.

Definition to_dict (self : t) : payload :=
  [("id", id self); ("type", type self); ("allow", allow_value self);
   ("deny", deny_value self)]%string.

End _Overwrite.

Module ForumTag.

Record t : Type := Mk {
  id : pyval;
  name : pyval;
  moderated : pyval;
  emoji_id : pyval;
  emoji_name : pyval;
}.

(** [ForumTag(name=..., moderated=..., emoji_id=..., emoji_name=...)]. *)
Definition __init__ (name moderated emoji_id emoji_name : pyval) : t :=
  Mk VNone name moderated emoji_id emoji_name.

(** [obj.id = v]. *)
Definition set_id (obj : t) (v : pyval) : t :=
  Mk v (name obj) (moderated obj) (emoji_id obj) (emoji_name obj).

(** [isinstance(v, int)]; [bool] is a subclass of [int]. *)
Definition is_int (v : pyval) : bool :=
  match v with
  | VInt _ | VBool _ => true
  | _ => false
  end.

Section FromDict.
(** The constructor of [Snowflake], which is not among the sources. *)
Context (Snowflake : pyval -> result pyval).

Definition from_dict (data : payload) : result t :=
  n ← subscript data "name";
  m ← subscript data "moderated";
  let em_id := dict_get data "emoji_id" in
  e ← (if is_int em_id then Snowflake em_id else Ok em_id);
  let obj := __init__ n m e (dict_get data "emoji_name") in
  raw ← subscript data "id";
  i ← Snowflake raw;
  Ok (set_id obj i).

End FromDict.

Definition to_dict (self : t) : payload :=
  [("name", name self); ("moderated", moderated self);
   ("emoji_id", emoji_id self); ("emoji_name", emoji_name self)]%string.

End ForumTag.

Module ChannelMethods.

Import Channel.

(** An argument annotated with an enum class, [None] or [MISSING]. The
    enum classes are not among the sources: a member is given by its
    [value] and its truth value. *)
Inductive enum_arg : Type :=
| EnumMissing
| EnumNone
| EnumMember (value : pyval) (truth : bool).

(** [e.value if e else MISSING]. *)
Definition value_or_missing (e : enum_arg) : pyval :=
  match e with
  | EnumMember v true => v
  | _ => VMissing
  end.

(** [[o.to_dict() for o in permission_overwrites] if permission_overwrites
    else MISSING]; [None] stands for the default [MISSING]. *)
Definition overwrites_or_missing
  (permission_overwrites : option (list _Overwrite.t)) : pyval :=
  match permission_overwrites with
  | Some (o :: rest) => VList (VDict <$> (_Overwrite.to_dict <$> o :: rest))
  | _ => VMissing
  end.

(** [cls(data, state)] on the answer of the platform. The field reads of
    the constructors are not modelled. *)
Definition construct (cls : channel_class) (data : pyval) : result channel :=
  match data with
  | VDict d => Ok (MkChannel cls d)
  | _ => Raise TypeError
  end.

Section Methods.
Context (respond : Channels.http_request -> result pyval).
(** The class of the object and its [id] attribute. *)
Context (self_class : channel_class) (self_id : pyval).

(** [Channel._base_edit] with its keyword arguments. *)
Definition _base_edit (kwargs : payload) : Channels.http channel :=
  data ← Channels.modify_channel respond self_id kwargs;
  st_lift (construct self_class data).

(** [TextChannel.edit]. *)
Definition TextChannel_edit (name : pyval) (type : enum_arg)
  (position topic nsfw rate_limit_per_user : pyval)
  (permission_overwrites : option (list _Overwrite.t))
  (parent_id default_auto_archive_duration
     default_thread_rate_limit_per_user : pyval)
  : Channels.http channel :=
  _base_edit
    [("name", name);
     ("type", value_or_missing type);
     ("position", position);
     ("topic", topic);
     ("nsfw", nsfw);
     ("rate_limit_per_user", rate_limit_per_user);
     ("permission_overwrites", overwrites_or_missing permission_overwrites);
     ("parent_id", parent_id);
     ("default_auto_archive_duration", default_auto_archive_duration);
     ("default_thread_rate_limit_per_user",
      default_thread_rate_limit_per_user)]%string.

(** [VoiceChannel.edit] and [StageChannel.edit], which have the same
    parameters and the same body. *)
Definition AudioChannel_edit (name position nsfw bitrate user_limit : pyval)
  (permission_overwrites : option (list _Overwrite.t))
  (parent_id rtc_region : pyval) (video_quality_mode : enum_arg)
  : Channels.http channel :=
  _base_edit
    [("name", name);
     ("position", position);
     ("nsfw", nsfw);
     ("bitrate", bitrate);
     ("user_limit", user_limit);
     ("permission_overwrites", overwrites_or_missing permission_overwrites);
     ("parent_id", parent_id);
     ("rtc_region", rtc_region);
     ("video_quality_mode", value_or_missing video_quality_mode)]%string.

Definition VoiceChannel_edit := AudioChannel_edit.
Definition StageChannel_edit := AudioChannel_edit.

(** [GroupDMChannel.edit]: the result is built as a [GroupDMChannel]
    whatever the class of [self]. *)
Definition GroupDMChannel_edit (name icon : pyval) : Channels.http channel :=
  data ← Channels.modify_channel respond self_id
           [("name", name); ("icon", icon)]%string;
  st_lift (construct GroupDMChannel data).

(** [CategoryChannel.edit]. *)
Definition CategoryChannel_edit (name position : pyval)
  (permission_overwrites : option (list _Overwrite.t))
  : Channels.http channel :=
  _base_edit
    [("name", name);
     ("position", position);
     ("permission_overwrites", overwrites_or_missing permission_overwrites)
    ]%string.

End Methods.

End ChannelMethods.

(** * Predicates and reference objects *)

(** The predicates in which the properties are stated, and the concrete
    objects at which they are evaluated. *)

(** A command is declared as a chat-input command when its [type] is 1
    and the attributes that the chat-input path of the constructor
    assigns are there. *)
Definition chat_input (self : ApplicationCommand.t) : Prop :=
  ApplicationCommand.type self = 1 /\
  is_Some (ApplicationCommand.options self) /\
  is_Some (ApplicationCommand._options_dict self) /\
  is_Some (ApplicationCommand._subs self).

(** The scalar attributes of an option, each under the key that
    [to_dict] gives it. *)
Definition attributes (o : Option.t) : payload :=
  [("type", VInt (Option.type o));
   ("name", Option.name o);
   ("name_localizations", Option.name_localizations o);
   ("description", Option.description o);
   ("description_localizations", Option.description_localizations o);
   ("required", Option.required o);
   ("choices", Option.choices o);
   ("channel_types", Option.channel_types o);
   ("min_value", Option.min_value o);
   ("max_value", Option.max_value o);
   ("autocomplete", Option.autocomplete o)]%string.

(** The options below [o] are in the store, at most [n] levels deep. *)
Fixpoint nested (h : list Option.t) (n : nat) (o : Option.t) : Prop :=
  match n with
  | O => Option.options o = []
  | S m =>
      Forall (fun r => exists c, h !! r = Some c /\ nested h m c)
        (Option.options o)
  end.

(** The arguments of one [send] call: content, tts, embeds, flags. *)
Record send_args : Type := MkSend {
  s_content : pyval;
  s_tts : pyval;
  s_embeds : pyval;
  s_flags : pyval;
}.

(** A caller that sends again and again on one response object, going on
    whatever each call returns or raises. *)
Definition send_all (fails : nat -> bool) (calls : list send_args)
  (s : InteractionResponse.t * InteractionResponse.wire)
  : InteractionResponse.t * InteractionResponse.wire :=
  foldl (fun s c =>
           (InteractionResponse.send fails (s_content c) (s_tts c)
              (s_embeds c) (s_flags c) s).2)
    s calls.

(** A fresh response object on a transport that carried nothing yet. *)
Definition fresh_response : InteractionResponse.t * InteractionResponse.wire :=
  (InteractionResponse.Mk false, InteractionResponse.MkWire [] 0).

(** While [responded] is unset nothing was delivered, and afterwards
    exactly one response was. *)
Definition sent_at_most_once_inv (s : InteractionResponse.t * InteractionResponse.wire) : Prop :=
  if InteractionResponse.responded s.1 then length (InteractionResponse.delivered s.2) = 1%nat
  else InteractionResponse.delivered s.2 = [].

(** How many commands of guild [g] the platform holds under the name and
    type of [self]. *)
Definition registered (w : Http.world) (g : Z) (self : ApplicationCommand.t)
  : nat :=
  length (List.filter
            (fun c =>
               ApplicationCommand.str_eq (dict_get c "name")
                 (ApplicationCommand.name self)
               && eq_int (dict_get c "type") (ApplicationCommand.type self))
            (Http.of_guild w g)).

(** [self.instantiate()] called [n] times in sequence, going on from the
    state each call leaves. *)
Fixpoint instantiate_times (overwrite : bool) (state : State.t) (n : nat)
  (s : ApplicationCommand.t * Http.world)
  : ApplicationCommand.t * Http.world :=
  match n with
  | O => s
  | S m =>
      instantiate_times overwrite state m
        (ApplicationCommand.instantiate overwrite state s).2
  end.

(** The id that a node refers to is not a key of the resolved map of
    the given kind. *)
Definition missing_from (interaction : Interaction.t) (kind : string)
  (value : pyval) : Prop :=
  exists entries id,
    ApplicationCommand.resolved_map interaction kind = Ok (VDict entries) /\
    value = VStr id /\ get id entries = None.

(** A node refers to an entity that the resolved map consulted for its
    type does not hold. Type 6 consults [users] and, in a guild,
    [members]; type 7 [channels]; type 8 [roles]; type 9 [roles] when
    that map is there and not empty, else [users] and [members]; type 11
    [attachments]. *)
Inductive lookup_miss (interaction : Interaction.t)
  (node : InteractionOption.t) : Prop :=
| miss_user :
    InteractionOption.type node = 6 ->
    missing_from interaction "users" (InteractionOption.value node) ->
    lookup_miss interaction node
| miss_member (u : pyval) :
    InteractionOption.type node = 6 ->
    ApplicationCommand.resolved_entry interaction "users"
      (InteractionOption.value node) = Ok u ->
    truthy (Interaction.guild_id interaction) = true ->
    missing_from interaction "members" (InteractionOption.value node) ->
    lookup_miss interaction node
| miss_channel :
    InteractionOption.type node = 7 ->
    missing_from interaction "channels" (InteractionOption.value node) ->
    lookup_miss interaction node
| miss_role :
    InteractionOption.type node = 8 ->
    missing_from interaction "roles" (InteractionOption.value node) ->
    lookup_miss interaction node
| miss_mentioned_role (roles : pyval) :
    InteractionOption.type node = 9 ->
    ApplicationCommand.resolved_roles interaction = Ok roles ->
    truthy roles = true ->
    missing_from interaction "roles" (InteractionOption.value node) ->
    lookup_miss interaction node
| miss_mentioned_user (roles : pyval) :
    InteractionOption.type node = 9 ->
    ApplicationCommand.resolved_roles interaction = Ok roles ->
    truthy roles = false ->
    missing_from interaction "users" (InteractionOption.value node) ->
    lookup_miss interaction node
| miss_mentioned_member (roles u : pyval) :
    InteractionOption.type node = 9 ->
    ApplicationCommand.resolved_roles interaction = Ok roles ->
    truthy roles = false ->
    ApplicationCommand.resolved_entry interaction "users"
      (InteractionOption.value node) = Ok u ->
    truthy (Interaction.guild_id interaction) = true ->
    missing_from interaction "members" (InteractionOption.value node) ->
    lookup_miss interaction node
| miss_attachment :
    InteractionOption.type node = 11 ->
    missing_from interaction "attachments" (InteractionOption.value node) ->
    lookup_miss interaction node.

(** The nodes that a call of [_process_options] on [options] comes to:
    the nodes of the list, and the nodes that the nested calls come to,
    which are made on the children of the nodes of type 1 and 2. *)
Inductive visited (node : InteractionOption.t)
  : list InteractionOption.t -> Prop :=
| visited_here (options : list InteractionOption.t) :
    node ∈ options -> visited node options
| visited_below (parent : InteractionOption.t)
    (options : list InteractionOption.t) :
    parent ∈ options ->
    InteractionOption.type parent = 1 \/ InteractionOption.type parent = 2 ->
    visited node (InteractionOption.options parent) ->
    visited node options.

(** The declared option that a node names, and the parameter it binds. *)
Definition declares (self : ApplicationCommand.t) (h : list Option.t)
  (node : InteractionOption.t) (o : Option.t) (param : string) : Prop :=
  exists d r,
    ApplicationCommand._options_dict self = Some d /\
    d !! KStr (InteractionOption.name node) = Some r /\
    h !! r = Some o /\
    Option._param o = Some param.

(** Modelled from the spec: "the platform's maximum choice count". No
    constant of the sources names it; the platform documents 25 choices
    for an autocomplete response. *)
Definition max_choices : nat := 25.

(** The mapping that [CommandChoice._to_dict] builds for a choice that
    was constructed without a [value]. *)
Definition choice_mapping (c : CommandChoice.t) : payload :=
  [("name", VStr (CommandChoice.name c));
   ("value", VStr (CommandChoice.name c));
   ("name_localizations", CommandChoice.name_localizations c)]%string.

(** A choice as the constructor leaves it when no [value] is given. *)
Definition plain_choice (c : CommandChoice.t) : Prop :=
  CommandChoice.value c = Some (VStr (CommandChoice.name c)).

Module Fixture.

(** A callback with plain parameters, none of them with a default, called
    with the interaction, [args] and [kwargs]: the arguments fit when the
    positional ones are not too many and the keywords are exactly the
    names of the parameters that are left. *)
Definition fits (f : AsyncFunc) (args : list bound)
  (kwargs : gmap string bound) : bool :=
  let rest := drop (S (length args)) (params f).*1 in
  (S (length args) <=? length (params f))%nat
  && forallb (fun k => bool_decide (is_Some (kwargs !! k))) rest
  && (size kwargs =? length rest)%nat.

(** A choice of what lies outside the sources: the imported constructors
    keep their argument, and every callback has plain parameters and a
    body that returns. *)
Definition plain_outside : Outside :=
  {| Snowflake := fun v => Ok v;
     Color := fun v => Ok v;
     Permissions_from_value := fun v => Ok v;
     fromisoformat := fun v => Ok v;
     callback_outcome := fun f _ args kwargs =>
       if fits f args kwargs then Ok tt else Raise TypeError |}.

(** The option object that both [command] decorators construct, before
    its callback and level are assigned. *)
Definition sub_command_option (name : pykey)
  (description name_localizations description_localizations : pyval)
  (func : AsyncFunc) : Option.t :=
  Option.Mk 1 Option.DefaultAutocomplete
    (py_or (key_val name) (VStr (lower (__name__ func))))
    name_localizations
    (py_or (py_or (py_or description (__doc__ func))
              (VStr "No description provided"))
       (VStr "No description provided"))
    description_localizations VMissing VMissing None [] VMissing VMissing
    VMissing VMissing ∅ 0 None None.

(** The callback of a top-level command that takes the interaction
    only. *)
Definition root_callback : AsyncFunc :=
  MkFunc "admin" VNone [("inter", AnnInteraction)]%string.

(** The chat-input command [admin] as its constructor leaves it for
    [root_callback]: no options, no sub commands, not yet created. *)
Definition root_command : ApplicationCommand.t :=
  ApplicationCommand.Mk "admin" 1 None VMissing
    (VStr "No description provided") VMissing VMissing VMissing VMissing
    (Some root_callback) (Some []) (Some ∅) [] (Some ∅) false None None.

(** A declared string option: localised names unset, localised
    descriptions explicitly [None], required, at most 10. *)
Definition query_option : Option.t :=
  Option.Mk 3 Option.DefaultAutocomplete (VStr "query") VMissing
    (VStr "what to look for") VNone (VBool true) VMissing None []
    VMissing VMissing (VInt 10) VMissing ∅ 0 (Some "query"%string) None.

(** A sub command holding [query_option], which is object 0 of the
    store [search_store]. *)
Definition search_option : Option.t :=
  Option.Mk 1 Option.DefaultAutocomplete (VStr "search") VMissing
    (VStr "No description provided") VMissing VMissing VMissing None [0%nat]
    VMissing VMissing VMissing VMissing ∅ 1 None None.

Definition search_store : list Option.t := [query_option; search_option].

(** Three choices, and the arguments of an option that completes over
    them. *)
Definition colours : list CommandChoice.t :=
  [CommandChoice.__init__ "Red" VNone VNone;
   CommandChoice.__init__ "Dark Red" VNone VNone;
   CommandChoice.__init__ "Green" VNone VNone].

Definition colour_args : Option.args :=
  Option.MkArgs (VStr "colour") (VStr "a colour") (Option.TypeClass PStr)
    VMissing VMissing VMissing (Some colours) None VMissing VMissing
    VMissing (VBool true) Option.DefaultAutocomplete.

(** The chat-input command [ping] of guild 5, as its constructor leaves
    it: not yet created. *)
Definition ping_command : ApplicationCommand.t :=
  ApplicationCommand.Mk "ping" 1 (Some 5) VMissing (VStr "Replies")
    VMissing VMissing VMissing VMissing
    (Some (MkFunc "ping" (VStr "Replies") [("inter", AnnInteraction)]%string))
    (Some []) (Some ∅) [] (Some ∅) false None None.

(** A session whose update policy is enabled and that declares [ping]. *)
Definition sync_state : State.t := State.Mk true ["ping"%string] [].

(** The platform when the process starts: guild 5 already holds [ping],
    registered by an earlier run of the bot. *)
Definition registered_world : Http.world :=
  Http.MkWorld
    {[ 5 := [[("id", VStr "900"); ("name", VStr "ping"); ("type", VInt 1);
              ("description", VStr "Replies")]%string] ]}
    [] 1000.

(** The platform when guild 5 holds no command yet. *)
Definition empty_world : Http.world := Http.MkWorld ∅ [] 1000.

(** The two options that the callback of the sub command [grant]
    declares: objects 0 and 1 of the store before any decorator runs. *)
Definition user_leaf : Option.t :=
  Option.Mk 3 Option.DefaultAutocomplete (VStr "user") VMissing
    (VStr "who") VMissing VMissing VMissing None [] VMissing VMissing
    VMissing VMissing ∅ 0 None None.

Definition days_leaf : Option.t :=
  Option.Mk 3 Option.DefaultAutocomplete (VStr "days") VMissing
    (VStr "how long") VMissing VMissing VMissing None [] VMissing VMissing
    VMissing VMissing ∅ 0 None None.

Definition access_callback : AsyncFunc :=
  MkFunc "access" VNone [("inter", AnnInteraction)]%string.

Definition grant_callback : AsyncFunc :=
  MkFunc "grant" VNone
    [("inter", AnnInteraction);
     ("user", AnnAnnotated PStr (inl 0%nat));
     ("days", AnnAnnotated PInt (inl 1%nat))]%string.

(** The declaration
    [@admin.command(name='access')] followed by
    [@access.command(name='grant')], run on [root_command]: the command
    and the store it leaves, or [None] if a decorator raised. *)
Definition admin_declared
  : option (ApplicationCommand.t * list Option.t) :=
  match ApplicationCommand.command (KStr "access") VNone VMissing VMissing
          access_callback (root_command, [user_leaf; days_leaf]) with
  | (Ok group, (self, h)) =>
      match Option.command group (KStr "grant") VNone VMissing VMissing
              grant_callback h with
      | (Ok _, h') => Some (self, h')
      | (Raise _, _) => None
      end
  | (Raise _, _) => None
  end.

(** The option tree of [/admin access grant user:bob days:7]: a node of
    type 2 holding a node of type 1 holding two scalar leaves. *)
Definition grant_nodes : list InteractionOption.t :=
  [InteractionOption.Mk "access" 2 VMissing
     [InteractionOption.Mk "grant" 1 VMissing
        [InteractionOption.Mk "user" 3 (VStr "bob") [] VMissing;
         InteractionOption.Mk "days" 4 (VInt 7) [] VMissing]
        VMissing]
     VMissing].

Definition grant_interaction : Interaction.t :=
  Interaction.Mk 2
    (VDict [("name", VStr "admin"); ("type", VInt 1)]%string)
    (VInt 5) None None (Some grant_nodes).

(** A command with one parameter annotated [Annotated[User, Option()]];
    the option is object 0 of the store handed to the constructor. *)
Definition target_option : result Option.t := Option.__init__ Option.defaults.

Definition mention_callback : AsyncFunc :=
  MkFunc "warn" (VStr "Warn somebody")
    [("inter", AnnInteraction);
     ("target", AnnAnnotated PUser (inl 0%nat))]%string.

Definition mention_args : ApplicationCommand.args :=
  ApplicationCommand.MkArgs (Some mention_callback) KMissing 1 VMissing None
    VMissing VMissing VMissing VMissing VMissing.

Definition mention_declared
  : result (ApplicationCommand.t * list Option.t) :=
  o ← target_option;
  ApplicationCommand.__init__ mention_args [o].

(** An interaction in guild 5 whose resolved data holds the id 77 both
    as a role and as a user (and member), and a mentionable node that
    refers to 77. *)
Definition role_77 : pyval :=
  VDict [("id", VStr "77"); ("name", VStr "moderators"); ("color", VInt 0);
         ("hoist", VBool false); ("position", VInt 3);
         ("permissions", VStr "0"); ("managed", VBool false);
         ("mentionable", VBool true)]%string.

Definition user_77 : pyval :=
  VDict [("id", VStr "77"); ("username", VStr "bob")]%string.

Definition member_77 : pyval :=
  VDict [("roles", VList []); ("joined_at", VStr "2023-01-01T00:00:00")]%string.

Definition mention_interaction : Interaction.t :=
  Interaction.Mk 2
    (VDict
       [("name", VStr "warn"); ("type", VInt 1);
        ("resolved",
         VDict [("users", VDict [("77", user_77)]);
                ("members", VDict [("77", member_77)]);
                ("roles", VDict [("77", role_77)])])]%string)
    (VInt 5) None None None.

Definition mention_node : InteractionOption.t :=
  InteractionOption.Mk "target" 9 (VStr "77") [] VMissing.

(** The same interaction without resolved roles, and a node that refers
    to an id that the resolved users do not hold. *)
Definition users_only_interaction : Interaction.t :=
  Interaction.Mk 2
    (VDict
       [("name", VStr "warn"); ("type", VInt 1);
        ("resolved", VDict [("users", VDict [("77", user_77)])])]%string)
    VMissing None None None.

Definition stray_node : InteractionOption.t :=
  InteractionOption.Mk "target" 6 (VStr "78") [] VMissing.

(** The command [paint] with one parameter [colour], annotated with the
    option built from [colour_args]. *)
Definition paint_callback : AsyncFunc :=
  MkFunc "paint" (VStr "Paint it")
    [("inter", AnnInteraction);
     ("colour", AnnAnnotated PStr (inl 0%nat))]%string.

Definition paint_args : ApplicationCommand.args :=
  ApplicationCommand.MkArgs (Some paint_callback) KMissing 1 VMissing None
    VMissing VMissing VMissing VMissing VMissing.

Definition paint_declared
  : result (ApplicationCommand.t * list Option.t) :=
  o ← Option.__init__ colour_args;
  ApplicationCommand.__init__ paint_args [o].

(** The autocomplete request that the platform sends while the user has
    typed [RED] into [colour]. *)
Definition paint_request : Interaction.t :=
  Interaction.Mk 4
    (VDict
       [("name", VStr "paint"); ("type", VInt 1);
        ("options",
         VList [VDict [("name", VStr "colour"); ("type", VInt 3);
                       ("value", VStr "RED"); ("focused", VBool true)]])]%string)
    (VInt 5) None None None.

(** The same command with 26 registered choices, [shade0] to [shade25],
    and the request while the user has typed [shade]. *)
Definition shades : list CommandChoice.t :=
  (fun n => CommandChoice.__init__ ("shade" +:+ pretty n) VNone VNone)
    <$> seq 0 26.

Definition shade_args : Option.args :=
  Option.MkArgs (VStr "colour") (VStr "a colour") (Option.TypeClass PStr)
    VMissing VMissing VMissing (Some shades) None VMissing VMissing
    VMissing (VBool true) Option.DefaultAutocomplete.

Definition shade_declared
  : result (ApplicationCommand.t * list Option.t) :=
  o ← Option.__init__ shade_args;
  ApplicationCommand.__init__ paint_args [o].

Definition shade_request : Interaction.t :=
  Interaction.Mk 4
    (VDict
       [("name", VStr "paint"); ("type", VInt 1);
        ("options",
         VList [VDict [("name", VStr "colour"); ("type", VInt 3);
                       ("value", VStr "shade"); ("focused", VBool true)]])]%string)
    (VInt 5) None None None.

(** A completer of the user that is never reached on these requests. *)
Definition no_user_completer (_ : AsyncFunc) (_ : Option.t) (_ : pyval)
  : result pyval := Ok (VList []).

(** The command and the store that the declarations above leave. *)
Definition paint_command : ApplicationCommand.t :=
  match paint_declared with
  | Ok (self, _) => self
  | Raise _ => root_command
  end.

Definition paint_store : list Option.t :=
  match paint_declared with
  | Ok (_, h) => h
  | Raise _ => []
  end.

Definition shade_command : ApplicationCommand.t :=
  match shade_declared with
  | Ok (self, _) => self
  | Raise _ => root_command
  end.

Definition shade_store : list Option.t :=
  match shade_declared with
  | Ok (_, h) => h
  | Raise _ => []
  end.

End Fixture.

Import Fixture.

(** * Further predicates and reference objects *)

(** A choice as [CommandChoice.__init__] can leave it: with its name as
    value, or without the [value] attribute. *)
Definition constructed_choice (c : CommandChoice.t) : Prop :=
  CommandChoice.value c = None \/ plain_choice c.

(** The [type] argument of an option names a class that [_OPTION_BIND]
    knows, or is an enum member or an [int]. *)
Definition known_type (ty : Option.type_arg) : Prop :=
  match ty with
  | Option.TypeClass c => exists z, _OPTION_BIND c = Ok z
  | _ => True
  end.

(** The annotation is the class [Interaction]. *)
Definition interaction_annotation (a : annotation) : bool :=
  match a with
  | AnnInteraction => true
  | _ => false
  end.

(** A received node of one of the scalar types: string (3), integer (4),
    boolean (5) or number (10). *)
Definition scalar_node (node : InteractionOption.t) : Prop :=
  InteractionOption.type node = 3 \/ InteractionOption.type node = 4 \/
  InteractionOption.type node = 5 \/ InteractionOption.type node = 10.

(** The binding that a list of scalar nodes, each with the parameter of
    its declared option, builds: assignments in order, a later one
    replacing an earlier one of the same parameter. *)
Definition scalar_binding (nodes : list (InteractionOption.t * string))
  (binding : gmap string bound) : gmap string bound :=
  foldl (fun b np => <[np.2 := BVal (InteractionOption.value np.1)]> b)
    binding nodes.

(** No event of the trace is the call of a command or sub command
    callback. *)
Definition no_callback_awaited (tr : list event) : Prop :=
  forall f args kwargs, Await f args kwargs ∉ tr.

(** A received sub command (type 1) or group (type 2) node. *)
Definition command_node (node : InteractionOption.t) : Prop :=
  InteractionOption.type node = 1 \/ InteractionOption.type node = 2.

(** The interaction names the command [self] and is no autocomplete
    request: its [data] is an object whose [name] is the command's. *)
Definition addressed_to (self : ApplicationCommand.t)
  (interaction : Interaction.t) (d : payload) : Prop :=
  Interaction.type interaction <> 4 /\
  Interaction.data interaction = VDict d /\
  get "name" d = Some (VStr (ApplicationCommand.name self)).

(** [interaction.data['type'] == n]. *)
Definition command_type (d : payload) (n : Z) : Prop :=
  exists ty, get "type" d = Some ty /\ eq_int ty n = true.

(** The argument that a user or message command receives for the one who
    ran it: the interaction's member when it has one, else its user. *)
Definition requester_of (interaction : Interaction.t) (b : bound) : Prop :=
  match Interaction.member interaction with
  | Some m => b = BMember m
  | None => forall u, Interaction.user interaction = Some u -> b = BUser u
  end.

(** A command of the platform that the loop of [instantiate] passes
    over: its name is declared, and it is not the command [self] to
    update (another name, the update policy off, or another type). *)
Definition left_alone (state : State.t) (self : ApplicationCommand.t)
  (c : payload) : Prop :=
  exists n,
    get "name" c = Some (VStr n) /\
    n ∈ State._application_command_names state /\
    (n <> ApplicationCommand.name self \/
     State.update_commands state = false \/
     exists ty, get "type" c = Some ty /\
                eq_int ty (ApplicationCommand.type self) = false).

(** A command of the platform whose name the session declares. *)
Definition declared_name (state : State.t) (c : payload) : Prop :=
  exists n, get "name" c = Some (VStr n) /\
            n ∈ State._application_command_names state.

(** The parameter of [modify_channel] that feeds a key of the request
    body: the key itself, except for [user_limit]. *)
Definition wire_parameter (k : string) : string :=
  if String.eqb k "user_limit" then "user_imit"%string else k.

Module Sample.

(** A choice given with an explicit value, as in
    [CommandChoice('Crimson', value='red')]. *)
Definition crimson : CommandChoice.t :=
  CommandChoice.__init__ "Crimson" VNone (VStr "red").

(** The arguments of a string option offering [Green] and [crimson],
    without and with completion. *)
Definition crimson_args : Option.args :=
  Option.MkArgs (VStr "colour") (VStr "a colour") (Option.TypeClass PStr)
    VMissing VMissing VMissing
    (Some [CommandChoice.__init__ "Green" VNone VNone; crimson]) None
    VMissing VMissing VMissing VMissing Option.DefaultAutocomplete.

Definition crimson_completing_args : Option.args :=
  Option.MkArgs (VStr "colour") (VStr "a colour") (Option.TypeClass PStr)
    VMissing VMissing VMissing
    (Some [CommandChoice.__init__ "Green" VNone VNone; crimson]) None
    VMissing VMissing VMissing (VBool true) Option.DefaultAutocomplete.

(** The arguments of an option given an empty list of choices. *)
Definition no_choice_args : Option.args :=
  Option.MkArgs (VStr "colour") (VStr "a colour") (Option.TypeClass PStr)
    VMissing VMissing VMissing (Some []) None
    VMissing VMissing VMissing VMissing Option.DefaultAutocomplete.


Definition odd_node : InteractionOption.t :=
  InteractionOption.Mk "target" 12 (VStr "77") [] VMissing.

(** The command [paint] invoked with [colour] set to [Red]: the
    interaction as [Interaction.__init__] builds it, without an [options]
    attribute. *)
Definition paint_invocation : Interaction.t :=
  Interaction.Mk 2
    (VDict [("name", VStr "paint"); ("type", VInt 1);
            ("options",
             VList [VDict [("name", VStr "colour"); ("type", VInt 3);
                           ("value", VStr "Red")]])]%string)
    (VInt 5) None None None.

(** The same command invoked under another name. *)
Definition other_invocation : Interaction.t :=
  Interaction.Mk 2
    (VDict [("name", VStr "erase"); ("type", VInt 1)]%string)
    (VInt 5) None None None.

(** The user command [profile] and the message command [report], as
    their constructors leave them. *)
Definition profile_callback : AsyncFunc :=
  MkFunc "profile" VNone
    [("inter", AnnInteraction); ("target", AnnUnionUserMember)]%string.

Definition profile_command : ApplicationCommand.t :=
  match ApplicationCommand.__init__
          (ApplicationCommand.MkArgs (Some profile_callback) KMissing 2
             VMissing None VMissing VMissing VMissing VMissing VMissing) [] with
  | Ok (self, _) => self
  | Raise _ => root_command
  end.

Definition report_callback : AsyncFunc :=
  MkFunc "report" VNone
    [("inter", AnnInteraction); ("message", AnnMessage);
     ("requester", AnnUnionUserMember)]%string.

Definition report_command : ApplicationCommand.t :=
  match ApplicationCommand.__init__
          (ApplicationCommand.MkArgs (Some report_callback) KMissing 3
             VMissing None VMissing VMissing VMissing VMissing VMissing) [] with
  | Ok (self, _) => self
  | Raise _ => root_command
  end.

(** What a context menu sends: the user command run by member 77 of
    guild 5 on user 78, and the message command run by user 77 on message
    300. *)
Definition invoker : Member :=
  {| member_data := member_77; _guild_id := VInt 5;
     user := Some (MkUser user_77) |}.

Definition user_invocation : Interaction.t :=
  Interaction.Mk 2
    (VDict [("name", VStr "profile"); ("type", VInt 2);
            ("target_id", VStr "78");
            ("resolved",
             VDict [("users",
                     VDict [("78", VDict [("id", VStr "78")])])])]%string)
    (VInt 5) (Some invoker) (Some (MkUser user_77)) None.

Definition message_300 : pyval :=
  VDict [("id", VStr "300"); ("content", VStr "hello")]%string.

Definition message_invocation : Interaction.t :=
  Interaction.Mk 2
    (VDict [("name", VStr "report"); ("type", VInt 3);
            ("target_id", VStr "300");
            ("resolved",
             VDict [("messages", VDict [("300", message_300)])])]%string)
    VMissing None (Some (MkUser user_77)) None.

(** Guild 5 holding a user command [ping] and a chat-input command
    [pong], and a session that declares both names. *)
Definition mixed_world : Http.world :=
  Http.MkWorld
    {[ 5 := [[("id", VStr "900"); ("name", VStr "ping"); ("type", VInt 2)];
             [("id", VStr "901"); ("name", VStr "pong"); ("type", VInt 1);
              ("description", VStr "Replies too")]]%string ]}
    [] 1000.

Definition mixed_state : State.t :=
  State.Mk true ["ping"; "pong"]%string [].

(** A session that declares [ping] with the update policy off. *)
Definition frozen_state : State.t := State.Mk false ["ping"%string] [].

(** A platform that answers every request with an announcement channel
    (type 5) of id 40. *)
Definition announcement_40 : payload :=
  [("id", VStr "40"); ("type", VInt 5); ("name", VStr "news")]%string.

Definition answers_announcement (_ : Channels.http_request) : result pyval :=
  Ok (VDict announcement_40).

(** A forum tag as the platform sends it. *)
Definition tag_data : payload :=
  [("id", VStr "12"); ("name", VStr "help"); ("moderated", VBool false);
   ("emoji_id", VNone); ("emoji_name", VStr "wave")]%string.

(** A [Snowflake] constructor that keeps its argument. *)
Definition keep_snowflake (v : pyval) : result pyval := Ok v.

(** The command [warn] and the store that [mention_declared] leaves. *)
Definition warn_command : ApplicationCommand.t :=
  match mention_declared with
  | Ok (self, _) => self
  | Raise _ => root_command
  end.

Definition warn_store : list Option.t :=
  match mention_declared with
  | Ok (_, h) => h
  | Raise _ => []
  end.

End Sample.

Import Sample.

(** * Properties *)

(** ** Channel discrimination *)

Section ChannelFacts.
Import Channel.

Lemma Ok_inj {A} (a b : A) : Ok a = Ok b -> a = b.
Proof. congruence. Qed.

Lemma subscript_get (d : payload) (k : string) (v : pyval) :
  get k d = Some v -> subscript d k = Ok v.
Proof. unfold subscript. by intros ->. Qed.

(** Every documented code other than 3 yields its documented class. *)
Lemma identify_channel_documented (data : payload) (code : Z)
  (c : channel_class) :
  get "type" data = Some (VInt code) ->
  code <> 3 ->
  documented_variant code = Some c ->
  identify_channel data = Ok (MkChannel c data).
Proof.
  intros Hty Hne Hdoc. unfold identify_channel.
  rewrite (subscript_get _ _ _ Hty). cbn [mbind result_bind bind eq_int].
  unfold documented_variant in Hdoc.
  repeat match type of Hdoc with
         | context [?a =? ?b] => destruct (Z.eqb_spec a b); cbn in Hdoc
         end;
    try congruence; subst; cbn; try congruence; try lia.
Qed.

(** A code without a documented class yields the base class; the
    discriminator itself raises nothing. *)
Lemma identify_channel_undocumented (data : payload) (code : Z) :
  get "type" data = Some (VInt code) ->
  documented_variant code = None ->
  identify_channel data = Ok (MkChannel Channel data).
Proof.
  intros Hty Hdoc. unfold identify_channel.
  rewrite (subscript_get _ _ _ Hty). cbn [mbind result_bind bind eq_int].
  unfold documented_variant in Hdoc.
  repeat match type of Hdoc with
         | context [?a =? ?b] => destruct (Z.eqb_spec a b); cbn in Hdoc
         end;
    try congruence.
  repeat match goal with
         | |- context [?a =? ?b] => destruct (Z.eqb_spec a b); try lia
         end.
  reflexivity.
Qed.

(** C1. A payload whose type code is 3 is documented to be a group DM,
    yet [identify_channel] has no branch for 3 and builds the base
    [Channel] from it. *)
Theorem identify_channel_group_dm (data : payload) :
  get "type" data = Some (VInt 3) ->
  documented_variant 3 = Some GroupDMChannel /\
  identify_channel data = Ok (MkChannel Channel data) /\
  identify_channel data <> Ok (MkChannel GroupDMChannel data).
Proof.
  intros Hty. split; [reflexivity|].
  assert (identify_channel data = Ok (MkChannel Channel data)) as ->.
  { unfold identify_channel. rewrite (subscript_get _ _ _ Hty). reflexivity. }
  split; [reflexivity | discriminate].
Qed.

Lemma identify_channel_group_dm_witness :
  get "type" [("id", VStr "41771983423143937"); ("type", VInt 3)]%string
    = Some (VInt 3) /\
  identify_channel [("id", VStr "41771983423143937"); ("type", VInt 3)]%string
    = Ok (MkChannel Channel
            [("id", VStr "41771983423143937"); ("type", VInt 3)]%string).
Proof.
  split; [reflexivity|].
  apply (identify_channel_group_dm
           [("id", VStr "41771983423143937"); ("type", VInt 3)]%string).
  reflexivity.
Defined.

End ChannelFacts.

(** ** Declaring sub commands *)

Section DeclarationFacts.

Lemma init_sub_command name description nl dl func :
  Option.__init__
    (Option.MkArgs (py_or (key_val name) (VStr (lower (__name__ func))))
       (py_or (py_or description (__doc__ func))
          (VStr "No description provided"))
       (Option.TypeInt 1) nl dl VMissing None None VMissing VMissing
       VMissing VMissing Option.DefaultAutocomplete)
  = Ok (sub_command_option name description nl dl func).
Proof. reflexivity. Qed.

(** [Option.command] on an option below level 2 succeeds: the new sub
    command is stored one level deeper, with [func] as its callback. *)
Lemma option_command_ok (h : list Option.t) (self : ref) (s : Option.t)
  name description nl dl func :
  h !! self = Some s ->
  Option._level s <> 2 ->
  exists h',
    Option.command self name description nl dl func h = (Ok (length h), h') /\
    length h' = S (length h) /\
    (Option._level <$> h' !! self) = Some (Option._level s) /\
    (Option._level <$> h' !! length h) = Some (Option._level s + 1) /\
    (Option._callback <$> h' !! length h) = Some (Some (Some func)).
Proof.
  intros Hs Hlvl. unfold Option.command. rewrite Hs, init_sub_command.
  destruct (Z.eqb_spec (Option._level s) 2) as [|_]; [done|].
  pose proof (lookup_lt_Some _ _ _ Hs) as Hlt.
  eexists. split; [reflexivity|].
  rewrite length_app, length_insert. cbn [length].
  rewrite lookup_app_l by (rewrite length_insert; lia).
  rewrite list_lookup_insert_eq by lia.
  rewrite !lookup_app_r by (rewrite length_insert; lia).
  rewrite length_insert, Nat.sub_diag. cbn.
  split_and!; try done; try lia.
  destruct (decide _); cbn; destruct (_ =? 1); done.
Qed.

(** [Option.command] on an option at level 2 raises and leaves the store
    as it was. *)
Lemma option_command_third_level (h : list Option.t) (self : ref)
  (s : Option.t) name description nl dl func :
  h !! self = Some s ->
  Option._level s = 2 ->
  Option.command self name description nl dl func h
  = (Raise (ApplicationCommandException
              "Sub commands cannot be three levels deep"), h).
Proof.
  intros Hs Hlvl. unfold Option.command.
  rewrite Hs, init_sub_command, Hlvl. reflexivity.
Qed.

End DeclarationFacts.

Section ConstructorFacts.
Import ApplicationCommand.

Lemma parse_parameter_keeps (name : string) (ann : annotation)
  (self self' : t) (h h' : list Option.t) (r : result unit) :
  parse_parameter name ann (self, h) = (r, (self', h')) ->
  type self' = type self /\
  (is_Some (options self) -> is_Some (options self')) /\
  (is_Some (_options_dict self) -> is_Some (_options_dict self')).
Proof.
  unfold parse_parameter. intros H.
  repeat match type of H with
         | (if ?c then _ else _) = _ => destruct c
         | match ?x with _ => _ end = _ => destruct x eqn:?
         end;
    inversion H; subst; cbn; split_and!; eauto;
    intros [? ?]; congruence.
Qed.

Lemma parse_loop_keeps (ps : list (string * annotation)) (self self' : t)
  (h h' : list Option.t) (r : result unit) :
  for_each (fun p (_ : unit) => parse_parameter p.1 p.2) ps tt (self, h)
    = (r, (self', h')) ->
  type self' = type self /\
  (is_Some (options self) -> is_Some (options self')) /\
  (is_Some (_options_dict self) -> is_Some (_options_dict self')).
Proof.
  revert self h. induction ps as [|[name ann] ps IH]; intros self h H.
  - cbn in H. inversion H; subst. auto.
  - cbn [for_each] in H. unfold st_bind in H at 1.
    destruct (parse_parameter _ _ _) as [[[]|e] [self1 h1]] eqn:Hp;
      cbn in Hp; apply parse_parameter_keeps in Hp as (Ht & Ho & Hd).
    + apply IH in H as (Ht' & Ho' & Hd'). rewrite Ht'. auto.
    + inversion H; subst. auto.
Qed.

(** The constructor leaves a command of type 1 declared as chat-input. *)
Lemma init_chat_input (a : args) (h0 h : list Option.t) (self : t) :
  __init__ a h0 = Ok (self, h) ->
  a_type a = 1 ->
  chat_input self.
Proof.
  unfold __init__. intros H Hty.
  destruct (if truthy (key_val _) then _ else _) as [nm|];
    cbn [mbind result_bind bind] in H; [|discriminate].
  destruct (if a_type a =? 1 then _ else _) as [ds|];
    cbn [mbind result_bind bind] in H; [|discriminate].
  unfold _parse_arguments in H. cbn [_callback type] in H.
  destruct (a_callback a) as [func|]; [|discriminate].
  rewrite Hty in H. cbn [Z.eqb Pos.eqb] in H.
  match type of H with
  | context [for_each ?f ?l ?u ?s] =>
      destruct (for_each f l u s) as [[[]|e] [self1 h1]] eqn:Hloop
  end; [|discriminate].
  apply parse_loop_keeps in Hloop as (Ht & Ho & Hd). cbn in Ht, Ho, Hd.
  destruct (mapM _ _) as [dicts|]; [|discriminate].
  cbn [type set__options] in H. rewrite Ht in H. cbn [Z.eqb Pos.eqb] in H.
  inversion H; subst; clear H.
  repeat split; cbn; eauto.
Qed.

Lemma to_dict_leaf (d : nat) (h : list Option.t) (o : Option.t) :
  Option.options o = [] ->
  exists dict, Option.to_dict (S d) h o = Ok dict.
Proof. intros Ho. cbn [Option.to_dict]. rewrite Ho. cbn. eauto. Qed.

(** [ApplicationCommand.command] on a chat-input command succeeds: the
    new sub command is stored at level 1 with [func] as its callback. *)
Lemma application_command_ok (self : t) (h : list Option.t)
  name description nl dl func :
  chat_input self ->
  exists self',
    command name description nl dl func (self, h)
    = (Ok (length h),
       (self',
        h ++ [Option.set_level
                (Option.set_callback
                   (sub_command_option name description nl dl func)
                   (Some func)) 1])) /\
    chat_input self'.
Proof.
  intros (Hty & [opts Ho] & [d Hd] & [subs Hs]).
  unfold command. rewrite Hty. cbn [Z.eqb Pos.eqb negb].
  rewrite init_sub_command, Hs.
  set (c := Option.set_level _ 1).
  destruct (to_dict_leaf 999 (h ++ [c]) c eq_refl) as [dict Hdict].
  change stack_depth with (S 999). 
  destruct (decide (subs = ∅)) as [->|Hne]; cbn [options _options_dict set_callback set__options set_options_dict set_options];
    rewrite ?Ho, ?Hd, Hdict; eexists; (split; [reflexivity|]);
    repeat split; cbn; eauto.
Qed.

End ConstructorFacts.

(** C4. On a chat-input command, declaring a sub command (the group) and
    a sub command of it succeeds, the two being stored at levels 1 and
    2; [command] on the option at level 2 raises
    [ApplicationCommandException] and declares nothing. *)
Theorem nesting_depth_capped (self : ApplicationCommand.t)
  (h : list Option.t) (n1 n2 n3 : pykey) (d1 d2 d3 : pyval)
  (f1 f2 f3 : AsyncFunc) :
  chat_input self ->
  exists self' h1 h2 group sub,
    ApplicationCommand.command n1 d1 VMissing VMissing f1 (self, h)
      = (Ok group, (self', h1)) /\
    Option.command group n2 d2 VMissing VMissing f2 h1 = (Ok sub, h2) /\
    (Option._level <$> h2 !! group) = Some 1 /\
    (Option._level <$> h2 !! sub) = Some 2 /\
    Option.command sub n3 d3 VMissing VMissing f3 h2
      = (Raise (ApplicationCommandException
                  "Sub commands cannot be three levels deep"), h2).
Proof.
  intros Hci.
  destruct (application_command_ok self h n1 d1 VMissing VMissing f1 Hci)
    as (self' & Hc1 & _).
  set (g := Option.set_level _ 1) in Hc1.
  assert ((h ++ [g]) !! length h = Some g) as Hg.
  { rewrite lookup_app_r, Nat.sub_diag by lia. done. }
  destruct (option_command_ok (h ++ [g]) (length h) g n2 d2 VMissing VMissing
              f2 Hg) as (h2 & Hc2 & Hlen & Hgl & Hlvl & _); [cbn; lia|].
  exists self', (h ++ [g]), h2, (length h), (length (h ++ [g])).
  split_and!; try done.
  destruct (h2 !! length (h ++ [g])) as [s|] eqn:Hsub; [|done].
  apply option_command_third_level with (s := s); [done|].
  cbn in Hlvl. inversion Hlvl. done.
Qed.

Lemma nesting_depth_capped_witness :
  exists self' h1 h2 group sub,
    ApplicationCommand.command (KStr "settings") VNone VMissing VMissing
      (MkFunc "settings" VNone [("inter", AnnInteraction)]%string)
      (Fixture.root_command, [])
      = (Ok group, (self', h1)) /\
    Option.command group (KStr "access") VNone VMissing VMissing
      (MkFunc "access" VNone [("inter", AnnInteraction)]%string) h1
      = (Ok sub, h2) /\
    (Option._level <$> h2 !! group) = Some 1 /\
    (Option._level <$> h2 !! sub) = Some 2 /\
    Option.command sub (KStr "grant") VNone VMissing VMissing
      (MkFunc "grant" VNone [("inter", AnnInteraction)]%string) h2
      = (Raise (ApplicationCommandException
                  "Sub commands cannot be three levels deep"), h2).
Proof.
  apply (nesting_depth_capped Fixture.root_command []).
  unfold chat_input. cbn. eauto.
Defined.


(** ** Serialising an option *)

Section SerialisationFacts.

Lemma remove_undefined_cons (k : string) (v : pyval) (kwargs : payload) :
  remove_undefined ((k, v) :: kwargs)
  = if is_missing v then remove_undefined kwargs
    else (k, v) :: remove_undefined kwargs.
Proof. unfold remove_undefined. cbn. by destruct (is_missing v). Qed.

Lemma get_absent (k : string) (d : payload) : k ∉ d.*1 -> get k d = None.
Proof.
  induction d as [|[k' v] d IH]; [done|]. cbn. intros Hk.
  destruct (String.eqb_spec k k') as [->|_].
  - exfalso. apply Hk. left.
  - apply IH. intros ?. apply Hk. by right.
Qed.

(** Reading a key of [remove_undefined]'s result, for keyword arguments
    with distinct names. *)
Lemma get_remove_undefined (kwargs : payload) (k : string) :
  NoDup kwargs.*1 ->
  get k (remove_undefined kwargs)
  = match get k kwargs with
    | Some v => if is_missing v then None else Some v
    | None => None
    end.
Proof.
  induction kwargs as [|[k' v] kwargs IH]; intros Hnd; [done|].
  apply NoDup_cons in Hnd as [Hk' Hnd]. specialize (IH Hnd).
  cbn [fst] in Hk'. rewrite remove_undefined_cons. cbn [get].
  destruct (String.eqb_spec k k') as [->|Hne].
  - destruct (is_missing v) eqn:Hv.
    + rewrite IH, (get_absent _ _ Hk'). done.
    + cbn [get]. by rewrite String.eqb_refl.
  - destruct (is_missing v); [done|].
    cbn [get]. by destruct (String.eqb_spec k k').
Qed.

(** The sentinel is never a value of [remove_undefined]'s result. *)
Lemma remove_undefined_no_sentinel (kwargs : payload) (k : string)
  (v : pyval) :
  get k (remove_undefined kwargs) = Some v -> v <> VMissing.
Proof.
  induction kwargs as [|[k' w] kwargs IH]; [done|].
  rewrite remove_undefined_cons.
  destruct (is_missing w) eqn:Hw; [exact IH|].
  cbn [get]. destruct (String.eqb k k'); [|exact IH].
  intros [= ->] ->. done.
Qed.

(** The keyword arguments that [to_dict] hands to [remove_undefined]. *)
Lemma to_dict_S (d : nat) (h : list Option.t) (o : Option.t) :
  Option.to_dict (S d) h o
  = opts ← mapM (fun r => match h !! r with
                          | Some c => Option.to_dict d h c
                          | None => Raise Unmodelled
                          end) (Option.options o);
    Ok (remove_undefined
          (take 7 (attributes o)
             ++ ("options"%string, VList (VDict <$> opts))
             :: drop 7 (attributes o))).
Proof. reflexivity. Qed.

Lemma mapM_cons {A B} (f : A -> result B) (x : A) (l : list A) :
  mapM f (x :: l) = y ← f x; k ← mapM f l; Ok (y :: k).
Proof. reflexivity. Qed.

Lemma mapM_children (h : list Option.t) (n : nat) (rs : list ref) :
  Forall (fun r => exists c dict,
            h !! r = Some c /\ Option.to_dict n h c = Ok dict) rs ->
  exists opts,
    mapM (fun r => match h !! r with
                   | Some c => Option.to_dict n h c
                   | None => Raise Unmodelled
                   end) rs = Ok opts /\
    Forall2 (fun r dict => exists c,
               h !! r = Some c /\ Option.to_dict n h c = Ok dict) rs opts.
Proof.
  induction 1 as [|r rs (c & dict & Hc & Hd) _ (opts & IH & Hall)].
  - exists []. split; [done | constructor].
  - exists (dict :: opts). split; [|constructor; eauto].
    rewrite mapM_cons, Hc, Hd, IH. done.
Qed.

Lemma to_dict_total (h : list Option.t) (n : nat) (o : Option.t) :
  nested h n o -> exists dict, Option.to_dict (S n) h o = Ok dict.
Proof.
  revert o. induction n as [|n IH]; intros o Hn; rewrite to_dict_S.
  - cbn in Hn. rewrite Hn. cbn. eauto.
  - cbn [nested] in Hn.
    destruct (mapM_children h (S n) (Option.options o)) as (opts & -> & _).
    { eapply Forall_impl; [exact Hn|]. intros r (c & Hc & Hnc).
      destruct (IH c Hnc) as [dict Hd]. eauto. }
    cbn. eauto.
Qed.

Lemma tri_state_law (v : pyval) (r : option pyval) :
  r = (if is_missing v then None else Some v) ->
  (v = VMissing -> r = None) /\
  (v = VNone -> r = Some VNone) /\
  (v <> VMissing -> r = Some v).
Proof. intros ->. split_and!; intros; subst; try done. by destruct v. Qed.

End SerialisationFacts.

(** C6. Serialising an option whose nested options are in the store
    returns a mapping in which every attribute that is the unset
    sentinel has no key, every attribute that is [None] is emitted as
    [None], and every other attribute is emitted with its value; the
    nested options are emitted under ["options"] as the list of their own
    serialised forms; no value of the mapping is the sentinel. *)
Theorem to_dict_tri_state (h : list Option.t) (n : nat) (o : Option.t) :
  nested h n o ->
  exists dict opts,
    Option.to_dict (S n) h o = Ok dict /\
    (forall k v, (k, v) ∈ attributes o ->
       (v = VMissing -> get k dict = None) /\
       (v = VNone -> get k dict = Some VNone) /\
       (v <> VMissing -> get k dict = Some v)) /\
    get "options" dict = Some (VList (VDict <$> opts)) /\
    Forall2 (fun r d => exists c,
               h !! r = Some c /\ Option.to_dict n h c = Ok d)
      (Option.options o) opts /\
    (forall k v, get k dict = Some v -> v <> VMissing).
Proof.
  intros Hn. rewrite to_dict_S.
  destruct (mapM_children h n (Option.options o)) as (opts & -> & Hopts).
  { destruct n as [|n]; cbn [nested] in Hn.
    - rewrite Hn. constructor.
    - eapply Forall_impl; [exact Hn|]. intros r (c & Hc & Hnc).
      destruct (to_dict_total h n c Hnc) as [dict Hd]. eauto. }
  cbn [mbind result_bind bind].
  eexists _, opts. split; [reflexivity|].
  assert (NoDup (take 7 (attributes o)
                   ++ ("options"%string, VList (VDict <$> opts))
                   :: drop 7 (attributes o)).*1) as Hnd.
  { cbn. apply (bool_decide_unpack _). vm_compute. exact I. }
  split_and!.
  - intros k v Hkv. apply tri_state_law.
    rewrite (get_remove_undefined _ _ Hnd).
    unfold attributes in Hkv.
    repeat (apply elem_of_cons in Hkv as [[= -> ->]|Hkv]; [reflexivity|]).
    by apply elem_of_nil in Hkv.
  - rewrite (get_remove_undefined _ _ Hnd). reflexivity.
  - exact Hopts.
  - intros k v. apply remove_undefined_no_sentinel.
Qed.

Lemma to_dict_tri_state_witness :
  exists dict opts,
    Option.to_dict 2 search_store search_option = Ok dict /\
    (forall k v, (k, v) ∈ attributes search_option ->
       (v = VMissing -> get k dict = None) /\
       (v = VNone -> get k dict = Some VNone) /\
       (v <> VMissing -> get k dict = Some v)) /\
    get "options" dict = Some (VList (VDict <$> opts)) /\
    Forall2 (fun r d => exists c,
               search_store !! r = Some c /\
               Option.to_dict 1 search_store c = Ok d)
      (Option.options search_option) opts /\
    (forall k v, get k dict = Some v -> v <> VMissing).
Proof.
  apply (to_dict_tri_state search_store 1 search_option).
  cbn. repeat constructor. exists query_option. split; reflexivity.
Defined.

(** The serialised form of [query_option]: the unset attributes have no
    key, the explicit [None] is there. *)
Example to_dict_query_option :
  Option.to_dict 1 search_store query_option
  = Ok [("type", VInt 3); ("name", VStr "query");
        ("description", VStr "what to look for");
        ("description_localizations", VNone); ("required", VBool true);
        ("options", VList []); ("max_value", VInt 10)]%string.
Proof. reflexivity. Qed.

(** ** Options that complete *)

Lemma filter_all {A} (l : list A) : List.filter (fun _ => true) l = l.
Proof. induction l as [|x l IH]; cbn; congruence. Qed.

(** C10. An option constructed with a truthy [autocomplete] has the
    empty list as its [choices], whatever choices were supplied; the
    supplied choices are kept in [_choices]; and its serialised form
    carries the empty list under ["choices"]. *)
Theorem autocomplete_hides_choices (a : Option.args) (o : Option.t) :
  truthy (Option.a_autocomplete a) = true ->
  Option.__init__ a = Ok o ->
  Option.choices o = VList [] /\
  Option._choices o = Some (Option.choices_list (Option.a_choices a)) /\
  forall depth h dict,
    Option.to_dict depth h o = Ok dict -> get "choices" dict = Some (VList []).
Proof.
  intros Hauto Hinit. unfold Option.__init__ in Hinit.
  destruct (match Option.a_type a with
            | Option.TypeEnum v => Ok v
            | Option.TypeInt z => Ok z
            | Option.TypeClass c => _OPTION_BIND c
            end) as [ty|e]; cbn [mbind result_bind bind] in Hinit; [|done].
  rewrite Hauto in Hinit.
  assert (Option.choices o = VList [] /\
          Option._choices o = Some (Option.choices_list (Option.a_choices a)))
    as [Hc Hcs].
  { destruct (Option.a_choices a) as [[|c cs]|];
      cbn [Option.choices_truthy Option.choices_list] in Hinit |- *;
      inversion Hinit; subst; cbn; rewrite ?filter_all; done. }
  split_and!; [done..|].
  intros [|depth] h dict; [done|]. rewrite to_dict_S.
  destruct (mapM _ _) as [opts|]; cbn [mbind result_bind bind]; [|done].
  intros Heq. apply Ok_inj in Heq. subst dict.
  rewrite get_remove_undefined.
  - cbn. rewrite Hc. reflexivity.
  - cbn. apply (bool_decide_unpack _). vm_compute. exact I.
Qed.

Lemma autocomplete_hides_choices_witness :
  exists o,
    Option.__init__ colour_args = Ok o /\
    Option.choices o = VList [] /\
    Option._choices o = Some colours /\
    forall depth h dict,
      Option.to_dict depth h o = Ok dict ->
      get "choices" dict = Some (VList []).
Proof.
  eexists. split; [reflexivity|].
  apply (autocomplete_hides_choices colour_args); reflexivity.
Defined.

(** ** Responding once *)

Section ResponseFacts.
Import InteractionResponse.
Context (fails : nat -> bool).

(** Once [responded] is set, [send] raises and issues no request. *)
Lemma send_responded (w : wire) (content tts embeds flags : pyval) :
  send fails content tts embeds flags (Mk true, w)
  = (Raise (InteractionException
              "This interaction has already been responded to"),
     (Mk true, w)).
Proof. reflexivity. Qed.

(** A [send] that returns has set [responded] and delivered one
    response. *)
Lemma send_ok (self self' : t) (w w' : wire)
  (content tts embeds flags : pyval) :
  send fails content tts embeds flags (self, w) = (Ok tt, (self', w')) ->
  responded self = false /\ responded self' = true /\
  length (delivered w') = S (length (delivered w)).
Proof.
  unfold send, create_interaction_response.
  destruct (responded self); [done|].
  destruct (fails (requests w)); [done|].
  intros [= <- <-]. cbn. rewrite length_app. cbn. split_and!; [done..|lia].
Qed.

(** A [send] that raises delivers nothing and leaves [responded] as it
    was. *)
Lemma send_raise (self self' : t) (w w' : wire) (e : pyexc)
  (content tts embeds flags : pyval) :
  send fails content tts embeds flags (self, w) = (Raise e, (self', w')) ->
  self' = self /\ delivered w' = delivered w.
Proof.
  unfold send, create_interaction_response.
  destruct (responded self); [intros H; by inversion H|].
  destruct (fails (requests w)); [|done].
  intros H. by inversion H.
Qed.

Lemma send_keeps_sent_at_most_once_inv (s : t * wire) (c : send_args) :
  sent_at_most_once_inv s ->
  sent_at_most_once_inv (send fails (s_content c) (s_tts c) (s_embeds c) (s_flags c) s).2.
Proof.
  destruct s as [self w]. intros Hinv.
  destruct (send fails _ _ _ _ (self, w)) as [[[]|e] [self' w']] eqn:Hsend.
  - apply send_ok in Hsend as (Hr & Hr' & Hlen).
    unfold sent_at_most_once_inv in *. cbn in *. rewrite Hr in Hinv. rewrite Hr', Hlen, Hinv.
    done.
  - apply send_raise in Hsend as [-> Hd]. unfold sent_at_most_once_inv in *. cbn in *.
    by rewrite Hd.
Qed.

Lemma send_all_sent_at_most_once_inv (calls : list send_args) (s : t * wire) :
  sent_at_most_once_inv s -> sent_at_most_once_inv (send_all fails calls s).
Proof.
  revert s. induction calls as [|c calls IH]; intros s Hs; [done|].
  cbn [send_all foldl]. apply IH. by apply send_keeps_sent_at_most_once_inv.
Qed.

End ResponseFacts.

(** C9. On a response object that has responded, [send] raises
    [InteractionException] and issues no request; a [send] that returns
    leaves [responded] set; and however often [send] is called on a fresh
    object, and whichever requests fail in transport, the platform is
    delivered at most one response. *)
Theorem send_at_most_once (fails : nat -> bool) :
  (forall w content tts embeds flags,
     InteractionResponse.send fails content tts embeds flags
       (InteractionResponse.Mk true, w)
     = (Raise (InteractionException
                 "This interaction has already been responded to"),
        (InteractionResponse.Mk true, w))) /\
  (forall s content tts embeds flags,
     match InteractionResponse.send fails content tts embeds flags s with
     | (Ok _, (self', _)) => InteractionResponse.responded self' = true
     | (Raise _, (self', _)) =>
         InteractionResponse.responded self'
         = InteractionResponse.responded s.1
     end) /\
  (forall calls,
     (length (InteractionResponse.delivered
                (send_all fails calls fresh_response).2) <= 1)%nat).
Proof.
  split_and!.
  - intros. apply send_responded.
  - intros [self w] content tts embeds flags.
    destruct (InteractionResponse.send _ _ _ _ _ _)
      as [[[]|e] [self' w']] eqn:Hsend.
    + by apply send_ok in Hsend as (_ & ? & _).
    + by apply send_raise in Hsend as [-> _].
  - intros calls.
    pose proof (send_all_sent_at_most_once_inv fails calls fresh_response eq_refl) as H.
    unfold sent_at_most_once_inv in H.
    destruct (InteractionResponse.responded _); rewrite H; cbn; lia.
Qed.

(** ** Synchronising a command with the platform *)

(** C3. With the update policy enabled and the declaration unchanged,
    the command [ping] that guild 5 already holds is edited by the first
    [instantiate] and deleted by the second one: after two calls the
    platform holds no [ping] command, whichever way it treats a create
    of an existing name. *)
Theorem instantiate_twice_unregisters (overwrite : bool) :
  registered registered_world 5 ping_command = 1%nat /\
  registered
    (instantiate_times overwrite sync_state 1
       (ping_command, registered_world)).2 5 ping_command = 1%nat /\
  (ApplicationCommand.instantiate overwrite sync_state
     (instantiate_times overwrite sync_state 1
        (ping_command, registered_world))).1 = Ok tt /\
  registered
    (instantiate_times overwrite sync_state 2
       (ping_command, registered_world)).2 5 ping_command = 0%nat.
Proof. destruct overwrite; vm_compute; done. Qed.

(** From a guild without the command, two calls leave one [ping]: the
    first creates it, the second edits it. *)
Example instantiate_twice_from_empty (overwrite : bool) :
  registered
    (instantiate_times overwrite sync_state 2 (ping_command, empty_world)).2
    5 ping_command = 1%nat.
Proof. destruct overwrite; vm_compute; done. Qed.

(** A third call deletes it again. *)
Example instantiate_thrice_from_empty (overwrite : bool) :
  registered
    (instantiate_times overwrite sync_state 3 (ping_command, empty_world)).2
    5 ping_command = 0%nat.
Proof. destruct overwrite; vm_compute; done. Qed.

(** ** Decoding an option tree *)

Section DecodeFacts.
Import ApplicationCommand.
Context {outside : Outside}.

(** Declaring a first sub command replaces the callback of the command
    by [None]. *)
Lemma command_clears_callback (self self' : t) (h h' : list Option.t)
  (r : ref) name description nl dl func :
  _subs self = Some ∅ ->
  command name description nl dl func (self, h) = (Ok r, (self', h')) ->
  _callback self' = None.
Proof.
  unfold command. intros Hs.
  destruct (negb (type self =? 1)); [done|].
  rewrite init_sub_command, Hs.
  destruct (decide _) as [_|]; [|done].
  cbn [options _options_dict set_callback set__options set_options_dict
         set_options].
  destruct (Option.to_dict stack_depth _ _); [|done].
  intros H. inversion H. done.
Qed.

(** On a command whose callback is [None], a node of type 2 that names
    a declared option raises [TypeError] before anything is awaited. *)
Lemma group_node_raises (h : list Option.t) (self : t)
  (interaction : Interaction.t) (grouped : bool)
  (node : InteractionOption.t) (d : gmap pykey ref) (r : ref)
  (o : Option.t) (binding : gmap string bound) (tr : list event) :
  _callback self = None ->
  _options_dict self = Some d ->
  d !! KStr (InteractionOption.name node) = Some r ->
  h !! r = Some o ->
  InteractionOption.type node = 2 ->
  process_option h self interaction grouped node binding tr
  = (Raise TypeError, tr).
Proof.
  intros Hcb Hd Hr Ho Hty. destruct node as [name ty value children focused].
  cbn in Hr, Hty. subst ty.
  cbn [process_option InteractionOption.type InteractionOption.name].
  rewrite Hd. cbn. unfold lookup_ref. rewrite Hr. cbn.
  unfold deref. rewrite Ho, Hcb. reflexivity.
Qed.

Lemma bind_param_ok (o : Option.t) (v : bound) (p : string)
  (binding : gmap string bound) (tr : list event) :
  Option._param o = Some p ->
  bind_param o (Ok v) binding tr = (Ok (<[p := v]> binding), tr).
Proof. intros Hp. unfold bind_param. cbn. rewrite Hp. reflexivity. Qed.

Lemma bind_param_raise (o : Option.t) (e : pyexc)
  (binding : gmap string bound) (tr : list event) :
  bind_param o (Raise e) binding tr = (Raise e, tr).
Proof. reflexivity. Qed.

(** The declared option of a node is found before its type is looked
    at. *)
Lemma declared_option (h : list Option.t) (self : t)
  (node : InteractionOption.t) (o : Option.t) (p : string) :
  declares self h node o p ->
  (d ← attr (_options_dict self);
   r ← lookup_ref d (KStr (InteractionOption.name node));
   deref h r) = Ok o.
Proof.
  intros (d & r & Hd & Hr & Ho & _). rewrite Hd. cbn.
  unfold lookup_ref. rewrite Hr. cbn. unfold deref. by rewrite Ho.
Qed.

(** Unfolding the body of the loop at a node whose declared option is
    [o], once the node's type is known. *)
Ltac at_leaf node Hfound Hty :=
  let name := fresh "name" in
  let ty := fresh "ty" in
  destruct node as [name ty ? ? ?];
  cbn in Hty; subst ty; cbn [InteractionOption.name] in Hfound;
  cbn [process_option InteractionOption.type InteractionOption.name
         InteractionOption.value Z.eqb Pos.eqb orb];
  rewrite Hfound; unfold mbind, stateful_mbind, st_bind, st_lift.

Section Leaves.
Context (h : list Option.t) (self : t) (interaction : Interaction.t).
Context (grouped : bool) (node : InteractionOption.t) (o : Option.t).
Context (binding : gmap string bound) (tr : list event).
Context (Hfound :
  (d ← attr (_options_dict self);
   r ← lookup_ref d (KStr (InteractionOption.name node));
   deref h r) = Ok o).

Lemma process_user :
  InteractionOption.type node = 6 ->
  process_option h self interaction grouped node binding tr
  = bind_param o
      (user_or_member interaction true (InteractionOption.value node))
      binding tr.
Proof using Hfound. intros Hty. at_leaf node Hfound Hty. reflexivity. Qed.

Lemma process_channel :
  InteractionOption.type node = 7 ->
  process_option h self interaction grouped node binding tr
  = bind_param o
      (c ← (e ← resolved_entry interaction "channels"
                  (InteractionOption.value node);
            identify e);
       Ok (BChannel c)) binding tr.
Proof using Hfound. intros Hty. at_leaf node Hfound Hty. reflexivity. Qed.

Lemma process_role :
  InteractionOption.type node = 8 ->
  process_option h self interaction grouped node binding tr
  = bind_param o
      (r ← resolved_entry interaction "roles" (InteractionOption.value node);
       role ← Role_init r;
       Ok (BRole role)) binding tr.
Proof using Hfound. intros Hty. at_leaf node Hfound Hty. reflexivity. Qed.

Lemma process_mentionable :
  InteractionOption.type node = 9 ->
  process_option h self interaction grouped node binding tr
  = match resolved_roles interaction with
    | Ok roles =>
        if truthy roles then
          bind_param o
            (r ← resolved_entry interaction "roles"
                   (InteractionOption.value node);
             role ← Role_init r;
             Ok (BRole role)) binding tr
        else
          bind_param o
            (user_or_member interaction false (InteractionOption.value node))
            binding tr
    | Raise e => (Raise e, tr)
    end.
Proof using Hfound.
  intros Hty. at_leaf node Hfound Hty.
  destruct (resolved_roles interaction) as [roles|e]; [|reflexivity].
  destruct (truthy roles); reflexivity.
Qed.

Lemma process_attachment :
  InteractionOption.type node = 11 ->
  process_option h self interaction grouped node binding tr
  = bind_param o
      (a ← resolved_entry interaction "attachments"
             (InteractionOption.value node);
       Ok (BAttachment (MkAttachment a))) binding tr.
Proof using Hfound. intros Hty. at_leaf node Hfound Hty. reflexivity. Qed.

End Leaves.

(** A node whose declared option cannot be found raises at once. *)
Lemma process_not_found (h : list Option.t) (self : t)
  (interaction : Interaction.t) (grouped : bool)
  (node : InteractionOption.t) (binding : gmap string bound)
  (tr : list event) (e : pyexc) :
  (d ← attr (_options_dict self);
   r ← lookup_ref d (KStr (InteractionOption.name node));
   deref h r) = Raise e ->
  process_option h self interaction grouped node binding tr = (Raise e, tr).
Proof.
  intros Hnf. destruct node as [name ty value children focused].
  cbn [InteractionOption.name] in Hnf.
  cbn [process_option InteractionOption.name]. rewrite Hnf. reflexivity.
Qed.

(** An id that the resolved map does not hold is a [KeyError]. *)
Lemma missing_entry (interaction : Interaction.t) (kind : string)
  (value : pyval) :
  missing_from interaction kind value ->
  resolved_entry interaction kind value = Raise KeyError.
Proof.
  intros (entries & id & Hm & -> & Hget). unfold resolved_entry.
  rewrite Hm. cbn. unfold subscript. by rewrite Hget.
Qed.

(** At a node with a lookup miss, the loop body raises [KeyError] once
    the declared option is found. *)
Lemma miss_found (h : list Option.t) (self : t)
  (interaction : Interaction.t) (grouped : bool)
  (node : InteractionOption.t) (o : Option.t)
  (binding : gmap string bound) (tr : list event) :
  (d ← attr (_options_dict self);
   r ← lookup_ref d (KStr (InteractionOption.name node));
   deref h r) = Ok o ->
  lookup_miss interaction node ->
  process_option h self interaction grouped node binding tr
  = (Raise KeyError, tr).
Proof.
  intros Hfound [Hty Hm|u Hty Hu Hg Hm|Hty Hm|Hty Hm|roles Hty Hr Ht Hm
                |roles Hty Hr Ht Hm|roles u Hty Hr Ht Hu Hg Hm|Hty Hm];
    apply missing_entry in Hm.
  - rewrite (process_user _ _ _ _ _ _ _ _ Hfound Hty).
    unfold user_or_member. by rewrite Hm.
  - rewrite (process_user _ _ _ _ _ _ _ _ Hfound Hty).
    unfold user_or_member. rewrite Hu. cbn [mbind result_bind bind].
    by rewrite Hg, Hm.
  - rewrite (process_channel _ _ _ _ _ _ _ _ Hfound Hty). by rewrite Hm.
  - rewrite (process_role _ _ _ _ _ _ _ _ Hfound Hty). by rewrite Hm.
  - rewrite (process_mentionable _ _ _ _ _ _ _ _ Hfound Hty), Hr, Ht.
    by rewrite Hm.
  - rewrite (process_mentionable _ _ _ _ _ _ _ _ Hfound Hty), Hr, Ht.
    unfold user_or_member. by rewrite Hm.
  - rewrite (process_mentionable _ _ _ _ _ _ _ _ Hfound Hty), Hr, Ht.
    unfold user_or_member. rewrite Hu. cbn [mbind result_bind bind].
    by rewrite Hg, Hm.
  - rewrite (process_attachment _ _ _ _ _ _ _ _ Hfound Hty). by rewrite Hm.
Qed.

(** A loop over a list that holds an element at which the body always
    raises never returns. *)
Lemma for_each_raises {A B S} (body : A -> B -> stateful S B) (x : A)
  (xs : list A) :
  x ∈ xs ->
  (forall acc s, exists e s', body x acc s = (Raise e, s')) ->
  forall acc s, exists e s', for_each body xs acc s = (Raise e, s').
Proof.
  intros Hin Hx. induction xs as [|y xs IH]; intros acc s.
  - by apply elem_of_nil in Hin.
  - cbn [for_each]. unfold st_bind.
    apply elem_of_cons in Hin as [<-|Hin].
    + destruct (Hx acc s) as (e & s' & ->). eauto.
    + destruct (body y acc s) as [[acc'|e] s']; [|eauto]. by apply IH.
Qed.

(** At a node with a lookup miss the loop body raises, whether or not its
    declared option is found. *)
Lemma miss_raises (h : list Option.t) (self : t)
  (interaction : Interaction.t) (grouped : bool)
  (node : InteractionOption.t) :
  lookup_miss interaction node ->
  forall (binding : gmap string bound) (tr : list event),
  exists e tr',
    process_option h self interaction grouped node binding tr
    = (Raise e, tr').
Proof.
  intros Hmiss binding tr.
  destruct (d ← attr (_options_dict self);
            r ← lookup_ref d (KStr (InteractionOption.name node));
            deref h r) as [o|e] eqn:Hfound.
  - exists KeyError, tr. by apply miss_found with (o := o).
  - exists e, tr. by apply process_not_found.
Qed.

(** A node of type 1 or 2 raises when the nested call on its children
    does: the exception of the nested call is not caught. *)
Lemma parent_raises (h : list Option.t) (self : t)
  (interaction : Interaction.t) (grouped : bool)
  (parent : InteractionOption.t) :
  InteractionOption.type parent = 1 \/ InteractionOption.type parent = 2 ->
  (forall g (acc : gmap string bound) (s : list event),
     exists e s',
       for_each (process_option h self interaction g)
         (InteractionOption.options parent) acc s
       = (Raise e, s')) ->
  forall (binding : gmap string bound) (tr : list event),
  exists e tr',
    process_option h self interaction grouped parent binding tr
    = (Raise e, tr').
Proof.
  intros Hty Hnested binding tr.
  destruct (d ← attr (_options_dict self);
            r ← lookup_ref d (KStr (InteractionOption.name parent));
            deref h r) as [o|e] eqn:Hfound;
    [|exists e, tr; by apply process_not_found].
  destruct parent as [name ty value children focused].
  cbn [InteractionOption.type InteractionOption.options
         InteractionOption.name] in *.
  destruct Hty as [-> | ->];
    cbn [process_option InteractionOption.type InteractionOption.name
           InteractionOption.options Z.eqb Pos.eqb];
    rewrite Hfound; unfold mbind, stateful_mbind, st_bind, st_lift.
  - destruct (result_bind _ _ _ (attr (_subs self))) as [sub|e]; [|eauto].
    destruct (Hnested false ∅ tr) as (e & s' & ->). eauto.
  - unfold await. destruct (_callback self) as [f|]; [|unfold st_raise; eauto].
    unfold mbind, stateful_mbind, st_bind, st_lift, emit, st_modify.
    destruct (callback_outcome f interaction [] ∅); [|eauto].
    destruct (Hnested true ∅ (tr ++ [Await f [] ∅])) as (e & s' & ->). eauto.
Qed.

(** A call that comes to a node with a lookup miss raises. *)
Lemma visited_raises (h : list Option.t) (self : t)
  (interaction : Interaction.t) (node : InteractionOption.t)
  (options : list InteractionOption.t) :
  lookup_miss interaction node ->
  visited node options ->
  forall g (acc : gmap string bound) (s : list event),
  exists e s',
    for_each (process_option h self interaction g) options acc s
    = (Raise e, s').
Proof.
  intros Hmiss. induction 1 as [options Hin|parent options Hin Hty _ IH];
    intros g acc s.
  - apply for_each_raises with (x := node); [done|].
    intros. by apply miss_raises.
  - apply for_each_raises with (x := parent); [done|].
    intros. by apply parent_raises.
Qed.

End DecodeFacts.

(** C2. The command [admin], declared with the group [access] and its
    sub command [grant], receives the tree of one group node holding one
    sub command node holding two scalar leaves: [_process_options] raises
    [TypeError] at the group node, because declaring [access] set the
    command's callback to [None]; no callback is awaited, neither the
    group's nor the sub command's. *)
Theorem process_options_group_raises {outside : Outside} :
  exists self h,
    admin_declared = Some (self, h) /\
    ApplicationCommand._callback self = None /\
    ApplicationCommand._process_options h self grant_interaction
      grant_nodes false []
    = (Raise TypeError, []).
Proof. eexists _, _. split_and!; reflexivity. Qed.

(** C5. A mentionable node (type 9) on a declared option is resolved
    through [resolved.roles] whenever that map is there and not empty,
    whatever [resolved.users] holds: it is bound to the role that
    [Role.__init__] builds from the entry of its id, and when that
    constructor raises, so does the decoding; the users are not tried.
    When [resolved.roles] is absent or empty the node is bound to the
    user of [resolved.users], or, in a guild, to the member that
    [Member.__init__] builds from the entry of [resolved.members],
    carrying that user. *)
Theorem mentionable_resolution {outside : Outside} (h : list Option.t)
  (self : ApplicationCommand.t) (interaction : Interaction.t)
  (grouped : bool) (node : InteractionOption.t) (o : Option.t) (p : string)
  (binding : gmap string bound) (tr : list event) (roles : pyval) :
  declares self h node o p ->
  InteractionOption.type node = 9 ->
  ApplicationCommand.resolved_roles interaction = Ok roles ->
  (truthy roles = true ->
   forall entry,
     ApplicationCommand.resolved_entry interaction "roles"
       (InteractionOption.value node) = Ok entry ->
     (forall role,
        Role_init entry = Ok role ->
        ApplicationCommand.process_option h self interaction grouped node
          binding tr
        = (Ok (<[p := BRole role]> binding), tr)) /\
     (forall e,
        Role_init entry = Raise e ->
        ApplicationCommand.process_option h self interaction grouped node
          binding tr
        = (Raise e, tr))) /\
  (truthy roles = false ->
   forall u,
     ApplicationCommand.resolved_entry interaction "users"
       (InteractionOption.value node) = Ok u ->
     (truthy (Interaction.guild_id interaction) = false ->
      ApplicationCommand.process_option h self interaction grouped node
        binding tr
      = (Ok (<[p := BUser (MkUser u)]> binding), tr)) /\
     (truthy (Interaction.guild_id interaction) = true ->
      forall m member,
        ApplicationCommand.resolved_entry interaction "members"
          (InteractionOption.value node) = Ok m ->
        Member_init m VNone = Ok member ->
        ApplicationCommand.process_option h self interaction grouped node
          binding tr
        = (Ok (<[p := BMember (set_user member (MkUser u))]> binding), tr))).
Proof.
  intros Hdecl Hty Hroles.
  rewrite (process_mentionable _ _ _ _ _ _ _ _
             (declared_option _ _ _ _ _ Hdecl) Hty), Hroles.
  destruct Hdecl as (_ & _ & _ & _ & _ & Hp).
  split.
  - intros -> entry ->. cbn [mbind result_bind bind]. split.
    + intros role ->. by apply bind_param_ok.
    + intros e ->. reflexivity.
  - intros -> u Hu. unfold ApplicationCommand.user_or_member. rewrite Hu.
    cbn [mbind result_bind bind]. split.
    + intros ->. by apply bind_param_ok.
    + intros -> m member Hm Hmember. rewrite Hm.
      cbn [mbind result_bind bind]. rewrite Hmember.
      by apply bind_param_ok.
Qed.

Lemma mentionable_resolution_witness :
  exists self h,
    mention_declared = Ok (self, h) /\
    ApplicationCommand.resolved_entry mention_interaction "users"
      (InteractionOption.value mention_node) = Ok user_77 /\
    Role_init (outside := plain_outside) role_77 = Ok (MkRole role_77) /\
    ApplicationCommand.process_option (outside := plain_outside) h self
      mention_interaction false mention_node ∅ []
    = (Ok (<["target"%string := BRole (MkRole role_77)]> ∅), []).
Proof.
  eexists _, _. split; [reflexivity|]. split; [reflexivity|].
  split; [reflexivity|].
  eapply (mentionable_resolution (outside := plain_outside) _ _
            mention_interaction false mention_node).
  - eexists _, _. split_and!; reflexivity.
  - reflexivity.
  - reflexivity.
  - reflexivity.
  - reflexivity.
  - reflexivity.
Defined.

(** C8. When a node refers to an entity that the resolved map consulted
    for its type does not hold, decoding it on its declared option
    raises [KeyError] (the failed subscript of the resolved map) and
    binds nothing; and a call of [_process_options] that comes to such a
    node, in its list or below its sub command nodes, returns no
    binding. *)
Theorem lookup_miss_raises {outside : Outside} (h : list Option.t)
  (self : ApplicationCommand.t) (interaction : Interaction.t)
  (node : InteractionOption.t) :
  lookup_miss interaction node ->
  (forall o p grouped binding tr,
     declares self h node o p ->
     ApplicationCommand.process_option h self interaction grouped node
       binding tr
     = (Raise KeyError, tr)) /\
  (forall options grouped tr binding tr',
     visited node options ->
     ApplicationCommand._process_options h self interaction options
       grouped tr
     <> (Ok binding, tr')).
Proof.
  intros Hmiss. split.
  - intros o p grouped binding tr Hdecl.
    apply miss_found with (o := o); [|done].
    by apply declared_option with (p := p).
  - intros options grouped tr binding tr' Hvisited.
    unfold ApplicationCommand._process_options.
    destruct (visited_raises h self interaction node options Hmiss Hvisited
                grouped ∅ tr) as (e & s' & ->).
    done.
Qed.

Lemma lookup_miss_raises_witness :
  exists self h,
    mention_declared = Ok (self, h) /\
    lookup_miss users_only_interaction stray_node /\
    ApplicationCommand.process_option (outside := plain_outside) h self
      users_only_interaction false stray_node ∅ []
    = (Raise KeyError, []).
Proof.
  assert (lookup_miss users_only_interaction stray_node) as Hmiss.
  { apply miss_user; [reflexivity|].
    eexists _, _. split_and!; reflexivity. }
  eexists _, _. split; [reflexivity|]. split; [exact Hmiss|].
  eapply (lookup_miss_raises (outside := plain_outside) _ _
            users_only_interaction stray_node Hmiss).
  eexists _, _. split_and!; reflexivity.
Defined.

(** ** Completing an option *)

Section AutocompleteFacts.

Lemma init_plain_choice (name : string) (nl value : pyval) (v : pyval) :
  CommandChoice.value (CommandChoice.__init__ name nl value) = Some v ->
  plain_choice (CommandChoice.__init__ name nl value).
Proof.
  unfold plain_choice, CommandChoice.__init__. cbn.
  by destruct (is_none value).
Qed.

(** [l[0]] on a list that is not empty. *)
Lemma getitem_first (x : pyval) (rest : list pyval) :
  getitem (VList (x :: rest)) (VInt 0) = Ok x.
Proof.
  cbn [getitem Z.ltb Z.compare orb].
  destruct (Z.leb_spec (Z.of_nat (length (x :: rest))) 0) as [Hle|_].
  - cbn [length] in Hle. lia.
  - reflexivity.
Qed.

(** The comprehension of the default completer keeps, in order, the
    choices whose lower-cased value holds the lower-cased input. *)
Lemma matching_filter (string : string) (cs : list CommandChoice.t) :
  Forall plain_choice cs ->
  Option.matching string cs
  = Ok (choice_mapping
          <$> List.filter
                (fun c => contains string (lower (CommandChoice.name c))) cs).
Proof.
  induction 1 as [|c cs Hc _ IH]; [reflexivity|].
  cbn [Option.matching List.filter]. rewrite Hc. cbn [str mbind result_bind bind].
  destruct (contains string (lower (CommandChoice.name c))).
  - unfold CommandChoice._to_dict. rewrite Hc, IH. reflexivity.
  - exact IH.
Qed.

Lemma autocomplete_filter (o : Option.t) (string : pyval) (s : String.string)
  (cs : list CommandChoice.t) :
  str string = Ok s ->
  Option._choices o = Some cs ->
  Forall plain_choice cs ->
  Option._autocomplete o string
  = Ok (choice_mapping
          <$> List.filter
                (fun c => contains (lower s) (lower (CommandChoice.name c)))
                cs).
Proof.
  intros Hs Hcs Hplain. unfold Option._autocomplete.
  rewrite Hs, Hcs. cbn [mbind result_bind bind]. by apply matching_filter.
Qed.

End AutocompleteFacts.

(** C7. The default completer applies no maximum. On the option [colour]
    registered with the 26 choices [shade0] to [shade25] and completion,
    and the typed text [shade], it returns 26 mappings of name and value,
    more than the platform's maximum choice count; and [_invoke] on the
    request that carries this text, once the completer has returned,
    raises [AttributeError] at [interaction.response.autocomplete]: the
    list is sent nowhere. *)
Theorem autocomplete_exceeds_maximum {outside : Outside} :
  exists o choices,
    shade_declared = Ok (shade_command, shade_store) /\
    shade_store !! 0%nat = Some o /\
    Option._autocomplete o (VStr "shade") = Ok choices /\
    Forall (fun c => exists n,
              c = [("name", VStr n); ("value", VStr n);
                   ("name_localizations", VNone)]%string) choices /\
    length choices = 26%nat /\
    (max_choices < length choices)%nat /\
    ApplicationCommand._invoke no_user_completer shade_store shade_command
      shade_request []
    = (Raise AttributeError, []).
Proof.
  eexists _, _. split; [vm_compute; reflexivity|].
  split; [vm_compute; reflexivity|].
  split; [vm_compute; reflexivity|].
  split; [repeat constructor; eexists; reflexivity|].
  split; [reflexivity|]. split; [vm_compute; lia|].
  vm_compute. reflexivity.
Qed.

(** * Further properties *)

(** ** Choices *)

Section ChoiceFacts.

Lemma init_constructed (name : string) (nl v : pyval) :
  constructed_choice (CommandChoice.__init__ name nl v).
Proof.
  unfold constructed_choice, plain_choice, CommandChoice.__init__. cbn.
  destruct (is_none v); auto.
Qed.

Lemma init_explicit_value (name : string) (nl v : pyval) :
  is_none v = false ->
  CommandChoice.value (CommandChoice.__init__ name nl v) = None.
Proof. intros Hv. unfold CommandChoice.__init__. cbn. by rewrite Hv. Qed.

Lemma to_dict_without_value (c : CommandChoice.t) :
  CommandChoice.value c = None ->
  CommandChoice._to_dict c = Raise AttributeError.
Proof. unfold CommandChoice._to_dict. by intros ->. Qed.

Lemma to_dict_with_value (c : CommandChoice.t) (v : pyval) :
  CommandChoice.value c = Some v ->
  exists d, CommandChoice._to_dict c = Ok d.
Proof. unfold CommandChoice._to_dict. intros ->. eauto. Qed.

(** Serialising a list of choices that holds one without [value]. *)
Lemma to_dicts_raise (cs : list CommandChoice.t) (c : CommandChoice.t) :
  c ∈ cs ->
  CommandChoice.value c = None ->
  mapM CommandChoice._to_dict cs = Raise AttributeError.
Proof.
  intros Hin Hc. induction cs as [|c' cs IH]; [by apply elem_of_nil in Hin|].
  rewrite mapM_cons.
  destruct (CommandChoice.value c') as [v|] eqn:Hv;
    [|by rewrite (to_dict_without_value _ Hv)].
  destruct (to_dict_with_value _ _ Hv) as [d ->].
  apply elem_of_cons in Hin as [->|Hin]; [congruence|].
  cbn [mbind result_bind bind]. by rewrite (IH Hin).
Qed.

(** Completing over a list of choices that holds one without [value]. *)
Lemma matching_raises (string : string) (cs : list CommandChoice.t)
  (c : CommandChoice.t) :
  Forall constructed_choice cs ->
  c ∈ cs ->
  CommandChoice.value c = None ->
  Option.matching string cs = Raise AttributeError.
Proof.
  intros Hall Hin Hc.
  induction Hall as [|c' cs Hc' _ IH]; [by apply elem_of_nil in Hin|].
  cbn [Option.matching].
  destruct Hc' as [Hnone|Hplain]; [by rewrite Hnone|].
  rewrite Hplain. cbn [str mbind result_bind bind].
  apply elem_of_cons in Hin as [->|Hin];
    [unfold plain_choice in Hplain; congruence|].
  specialize (IH Hin).
  destruct (contains _ _); [|exact IH].
  destruct (to_dict_with_value _ _ Hplain) as [d ->].
  cbn [mbind result_bind bind]. by rewrite IH.
Qed.

End ChoiceFacts.

(** X1. A choice constructed with an explicit value never gets its
    [value] attribute. An option without completion that is given such a
    choice cannot be constructed: [Option.__init__] raises
    [AttributeError]. An option with completion is constructed, and its
    default completer raises [AttributeError] on every input. *)
Theorem explicit_choice_value_unusable (a : Option.args) (name : string)
  (nl v : pyval) :
  is_none v = false ->
  CommandChoice.__init__ name nl v ∈ Option.choices_list (Option.a_choices a) ->
  known_type (Option.a_type a) ->
  (truthy (Option.a_autocomplete a) = false ->
   Option.__init__ a = Raise AttributeError) /\
  (truthy (Option.a_autocomplete a) = true ->
   Forall constructed_choice (Option.choices_list (Option.a_choices a)) ->
   exists o,
     Option.__init__ a = Ok o /\
     forall s t, str s = Ok t -> Option._autocomplete o s = Raise AttributeError).
Proof.
  intros Hv Hin Hty.
  pose proof (init_explicit_value name nl v Hv) as Hnone.
  assert (Option.choices_truthy (Option.a_choices a) = true) as Htruthy.
  { destruct (Option.a_choices a) as [[|c cs]|]; cbn in Hin |- *;
      try done; by apply elem_of_nil in Hin. }
  unfold Option.__init__.
  assert (exists ty,
            match Option.a_type a with
            | Option.TypeEnum v0 => Ok v0
            | Option.TypeInt z => Ok z
            | Option.TypeClass c => _OPTION_BIND c
            end = Ok ty) as [ty ->].
  { unfold known_type in Hty. destruct (Option.a_type a); eauto. }
  cbn [mbind result_bind bind]. rewrite Htruthy. split.
  - intros ->. by rewrite (to_dicts_raise _ _ Hin Hnone).
  - intros -> Hall. eexists. split; [reflexivity|].
    intros s t Hs. unfold Option._autocomplete. rewrite Hs.
    cbn [mbind result_bind bind Option._choices].
    destruct (Option.a_choices a) as [[|c0 cs]|];
      try by apply elem_of_nil in Hin.
    cbn [Option.choices_list Option.choices_truthy] in *.
    rewrite filter_all.
    by apply matching_raises with (c := CommandChoice.__init__ name nl v).
Qed.

Lemma explicit_choice_value_unusable_witness :
  Option.__init__ crimson_args = Raise AttributeError /\
  exists o,
    Option.__init__ crimson_completing_args = Ok o /\
    Option._autocomplete o (VStr "gre") = Raise AttributeError.
Proof.
  split.
  - apply (explicit_choice_value_unusable crimson_args "Crimson" VNone
             (VStr "red")); try reflexivity.
    + cbn. set_solver.
    + cbn. eauto.
  - destruct (explicit_choice_value_unusable crimson_completing_args "Crimson"
                VNone (VStr "red")) as [_ Hcomp]; try reflexivity.
    + cbn. set_solver.
    + cbn. eauto.
    + destruct Hcomp as (o & Ho & Hraise); [reflexivity| |].
      * cbn. repeat constructor; apply init_constructed.
      * exists o. split; [exact Ho|]. by apply (Hraise _ "gre"%string).
Defined.

(** X2. An option without completion that is given an empty list of
    choices is constructed with [choices] unset, like one given no
    choices at all: its serialised form has no ["choices"] key. *)
Theorem empty_choices_are_unset (a : Option.args) (o : Option.t) :
  truthy (Option.a_autocomplete a) = false ->
  Option.a_choices a = Some [] ->
  Option.__init__ a = Ok o ->
  Option.choices o = VMissing /\
  forall depth h dict,
    Option.to_dict depth h o = Ok dict -> get "choices" dict = None.
Proof.
  intros Hauto Hcs Hinit. unfold Option.__init__ in Hinit.
  destruct (match Option.a_type a with
            | Option.TypeEnum v => Ok v
            | Option.TypeInt z => Ok z
            | Option.TypeClass c => _OPTION_BIND c
            end) as [ty|e]; cbn [mbind result_bind bind] in Hinit; [|done].
  rewrite Hauto, Hcs in Hinit. cbn [Option.choices_truthy] in Hinit.
  apply Ok_inj in Hinit. subst o. split; [reflexivity|].
  intros [|depth] h dict; [done|]. rewrite to_dict_S.
  destruct (mapM _ _) as [opts|]; cbn [mbind result_bind bind]; [|done].
  intros Heq. apply Ok_inj in Heq. subst dict.
  rewrite get_remove_undefined; [reflexivity|].
  cbn. apply (bool_decide_unpack _). vm_compute. exact I.
Qed.

Lemma empty_choices_are_unset_witness :
  exists o,
    Option.__init__ no_choice_args = Ok o /\
    Option.choices o = VMissing /\
    forall depth h dict,
      Option.to_dict depth h o = Ok dict -> get "choices" dict = None.
Proof.
  eexists. split; [reflexivity|].
  apply (empty_choices_are_unset no_choice_args); reflexivity.
Defined.

(** X3. The default completer of an option constructed without
    completion raises [AttributeError] on every input: such an option
    has no [_choices] attribute. *)
Theorem completer_needs_autocomplete (a : Option.args) (o : Option.t)
  (s : pyval) (t : string) :
  truthy (Option.a_autocomplete a) = false ->
  Option.__init__ a = Ok o ->
  str s = Ok t ->
  Option._autocomplete o s = Raise AttributeError.
Proof.
  intros Hauto Hinit Hs. unfold Option.__init__ in Hinit.
  destruct (match Option.a_type a with
            | Option.TypeEnum v => Ok v
            | Option.TypeInt z => Ok z
            | Option.TypeClass c => _OPTION_BIND c
            end) as [ty|e]; cbn [mbind result_bind bind] in Hinit; [|done].
  rewrite Hauto in Hinit. unfold Option._autocomplete. rewrite Hs.
  cbn [mbind result_bind bind].
  destruct (Option.choices_truthy (Option.a_choices a)).
  - destruct (mapM _ _); cbn [mbind result_bind bind] in Hinit; [|done].
    apply Ok_inj in Hinit. by subst o.
  - apply Ok_inj in Hinit. by subst o.
Qed.

Lemma completer_needs_autocomplete_witness :
  exists o,
    Option.__init__ no_choice_args = Ok o /\
    Option._autocomplete o (VStr "re") = Raise AttributeError.
Proof.
  eexists. split; [reflexivity|].
  by apply (completer_needs_autocomplete no_choice_args _ (VStr "re")
              "re"%string).
Defined.

(** ** User and message commands *)

Section ArityFacts.
Import ApplicationCommand.

(** Once a loop over [result] has raised, it stays raised. *)
Lemma foldl_raised {A B} (f : result B -> A -> result B) (e : pyexc)
  (l : list A) :
  (forall x, f (Raise e) x = Raise e) ->
  foldl f (Raise e) l = Raise e.
Proof.
  intros Hf. induction l as [|x l IH]; [done|]. cbn. by rewrite Hf.
Qed.

End ArityFacts.

(** X4. A user command is accepted when its callback has one or two
    parameters, each annotated [Member], [User], [Interaction] or
    [Union[User, Member]]; the field that receives the target is the
    last of them. A callback without parameters is refused for want of
    an argument, and one with three or more for having too many. *)
Theorem user_command_arity (func : AsyncFunc) (self : ApplicationCommand.t) :
  Forall (fun p => ApplicationCommand.user_annotation p.2 = true)
    (params func) ->
  match params func with
  | [] =>
      ApplicationCommand._parse_user_command_arguments func self
      = Raise (ApplicationCommandException
                 "No argument set for a member/user")
  | [p] =>
      ApplicationCommand._parse_user_command_arguments func self
      = Ok (ApplicationCommand.set_user_command_field self p.1)
  | [p; q] =>
      ApplicationCommand._parse_user_command_arguments func self
      = Ok (ApplicationCommand.set_user_command_field
              (ApplicationCommand.set_user_command_field self p.1) q.1)
  | _ :: _ :: _ :: _ =>
      ApplicationCommand._parse_user_command_arguments func self
      = Raise (ApplicationCommandException
                 "User Command has too many arguments, only one is allowed")
  end.
Proof.
  intros Hall. unfold ApplicationCommand._parse_user_command_arguments.
  destruct (params func) as [|[n1 a1] [|[n2 a2] [|[n3 a3] rest]]]; cbn [foldl].
  - reflexivity.
  - apply Forall_cons in Hall as [H1 _]. cbn in H1.
    cbn. rewrite H1. reflexivity.
  - apply Forall_cons in Hall as [H1 Hall].
    apply Forall_cons in Hall as [H2 _]. cbn in H1, H2.
    cbn. rewrite H1. cbn. rewrite H2. reflexivity.
  - apply Forall_cons in Hall as [H1 Hall].
    apply Forall_cons in Hall as [H2 _]. cbn in H1, H2.
    cbn. rewrite H1. cbn. rewrite H2. cbn.
    change (0 + 1 =? 2) with false. cbn [mbind result_bind bind].
    change (0 + 1 + 1 =? 2) with true. cbn [mbind result_bind bind].
    rewrite foldl_raised; [reflexivity|]. by intros [].
Qed.

Lemma user_command_arity_witness :
  ApplicationCommand._parse_user_command_arguments
    (MkFunc "profile" VNone
       [("inter", AnnInteraction); ("target", AnnUnionUserMember)]%string)
    root_command
  = Ok (ApplicationCommand.set_user_command_field
          (ApplicationCommand.set_user_command_field root_command "inter")
          "target").
Proof.
  apply (user_command_arity
           (MkFunc "profile" VNone
              [("inter", AnnInteraction); ("target", AnnUnionUserMember)]%string)
           root_command).
  cbn. repeat constructor.
Defined.

(** X5. A message command is accepted when its callback has at most
    three parameters, each annotated [Message], [Interaction], [User],
    [Member] or [Union[User, Member]], and one of them at least is not
    the interaction; when all are the interaction (or there is none) it
    is refused for want of an argument, and with four or more
    parameters for having too many. *)
Theorem message_command_arity (func : AsyncFunc)
  (self : ApplicationCommand.t) :
  Forall (fun p => ApplicationCommand.message_annotation p.2 = true)
    (params func) ->
  ((4 <= length (params func))%nat ->
   ApplicationCommand._parse_message_command_arguments func self
   = Raise (ApplicationCommandException
              "Message Command has too many arguments, only two are allowed")) /\
  ((length (params func) <= 3)%nat ->
   ApplicationCommand._parse_message_command_arguments func self
   = if forallb (fun p => interaction_annotation p.2) (params func)
     then Raise (ApplicationCommandException
                   "No argument set for a message and user")
     else Ok self).
Proof.
  intros Hall. unfold ApplicationCommand._parse_message_command_arguments.
  destruct (params func) as [|[n1 a1] [|[n2 a2] [|[n3 a3] [|[n4 a4] rest]]]];
    (split; [cbn [length]; intros Hlen; try lia
            |cbn [length]; intros Hlen; try lia]);
    repeat match goal with
           | H : Forall _ (_ :: _) |- _ =>
               apply Forall_cons in H as [? H]
           end;
    cbn [snd] in *.
  - reflexivity.
  - destruct a1; try discriminate; reflexivity.
  - destruct a1, a2; try discriminate; reflexivity.
  - destruct a1, a2, a3; try discriminate; reflexivity.
  - cbn [foldl].
    assert (forall (b : bool) (a : annotation),
              ApplicationCommand.message_annotation a = true ->
              negb (ApplicationCommand.message_annotation a) = false)
      as Hneg by (intros ? ? ->; reflexivity).
    cbn [mbind result_bind bind]. change (0 =? 3) with false.
    rewrite (Hneg true a1) by done. cbn [mbind result_bind bind].
    change (0 + 1 =? 3) with false.
    rewrite (Hneg true a2) by done. cbn [mbind result_bind bind].
    change (0 + 1 + 1 =? 3) with false.
    rewrite (Hneg true a3) by done. cbn [mbind result_bind bind].
    change (0 + 1 + 1 + 1 =? 3) with true. cbn [mbind result_bind bind].
    rewrite foldl_raised; [reflexivity|]. by intros [].
Qed.

Lemma message_command_arity_witness :
  ApplicationCommand._parse_message_command_arguments
    (MkFunc "report" VNone
       [("inter", AnnInteraction); ("message", AnnMessage)]%string)
    root_command
  = Ok root_command /\
  ApplicationCommand._parse_message_command_arguments
    (MkFunc "report" VNone [("inter", AnnInteraction)]%string) root_command
  = Raise (ApplicationCommandException
             "No argument set for a message and user").
Proof.
  split.
  - apply (message_command_arity
             (MkFunc "report" VNone
                [("inter", AnnInteraction); ("message", AnnMessage)]%string)
             root_command); [cbn; repeat constructor | cbn; lia].
  - apply (message_command_arity
             (MkFunc "report" VNone [("inter", AnnInteraction)]%string)
             root_command); [cbn; repeat constructor | cbn; lia].
Defined.

(** ** Attaching sub commands *)

(** The first sub command of a chat-input command, in full: the state
    after [ApplicationCommand.command]. *)
Lemma command_first_sub (self : ApplicationCommand.t)
  (h : list Option.t) (name : pykey) (description nl dl : pyval)
  (func : AsyncFunc) :
  chat_input self ->
  ApplicationCommand._subs self = Some ∅ ->
  let sub := Option.set_level
               (Option.set_callback
                  (sub_command_option name description nl dl func)
                  (Some func)) 1 in
  exists self' dict,
    ApplicationCommand.command name description nl dl func (self, h)
    = (Ok (length h), (self', h ++ [sub])) /\
    Option.to_dict ApplicationCommand.stack_depth (h ++ [sub]) sub = Ok dict /\
    ApplicationCommand.options self' = Some [length h] /\
    ApplicationCommand._options_dict self' = Some {[name := length h]} /\
    ApplicationCommand._options self' = [dict] /\
    ApplicationCommand._subs self' = Some {[name := length h]} /\
    ApplicationCommand._callback self' = None.
Proof.
  intros (Hty & _ & _ & _) Hsubs sub.
  unfold ApplicationCommand.command. rewrite Hty. cbn [Z.eqb Pos.eqb negb].
  rewrite init_sub_command, Hsubs. fold sub.
  destruct (to_dict_leaf 999 (h ++ [sub]) sub eq_refl) as [dict Hdict].
  change ApplicationCommand.stack_depth with (S 999).
  destruct (decide _) as [_|]; [|done].
  cbn [ApplicationCommand.options ApplicationCommand._options_dict
         ApplicationCommand.set_callback ApplicationCommand.set__options
         ApplicationCommand.set_options_dict ApplicationCommand.set_options].
  rewrite Hdict. eexists _, dict. split; [reflexivity|].
  split_and!; reflexivity || exact Hdict.
Qed.

(** X6. Attaching the first sub command to a chat-input command discards
    what the command had declared for itself: its option list, its
    lookup table and its serialised options then hold the sub command
    only, and its callback is [None]. *)
Theorem first_sub_command_replaces (self : ApplicationCommand.t)
  (h : list Option.t) (name : pykey) (description nl dl : pyval)
  (func : AsyncFunc) :
  chat_input self ->
  ApplicationCommand._subs self = Some ∅ ->
  exists self' sub dict,
    ApplicationCommand.command name description nl dl func (self, h)
    = (Ok (length h), (self', h ++ [sub])) /\
    Option.to_dict ApplicationCommand.stack_depth (h ++ [sub]) sub = Ok dict /\
    Option._callback sub = Some (Some func) /\
    ApplicationCommand.options self' = Some [length h] /\
    ApplicationCommand._options_dict self' = Some {[name := length h]} /\
    ApplicationCommand._options self' = [dict] /\
    ApplicationCommand._subs self' = Some {[name := length h]} /\
    ApplicationCommand._callback self' = None.
Proof.
  intros Hci Hsubs.
  destruct (command_first_sub self h name description nl dl func Hci Hsubs)
    as (self' & dict & Heq & Hdict & Ho & Hd & Hos & Hs & Hc).
  eexists self', _, dict. split; [exact Heq|]. split_and!; auto.
Qed.

Lemma first_sub_command_replaces_witness :
  exists self' sub dict,
    ApplicationCommand.command (KStr "colour") VNone VMissing VMissing
      access_callback (paint_command, paint_store)
    = (Ok (length paint_store), (self', paint_store ++ [sub])) /\
    Option.to_dict ApplicationCommand.stack_depth (paint_store ++ [sub]) sub
    = Ok dict /\
    Option._callback sub = Some (Some access_callback) /\
    ApplicationCommand.options self' = Some [length paint_store] /\
    ApplicationCommand._options_dict self'
    = Some {[KStr "colour" := length paint_store]} /\
    ApplicationCommand._options self' = [dict] /\
    ApplicationCommand._subs self'
    = Some {[KStr "colour" := length paint_store]} /\
    ApplicationCommand._callback self' = None.
Proof.
  apply (first_sub_command_replaces paint_command paint_store).
  - unfold chat_input. cbn. split_and!; eauto.
  - vm_compute. reflexivity.
Defined.

(** X7. A sub command attached without an explicit name is registered
    under the default of the [name] argument, not under the name it is
    given: on a command whose first sub command was attached so, no
    received node finds its option, and decoding any node raises
    [KeyError]. *)
Theorem unnamed_sub_command_is_lost {outside : Outside} (self self' : ApplicationCommand.t)
  (h h' : list Option.t) (r : ref) (description nl dl : pyval)
  (func : AsyncFunc) (interaction : Interaction.t) (grouped : bool)
  (node : InteractionOption.t) (binding : gmap string bound)
  (tr : list event) :
  chat_input self ->
  ApplicationCommand._subs self = Some ∅ ->
  ApplicationCommand.command KMissing description nl dl func (self, h)
  = (Ok r, (self', h')) ->
  (Option.name <$> h' !! r) = Some (VStr (lower (__name__ func))) /\
  ApplicationCommand.process_option h' self' interaction grouped node
    binding tr
  = (Raise KeyError, tr).
Proof.
  intros Hci Hsubs Hcmd.
  destruct (command_first_sub self h KMissing description nl dl func
              Hci Hsubs)
    as (self1 & dict & Heq & _ & _ & Hd & _).
  rewrite Heq in Hcmd. inversion Hcmd; subst. split.
  - rewrite lookup_app_r, Nat.sub_diag by lia. reflexivity.
  - apply process_not_found. rewrite Hd. cbn [ApplicationCommand.attr].
    cbn [mbind result_bind bind]. unfold ApplicationCommand.lookup_ref.
    rewrite lookup_singleton_ne by done. reflexivity.
Qed.

Lemma unnamed_sub_command_is_lost_witness :
  exists self' h' r,
    ApplicationCommand.command KMissing VNone VMissing VMissing
      access_callback (root_command, [])
    = (Ok r, (self', h')) /\
    (Option.name <$> h' !! r) = Some (VStr "access") /\
    ApplicationCommand.process_option (outside := plain_outside) h' self'
      grant_interaction false
      (InteractionOption.Mk "access" 1 VMissing [] VMissing) ∅ []
    = (Raise KeyError, []).
Proof.
  eexists _, _, _. split; [reflexivity|].
  apply (unnamed_sub_command_is_lost (outside := plain_outside) root_command _ [] _ _ VNone VMissing
           VMissing access_callback).
  - unfold chat_input. cbn. split_and!; eauto.
  - reflexivity.
  - reflexivity.
Defined.

(** X8. Attaching the first sub command to a sub command turns it into a
    group: its type becomes 2, its option list holds the new sub command
    only, and its own callback is replaced by [None]. *)
Theorem sub_command_becomes_group (h : list Option.t) (self : ref)
  (s : Option.t) (name : pykey) (description nl dl : pyval)
  (func : AsyncFunc) :
  h !! self = Some s ->
  Option._level s <> 2 ->
  Option.type s = 1 ->
  Option._subs s = ∅ ->
  exists h' s',
    Option.command self name description nl dl func h = (Ok (length h), h') /\
    h' !! self = Some s' /\
    Option.type s' = 2 /\
    Option.options s' = [length h] /\
    Option._subs s' = {[name := length h]} /\
    Option._callback s' = Some None /\
    Option._level s' = Option._level s.
Proof.
  intros Hs Hlvl Hty Hsubs. unfold Option.command.
  rewrite Hs, init_sub_command.
  destruct (Z.eqb_spec (Option._level s) 2) as [|_]; [done|].
  pose proof (lookup_lt_Some _ _ _ Hs) as Hlt.
  rewrite Hsubs. destruct (decide _) as [_|]; [|done].
  cbn [Option.type Option.set_subs Option.set_options Option.set_callback
         Option.options Option._subs].
  rewrite Hty. cbn [Z.eqb Pos.eqb].
  eexists _, _. split; [reflexivity|].
  rewrite lookup_app_l by (rewrite length_insert; lia).
  rewrite list_lookup_insert_eq by lia.
  split_and!; try reflexivity.
  cbn. rewrite Hsubs. apply insert_empty.
Qed.

Lemma sub_command_becomes_group_witness :
  exists h' s',
    Option.command 1%nat (KStr "by_tag") VNone VMissing VMissing access_callback
      search_store
    = (Ok (length search_store), h') /\
    h' !! 1%nat = Some s' /\
    Option.type s' = 2 /\
    Option.options s' = [length search_store] /\
    Option._subs s' = {[KStr "by_tag" := length search_store]} /\
    Option._callback s' = Some None /\
    Option._level s' = Option._level search_option.
Proof.
  apply (sub_command_becomes_group search_store 1%nat search_option);
    try reflexivity. cbn. lia.
Defined.

(** ** Building roles and members *)






(** ** Decoding received nodes *)

(** Unfolding the body of the loop at a node whose declared option is
    known, once the node's type is known. *)
Ltac at_node node Hfound Hty :=
  let name := fresh "name" in
  let ty := fresh "ty" in
  destruct node as [name ty ? ? ?];
  cbn in Hty; subst ty; cbn [InteractionOption.name] in Hfound;
  cbn [ApplicationCommand.process_option InteractionOption.type
         InteractionOption.name InteractionOption.value Z.eqb Pos.eqb orb];
  rewrite Hfound; unfold mbind, stateful_mbind, st_bind, st_lift.

Lemma process_scalar {outside : Outside} (h : list Option.t) (self : ApplicationCommand.t)
  (interaction : Interaction.t) (grouped : bool)
  (node : InteractionOption.t) (o : Option.t) (p : string)
  (binding : gmap string bound) (tr : list event) :
  declares self h node o p ->
  scalar_node node ->
  ApplicationCommand.process_option h self interaction grouped node
    binding tr
  = (Ok (<[p := BVal (InteractionOption.value node)]> binding), tr).
Proof.
  intros Hdecl Hsc. pose proof (declared_option _ _ _ _ _ Hdecl) as Hfound.
  destruct Hdecl as (_ & _ & _ & _ & _ & Hp).
  destruct Hsc as [Hty|[Hty|[Hty|Hty]]]; at_node node Hfound Hty;
    exact (bind_param_ok o _ p binding tr Hp).
Qed.

(** A list of scalar nodes on declared options, from any binding. *)
Lemma process_scalars {outside : Outside} (h : list Option.t) (self : ApplicationCommand.t)
  (interaction : Interaction.t) (grouped : bool)
  (nodes : list (InteractionOption.t * string)) :
  Forall (fun np => scalar_node np.1 /\ exists o, declares self h np.1 o np.2)
    nodes ->
  forall binding tr,
    for_each (ApplicationCommand.process_option h self interaction grouped)
      (nodes.*1) binding tr
    = (Ok (scalar_binding nodes binding), tr).
Proof.
  induction nodes as [|[node p] nodes IH]; intros Hall binding tr.
  - reflexivity.
  - apply Forall_cons in Hall as [[Hsc [o Hdecl]] Hall].
    cbn [fmap list_fmap fst for_each]. unfold st_bind.
    cbn [fst snd] in Hsc, Hdecl.
    rewrite (process_scalar _ _ _ _ _ _ _ _ _ Hdecl Hsc).
    apply (IH Hall).
Qed.

(** X9. Nodes of the scalar types 3, 4, 5 and 10 that name declared
    options are bound exactly as received: each value is stored under the
    parameter of the declared option, in order, without conversion and
    without regard to the declared type or to the rest of the interaction;
    no callback is awaited. *)
Theorem scalars_bound_as_received {outside : Outside} (h : list Option.t)
  (self : ApplicationCommand.t) (interaction : Interaction.t)
  (grouped : bool) (nodes : list (InteractionOption.t * string))
  (tr : list event) :
  Forall (fun np => scalar_node np.1 /\ exists o, declares self h np.1 o np.2)
    nodes ->
  ApplicationCommand._process_options h self interaction (nodes.*1) grouped
    tr
  = (Ok (scalar_binding nodes ∅), tr).
Proof.
  intros Hall. unfold ApplicationCommand._process_options.
  by apply process_scalars.
Qed.

Lemma scalars_bound_as_received_witness :
  ApplicationCommand._process_options (outside := plain_outside) paint_store
    paint_command paint_request
    [InteractionOption.Mk "colour" 4 (VInt 7) [] VMissing;
     InteractionOption.Mk "colour" 3 (VStr "Re") [] VMissing]
    false []
  = (Ok {[ "colour"%string := BVal (VStr "Re") ]}, []).
Proof.
  etransitivity;
    [apply (scalars_bound_as_received (outside := plain_outside)
              paint_store paint_command paint_request false
              [(InteractionOption.Mk "colour" 4 (VInt 7) [] VMissing,
                "colour"%string);
               (InteractionOption.Mk "colour" 3 (VStr "Re") [] VMissing,
                "colour"%string)])|].
  - constructor; [|constructor; [|constructor]];
      (split; [unfold scalar_node; cbn; lia|]);
      eexists; eexists _, 0%nat; split_and!; reflexivity.
  - unfold scalar_binding. cbn [foldl fst snd InteractionOption.value].
    rewrite insert_insert_eq, insert_empty. reflexivity.
Defined.



(** X12. A node whose type is none of 1 to 11 binds nothing and raises
    nothing when its name is declared, yet raises [KeyError] like any
    other node when its name is not: the declared option is looked up
    before the type is tested. *)
Theorem unknown_node_type_ignored {outside : Outside} (h : list Option.t)
  (self : ApplicationCommand.t) (interaction : Interaction.t)
  (grouped : bool) (node : InteractionOption.t)
  (binding : gmap string bound) (tr : list event)
  (d : gmap pykey ref) :
  InteractionOption.type node < 1 \/ 11 < InteractionOption.type node ->
  ApplicationCommand._options_dict self = Some d ->
  (forall o p, declares self h node o p ->
     ApplicationCommand.process_option h self interaction grouped node
       binding tr
     = (Ok binding, tr)) /\
  (d !! KStr (InteractionOption.name node) = None ->
   ApplicationCommand.process_option h self interaction grouped node
     binding tr
   = (Raise KeyError, tr)).
Proof.
  intros Hty Hd. split.
  - intros o p Hdecl.
    pose proof (declared_option _ _ _ _ _ Hdecl) as Hfound.
    destruct node as [name ty value children focused].
    cbn [InteractionOption.type InteractionOption.name] in *.
    cbn [ApplicationCommand.process_option InteractionOption.type
           InteractionOption.name InteractionOption.value].
    rewrite Hfound. unfold mbind, stateful_mbind, st_bind, st_lift.
    repeat match goal with
           | |- context [ty =? ?k] =>
               destruct (Z.eqb_spec ty k); [lia|]
           end.
    reflexivity.
  - intros Hnone. apply process_not_found. rewrite Hd.
    cbn [ApplicationCommand.attr mbind result_bind bind].
    unfold ApplicationCommand.lookup_ref. by rewrite Hnone.
Qed.

Lemma unknown_node_type_ignored_witness :
  ApplicationCommand.process_option (outside := plain_outside) warn_store
    warn_command mention_interaction false odd_node ∅ []
  = (Ok ∅, []) /\
  ApplicationCommand.process_option (outside := plain_outside) warn_store
    warn_command mention_interaction false
    (InteractionOption.Mk "reason" 12 (VStr "77") [] VMissing) ∅ []
  = (Raise KeyError, []).
Proof.
  split.
  - eapply (unknown_node_type_ignored (outside := plain_outside) warn_store
              warn_command mention_interaction false odd_node).
    + right. cbn. lia.
    + reflexivity.
    + eexists _, 0%nat. split_and!; reflexivity.
  - eapply (unknown_node_type_ignored (outside := plain_outside) warn_store
              warn_command mention_interaction false
              (InteractionOption.Mk "reason" 12 (VStr "77") [] VMissing)).
    + right. cbn. lia.
    + reflexivity.
    + reflexivity.
Defined.

(** ** Commands that hold sub commands *)

(** Induction over a received option tree, with the hypothesis on every
    child of a node. *)
Lemma node_tree_ind (P : InteractionOption.t -> Prop) :
  (forall name ty value children focused,
     Forall P children ->
     P (InteractionOption.Mk name ty value children focused)) ->
  forall node, P node.
Proof.
  intros Hnode. fix IH 1. intros [name ty value children focused].
  apply Hnode. revert children. fix IHl 1.
  intros [|child children]; constructor; [apply IH|apply IHl].
Qed.

(** Binding a leaf awaits nothing. *)
Lemma bind_param_trace (o : Option.t) (v : result bound)
  (binding : gmap string bound) (tr : list event) :
  exists res, ApplicationCommand.bind_param o v binding tr = (res, tr).
Proof.
  unfold ApplicationCommand.bind_param, mbind, stateful_mbind, st_bind,
    st_lift.
  destruct v as [v|e]; [|eauto].
  destruct (ApplicationCommand.attr (Option._param o)); eauto.
Qed.

(** A loop whose body leaves the trace alone leaves the trace alone, and
    raises when it holds an element at which the body raises. *)
Lemma for_each_silent {A B} (body : A -> B -> io B) (Q : A -> Prop)
  (xs : list A) :
  Forall (fun x => forall acc tr,
            exists res, body x acc tr = (res, tr) /\
                        (Q x -> exists e, res = Raise e)) xs ->
  forall acc tr,
  exists res, for_each body xs acc tr = (res, tr) /\
              (Exists Q xs -> exists e, res = Raise e).
Proof.
  induction 1 as [|x xs Hx _ IH]; intros acc tr.
  - eexists. split; [reflexivity|]. intros Hex. by apply Exists_nil in Hex.
  - cbn [for_each]. unfold st_bind.
    destruct (Hx acc tr) as (res & -> & Hq).
    destruct res as [acc'|e].
    + destruct (IH acc' tr) as (res' & -> & Hex). eexists. split; [done|].
      intros [Hqx|Hrest]%Exists_cons; [|by apply Hex].
      destruct (Hq Hqx) as [e He]. discriminate.
    + eauto.
Qed.

Lemma process_option_silent {outside : Outside} (h : list Option.t)
  (self : ApplicationCommand.t) (interaction : Interaction.t) :
  ApplicationCommand._callback self = None ->
  forall node binding tr,
  exists res,
    ApplicationCommand.process_option h self interaction false node
      binding tr = (res, tr) /\
    (command_node node -> exists e, res = Raise e).
Proof.
  intros Hcb node. induction node as [name ty value children focused IH]
    using node_tree_ind.
  intros binding tr. unfold command_node.
  cbn [ApplicationCommand.process_option InteractionOption.type
         InteractionOption.name InteractionOption.value
         InteractionOption.options].
  unfold mbind at 1, stateful_mbind at 1, st_bind at 1, st_lift at 1.
  destruct (d ← ApplicationCommand.attr (ApplicationCommand._options_dict self);
            r ← ApplicationCommand.lookup_ref d (KStr name);
            ApplicationCommand.deref h r) as [o|e]; [|eauto].
  destruct (Z.eqb_spec ty 1) as [->|Hn1].
  { unfold mbind at 1, stateful_mbind at 1, st_bind at 1, st_lift at 1.
    destruct (subs ← ApplicationCommand.attr (ApplicationCommand._subs self);
              r ← ApplicationCommand.lookup_ref subs (KStr name);
              ApplicationCommand.deref h r) as [sub|e]; [|eauto].
    unfold mbind at 1, stateful_mbind at 1, st_bind at 1.
    destruct (for_each_silent _ command_node children IH ∅ tr)
      as (res & -> & _).
    destruct res as [opts|e]; [|eauto].
    rewrite Hcb. cbn. eauto. }
  destruct (Z.eqb_spec ty 2) as [->|Hn2].
  { rewrite Hcb. cbn. eauto. }
  assert (Hleaf : forall res : result (gmap string bound),
            exists res', (res, tr) = (res', tr) /\
              (ty = 1 \/ ty = 2 -> exists e, res' = Raise e)).
  { intros res. exists res. split; [done|]. intros [?|?]; lia. }
  destruct ((ty =? 3) || (ty =? 4) || (ty =? 5) || (ty =? 10)).
  { destruct (bind_param_trace o
                (Ok (BVal (Option.value
                             (Option._inter_copy o
                                (InteractionOption.Mk name ty value children
                                   focused))))) binding tr) as [res ->].
    apply Hleaf. }
  destruct (ty =? 6).
  { destruct (bind_param_trace o
                (ApplicationCommand.user_or_member interaction true value)
                binding tr) as [res ->]. apply Hleaf. }
  destruct (ty =? 7).
  { match goal with
    | |- context [ApplicationCommand.bind_param o ?v binding tr] =>
        destruct (bind_param_trace o v binding tr) as [res ->]
    end. apply Hleaf. }
  destruct (ty =? 8).
  { match goal with
    | |- context [ApplicationCommand.bind_param o ?v binding tr] =>
        destruct (bind_param_trace o v binding tr) as [res ->]
    end. apply Hleaf. }
  destruct (ty =? 9).
  { unfold mbind at 1, stateful_mbind at 1, st_bind at 1, st_lift at 1.
    destruct (ApplicationCommand.resolved_roles interaction) as [roles|e];
      [|apply Hleaf].
    destruct (truthy roles);
      match goal with
      | |- context [ApplicationCommand.bind_param o ?v binding tr] =>
          destruct (bind_param_trace o v binding tr) as [res ->]
      end; apply Hleaf. }
  destruct (ty =? 11).
  { match goal with
    | |- context [ApplicationCommand.bind_param o ?v binding tr] =>
        destruct (bind_param_trace o v binding tr) as [res ->]
    end. apply Hleaf. }
  apply Hleaf.
Qed.

(** X13. On a command whose callback is [None], as it is once a sub
    command has been attached, [_process_options] awaits no callback at
    all, whatever the received tree, and raises whenever the received
    list holds a sub command or group node. *)
Theorem no_dispatch_without_root_callback {outside : Outside} (h : list Option.t)
  (self : ApplicationCommand.t) (interaction : Interaction.t)
  (options : list InteractionOption.t) (tr : list event) :
  ApplicationCommand._callback self = None ->
  exists res,
    ApplicationCommand._process_options h self interaction options false tr
    = (res, tr) /\
    (Exists command_node options -> exists e, res = Raise e).
Proof.
  intros Hcb. unfold ApplicationCommand._process_options.
  apply for_each_silent. apply Forall_forall. intros node _.
  by apply process_option_silent.
Qed.

Lemma no_dispatch_without_root_callback_witness :
  exists self' h' r,
    ApplicationCommand.command (KStr "access") VNone VMissing VMissing
      access_callback (root_command, [])
    = (Ok r, (self', h')) /\
    exists res,
      ApplicationCommand._process_options (outside := plain_outside) h'
        self' grant_interaction
        [InteractionOption.Mk "access" 1 VMissing [] VMissing] false []
      = (res, []) /\
      (Exists command_node
         [InteractionOption.Mk "access" 1 VMissing [] VMissing] ->
       exists e, res = Raise e).
Proof.
  eexists _, _, _. split; [reflexivity|].
  apply (no_dispatch_without_root_callback (outside := plain_outside) _ _
           grant_interaction).
  reflexivity.
Defined.

(** ** Dispatch *)

Section InvokeFacts.
Context {outside : Outside}.
Context (user_completer : AsyncFunc -> Option.t -> pyval -> result pyval).
Context (h : list Option.t) (self : ApplicationCommand.t).
Context (interaction : Interaction.t).

(** [_invoke] on an interaction addressed to the command: the test of
    [interaction.data['type']] is reached. *)
Lemma invoke_addressed (d : payload) (ty : pyval) (tr : list event) :
  addressed_to self interaction d ->
  get "type" d = Some ty ->
  ApplicationCommand._invoke user_completer h self interaction tr
  = (if eq_int ty 1 then
       options ← st_lift (ApplicationCommand.attr
                            (Interaction.options interaction));
       binding ← ApplicationCommand._process_options h self interaction
                   options false;
       match ApplicationCommand._callback self with
       | Some _ =>
           await (ApplicationCommand._callback self) interaction [] binding
       | None => st_ret tt
       end
     else if eq_int ty 2 then
       await (ApplicationCommand._callback self) interaction
         [ApplicationCommand._process_user_command interaction] ∅
     else if eq_int ty 3 then
       target ← st_lift (getitem (VDict d) (VStr "target_id"));
       m ← st_lift (ApplicationCommand.resolved_entry interaction "messages"
                      target);
       await (ApplicationCommand._callback self) interaction
         [BMessage (MkMessage m);
          ApplicationCommand._process_user_command interaction] ∅
     else st_ret tt) tr.
Proof.
  intros (Hty & Hdata & Hname) Htype. unfold ApplicationCommand._invoke.
  destruct (Z.eqb_spec (Interaction.type interaction) 4) as [|_]; [done|].
  unfold ApplicationCommand.data_get. rewrite Hdata.
  destruct d as [|kv d']; [discriminate Hname|].
  cbn [truthy]. unfold dict_get. rewrite Hname.
  unfold mbind at 1, stateful_mbind at 1, st_bind at 1, st_lift at 1.
  cbn [is_none negb].
  unfold mbind at 1, stateful_mbind at 1, st_bind at 1, st_lift at 1.
  cbn [getitem]. unfold subscript at 1. rewrite Hname.
  cbn [ApplicationCommand.str_eq]. rewrite String.eqb_refl.
  unfold mbind at 1, stateful_mbind at 1, st_bind at 1, st_lift at 1.
  cbn [getitem]. unfold subscript at 1. rewrite Htype. reflexivity.
Qed.

End InvokeFacts.

(** X14. [_invoke] does nothing, and raises nothing, on an interaction
    whose [data] names another command or no command, whatever the type
    of the interaction and whatever else it holds. *)
Theorem invoke_ignores_other_commands {outside : Outside}
  (user_completer : AsyncFunc -> Option.t -> pyval -> result pyval)
  (h : list Option.t) (self : ApplicationCommand.t)
  (interaction : Interaction.t) (d : payload) (tr : list event) :
  Interaction.data interaction = VDict d ->
  dict_get d "name" <> VStr (ApplicationCommand.name self) ->
  ApplicationCommand._invoke user_completer h self interaction tr
  = (Ok tt, tr).
Proof.
  intros Hdata Hname. unfold ApplicationCommand._invoke.
  unfold ApplicationCommand.data_get. rewrite Hdata.
  unfold mbind, stateful_mbind, st_bind, st_lift in *.
  unfold dict_get in *. cbn [getitem] in *. unfold subscript in *.
  destruct (Interaction.type interaction =? 4), (truthy (VDict d));
    try reflexivity;
    destruct (get "name" d) as [v|]; try reflexivity;
    destruct v; try reflexivity;
    cbn [is_none negb ApplicationCommand.str_eq] in *;
    destruct (String.eqb_spec s (ApplicationCommand.name self));
    try reflexivity; congruence.
Qed.

Lemma invoke_ignores_other_commands_witness :
  ApplicationCommand._invoke (outside := plain_outside) no_user_completer
    paint_store paint_command other_invocation []
  = (Ok tt, []).
Proof.
  apply (invoke_ignores_other_commands (outside := plain_outside)
           no_user_completer paint_store paint_command other_invocation
           [("name", VStr "erase"); ("type", VInt 1)]%string).
  - reflexivity.
  - vm_compute. discriminate.
Defined.

(** X15. An interaction as [Interaction.__init__] builds it has no
    [options] attribute. A chat-input interaction (data type 1) addressed
    to a command therefore raises [AttributeError] where [_invoke] reads
    [interaction.options]: no node is decoded and no callback is awaited,
    whatever the command declares and whatever [data] holds. *)
Theorem invoke_chat_input_needs_options {outside : Outside}
  (user_completer : AsyncFunc -> Option.t -> pyval -> result pyval)
  (h : list Option.t) (self : ApplicationCommand.t)
  (interaction : Interaction.t) (d : payload) (tr : list event) :
  addressed_to self interaction d ->
  command_type d 1 ->
  Interaction.options interaction = None ->
  ApplicationCommand._invoke user_completer h self interaction tr
  = (Raise AttributeError, tr).
Proof.
  intros Haddr (ty & Hty & Hone) Hopts.
  rewrite !(invoke_addressed _ _ _ _ d ty tr Haddr Hty), Hone, Hopts.
  reflexivity.
Qed.

Lemma invoke_chat_input_needs_options_witness :
  ApplicationCommand._invoke (outside := plain_outside) no_user_completer
    paint_store paint_command paint_invocation []
  = (Raise AttributeError, []).
Proof.
  apply (invoke_chat_input_needs_options (outside := plain_outside)
           no_user_completer paint_store paint_command paint_invocation
           [("name", VStr "paint"); ("type", VInt 1);
            ("options",
             VList [VDict [("name", VStr "colour"); ("type", VInt 3);
                           ("value", VStr "Red")]])]%string).
  - split_and!; [cbn; lia|reflexivity|reflexivity].
  - eexists. split; reflexivity.
  - reflexivity.
Defined.

(** X16. A chat-input interaction addressed to a command whose callback
    is [None] awaits nothing, whatever its nodes: it either raises or is
    dropped without a trace. It raises whenever its [options] hold a sub
    command or group node, and with [AttributeError] when it has no
    [options] attribute. *)
Theorem invoke_without_root_callback {outside : Outside}
  (user_completer : AsyncFunc -> Option.t -> pyval -> result pyval)
  (h : list Option.t) (self : ApplicationCommand.t)
  (interaction : Interaction.t) (d : payload) (tr : list event) :
  addressed_to self interaction d ->
  command_type d 1 ->
  ApplicationCommand._callback self = None ->
  exists res,
    ApplicationCommand._invoke user_completer h self interaction tr
    = (res, tr) /\
    (forall nodes,
       Interaction.options interaction = Some nodes ->
       Exists command_node nodes ->
       exists e, res = Raise e) /\
    (Interaction.options interaction = None -> res = Raise AttributeError).
Proof.
  intros Haddr (ty & Hty & Hone) Hcb.
  rewrite !(invoke_addressed _ _ _ _ d ty tr Haddr Hty), Hone.
  unfold mbind at 1, stateful_mbind at 1, st_bind at 1, st_lift at 1.
  destruct (Interaction.options interaction) as [options|];
    cbn [ApplicationCommand.attr].
  - unfold mbind at 1, stateful_mbind at 1, st_bind at 1.
    unfold ApplicationCommand._process_options.
    destruct (for_each_silent
                (ApplicationCommand.process_option h self interaction false)
                command_node options) with
      (acc := (∅ : gmap string bound)) (tr := tr) as (res & -> & Hex).
    { apply Forall_forall. intros node _. by apply process_option_silent. }
    destruct res as [binding|e].
    + rewrite Hcb. eexists. split; [reflexivity|]. split; [|done].
      intros nodes [= <-] Hc. destruct (Hex Hc) as [e He]. discriminate.
    + eexists. split; [reflexivity|]. split; [eauto|done].
  - eexists. split; [reflexivity|]. split; [done|reflexivity].
Qed.

Lemma invoke_without_root_callback_witness :
  exists self' h' r,
    ApplicationCommand.command (KStr "access") VNone VMissing VMissing
      access_callback (root_command, [])
    = (Ok r, (self', h')) /\
    exists res,
      ApplicationCommand._invoke (outside := plain_outside)
        no_user_completer h' self' grant_interaction []
      = (res, []) /\
      (forall nodes,
         Interaction.options grant_interaction = Some nodes ->
         Exists command_node nodes ->
         exists e, res = Raise e) /\
      (Interaction.options grant_interaction = None ->
       res = Raise AttributeError).
Proof.
  eexists _, _, _. split; [reflexivity|].
  eapply (invoke_without_root_callback (outside := plain_outside)
            no_user_completer _ _ grant_interaction).
  - split_and!; [cbn; lia|reflexivity|reflexivity].
  - eexists. split; reflexivity.
  - reflexivity.
Defined.

Lemma eq_int_other (v : pyval) (n m : Z) :
  eq_int v n = true -> n <> m -> eq_int v m = false.
Proof.
  destruct v; cbn; try discriminate; intros Hn Hne.
  - destruct b; apply Z.eqb_eq in Hn; apply Z.eqb_neq; lia.
  - apply Z.eqb_eq in Hn. apply Z.eqb_neq. lia.
Qed.

(** X17. A user-command interaction (data type 2) addressed to a command
    calls the command's callback once, as [callback(interaction, b)] with
    one further positional argument: the member who ran the command, or
    the user when the interaction has no member. What [_invoke] returns
    or raises is what that call does, a [TypeError] included when the
    callback does not take two positional arguments. Neither [target_id]
    nor the resolved data is read; with the callback [None] the call
    raises [TypeError] and nothing is awaited. *)
Theorem invoke_user_command {outside : Outside}
  (user_completer : AsyncFunc -> Option.t -> pyval -> result pyval)
  (h : list Option.t) (self : ApplicationCommand.t)
  (interaction : Interaction.t) (d : payload) (tr : list event) :
  addressed_to self interaction d ->
  command_type d 2 ->
  (forall f, ApplicationCommand._callback self = Some f ->
     exists b,
       ApplicationCommand._invoke user_completer h self interaction tr
       = (callback_outcome f interaction [b] ∅, tr ++ [Await f [b] ∅]) /\
       requester_of interaction b) /\
  (ApplicationCommand._callback self = None ->
   ApplicationCommand._invoke user_completer h self interaction tr
   = (Raise TypeError, tr)).
Proof.
  intros Haddr (ty & Hty & Htwo).
  rewrite !(invoke_addressed _ _ _ _ d ty tr Haddr Hty).
  rewrite (eq_int_other ty 2 1 Htwo) by lia. rewrite Htwo.
  split.
  - intros f ->. eexists. split; [reflexivity|].
    unfold requester_of, ApplicationCommand._process_user_command.
    destruct (Interaction.member interaction); [reflexivity|].
    by intros u ->.
  - intros ->. reflexivity.
Qed.

Lemma invoke_user_command_witness :
  ApplicationCommand._callback profile_command = Some profile_callback /\
  ApplicationCommand._invoke (outside := plain_outside) no_user_completer []
    profile_command user_invocation []
  = (Ok tt, [Await profile_callback [BMember invoker] ∅]).
Proof.
  split; [reflexivity|].
  destruct (invoke_user_command (outside := plain_outside)
              no_user_completer [] profile_command user_invocation
              [("name", VStr "profile"); ("type", VInt 2);
               ("target_id", VStr "78");
               ("resolved",
                VDict [("users",
                        VDict [("78", VDict [("id", VStr "78")])])])]%string
              [])
    as [Hsome _].
  - split_and!; [cbn; lia|reflexivity|reflexivity].
  - eexists. split; reflexivity.
  - destruct (Hsome profile_callback eq_refl) as (b & Heq & Hb).
    cbn in Hb. subst b. exact Heq.
Defined.

(** X18. A message-command interaction (data type 3) addressed to a
    command calls the callback once, as [callback(interaction, message,
    b)], with the message that [resolved.messages] holds for [target_id]
    followed by the one who ran the command. What [_invoke] returns or
    raises is what that call does, a [TypeError] included when the
    callback does not take three positional arguments. When the message
    is not there the exception of the failed lookup is raised and nothing
    is awaited. *)
Theorem invoke_message_command {outside : Outside}
  (user_completer : AsyncFunc -> Option.t -> pyval -> result pyval)
  (h : list Option.t) (self : ApplicationCommand.t)
  (interaction : Interaction.t) (d : payload) (target : pyval)
  (tr : list event) :
  addressed_to self interaction d ->
  command_type d 3 ->
  get "target_id" d = Some target ->
  (forall m f,
     ApplicationCommand.resolved_entry interaction "messages" target = Ok m ->
     ApplicationCommand._callback self = Some f ->
     exists b,
       ApplicationCommand._invoke user_completer h self interaction tr
       = (callback_outcome f interaction [BMessage (MkMessage m); b] ∅,
          tr ++ [Await f [BMessage (MkMessage m); b] ∅]) /\
       requester_of interaction b) /\
  (forall e,
     ApplicationCommand.resolved_entry interaction "messages" target
     = Raise e ->
     ApplicationCommand._invoke user_completer h self interaction tr
     = (Raise e, tr)).
Proof.
  intros Haddr (ty & Hty & Hthree) Htarget.
  rewrite !(invoke_addressed _ _ _ _ d ty tr Haddr Hty).
  rewrite (eq_int_other ty 3 1 Hthree) by lia.
  rewrite (eq_int_other ty 3 2 Hthree) by lia. rewrite Hthree.
  unfold mbind, stateful_mbind, st_bind, st_lift.
  cbn [getitem]. unfold subscript. rewrite Htarget.
  split.
  - intros m f -> ->. eexists. split; [reflexivity|].
    unfold requester_of, ApplicationCommand._process_user_command.
    destruct (Interaction.member interaction); [reflexivity|].
    by intros u ->.
  - intros e ->. reflexivity.
Qed.

Lemma invoke_message_command_witness :
  ApplicationCommand._callback report_command = Some report_callback /\
  ApplicationCommand._invoke (outside := plain_outside) no_user_completer []
    report_command message_invocation []
  = (Ok tt,
     [Await report_callback
        [BMessage (MkMessage message_300); BUser (MkUser user_77)] ∅]).
Proof.
  split; [reflexivity|].
  destruct (invoke_message_command (outside := plain_outside)
              no_user_completer [] report_command message_invocation
              [("name", VStr "report"); ("type", VInt 3);
               ("target_id", VStr "300");
               ("resolved",
                VDict [("messages", VDict [("300", message_300)])])]%string
              (VStr "300") [])
    as [Hsome _].
  - split_and!; [cbn; lia|reflexivity|reflexivity].
  - eexists. split; reflexivity.
  - reflexivity.
  - destruct (Hsome message_300 report_callback eq_refl eq_refl)
      as (b & Heq & Hb).
    cbn in Hb. rewrite (Hb _ eq_refl) in Heq. exact Heq.
Defined.

(** X19. An autocomplete request (interaction type 4) never awaits the
    callback of a command or sub command and never decodes the option
    tree: whatever the request holds, [_invoke] adds to the trace at most
    the call of a completer. *)
Theorem autocomplete_runs_no_callback {outside : Outside}
  (user_completer : AsyncFunc -> Option.t -> pyval -> result pyval)
  (h : list Option.t) (self : ApplicationCommand.t)
  (interaction : Interaction.t) (tr : list event) :
  Interaction.type interaction = 4 ->
  exists res evs,
    ApplicationCommand._invoke user_completer h self interaction tr
    = (res, tr ++ evs) /\
    no_callback_awaited evs /\
    (length evs <= 1)%nat.
Proof.
  intros Hty. unfold ApplicationCommand._invoke. rewrite Hty.
  cbn [Z.eqb Pos.eqb].
  assert (Hnone : forall res : result unit,
            exists res' evs, (res, tr) = (res', tr ++ evs) /\
              no_callback_awaited evs /\ (length evs <= 1)%nat).
  { intros res. exists res, []. rewrite app_nil_r. split_and!; [done| |cbn; lia].
    intros f args kwargs Hin. by apply elem_of_nil in Hin. }
  unfold mbind at 1, stateful_mbind at 1, st_bind at 1, st_lift at 1.
  destruct (ApplicationCommand.data_get interaction "name") as [n|e];
    [|apply Hnone].
  destruct (negb (is_none n)); [|apply Hnone].
  unfold mbind at 1, stateful_mbind at 1, st_bind at 1, st_lift at 1.
  destruct (getitem _ (VStr "name")) as [n'|e]; [|apply Hnone].
  destruct (ApplicationCommand.str_eq n' _); [|apply Hnone].
  unfold mbind at 1, stateful_mbind at 1, st_bind at 1, st_lift at 1.
  destruct (getitem _ (VStr "options")) as [options|e]; [|apply Hnone].
  unfold mbind at 1, stateful_mbind at 1, st_bind at 1, st_lift at 1.
  destruct (getitem options (VInt 0)) as [option|e]; [|apply Hnone].
  unfold mbind at 1, stateful_mbind at 1, st_bind at 1, st_lift at 1.
  destruct (getitem option (VStr "name")) as [oname|e]; [|apply Hnone].
  unfold mbind at 1, stateful_mbind at 1, st_bind at 1, st_lift at 1.
  destruct (d ← ApplicationCommand.attr (ApplicationCommand._options_dict self);
            k ← ApplicationCommand.val_key oname;
            ApplicationCommand.lookup_ref d k) as [r|e]; [|apply Hnone].
  unfold mbind at 1, stateful_mbind at 1, st_bind at 1, st_lift at 1.
  destruct (ApplicationCommand.deref h r) as [real_option|e]; [|apply Hnone].
  unfold mbind at 1, stateful_mbind at 1, st_bind at 1, st_lift at 1.
  destruct (getitem option (VStr "value")) as [string|e]; [|apply Hnone].
  unfold mbind at 1, stateful_mbind at 1, st_bind at 1.
  unfold ApplicationCommand.run_completer.
  destruct (Option.autocompleter real_option) as [|f].
  - unfold mbind at 1, stateful_mbind at 1, st_bind at 1, st_lift at 1.
    destruct (Option._autocomplete real_option string) as [ds|e];
      apply Hnone.
  - unfold mbind at 1, stateful_mbind at 1, st_bind at 1, emit, st_modify,
      st_lift.
    destruct (user_completer f real_option string) as [choices|e];
      (eexists _, [_]; split; [reflexivity|]; split; [|cbn; lia];
       intros g args kwargs Hin;
       apply elem_of_cons in Hin as [Hin|Hin]; [discriminate|];
       by apply elem_of_nil in Hin).
Qed.

Lemma autocomplete_runs_no_callback_witness :
  exists res evs,
    ApplicationCommand._invoke (outside := plain_outside) no_user_completer
      paint_store paint_command paint_request []
    = (res, [] ++ evs) /\
    no_callback_awaited evs /\
    (length evs <= 1)%nat.
Proof.
  apply (autocomplete_runs_no_callback (outside := plain_outside)
           no_user_completer paint_store paint_command paint_request []).
  reflexivity.
Defined.

(** ** Registration *)

Lemma name_in_declared (n : string) (names : list string) :
  n ∈ names -> ApplicationCommand.name_in (VStr n) names = true.
Proof.
  intros Hin. cbn. apply existsb_exists. exists n. split.
  - by apply list_elem_of_In.
  - apply String.eqb_refl.
Qed.

(** The body of the guild loop at a command that is left alone. *)
Lemma guild_step_left_alone (state : State.t) (g : Z)
  (self : ApplicationCommand.t) (w : Http.world) (c : payload) :
  left_alone state self c ->
  ApplicationCommand.guild_step state g (VDict c) tt (self, w)
  = (Ok tt, (self, w)).
Proof.
  intros (n & Hn & Hin & Hwhy). unfold ApplicationCommand.guild_step.
  unfold mbind at 1, stateful_mbind at 1, st_bind at 1, st_lift at 1.
  cbn [getitem]. unfold subscript at 1. rewrite Hn.
  rewrite (name_in_declared _ _ Hin). cbn [negb].
  unfold mbind at 1, stateful_mbind at 1, st_bind at 1,
    ApplicationCommand.get_self.
  cbn [ApplicationCommand.str_eq].
  destruct Hwhy as [Hne|[Hoff|(ty & Hty & Hneq)]].
  - destruct (String.eqb_spec n (ApplicationCommand.name self)); [done|].
    reflexivity.
  - rewrite Hoff, andb_false_r. reflexivity.
  - destruct (_ && _); [|reflexivity].
    unfold mbind at 1, stateful_mbind at 1, st_bind at 1, st_lift at 1.
    unfold subscript at 1. rewrite Hty, Hneq. reflexivity.
Qed.

Lemma guild_loop_left_alone (state : State.t) (g : Z)
  (self : ApplicationCommand.t) (w : Http.world) (cs : list payload) :
  Forall (left_alone state self) cs ->
  for_each (ApplicationCommand.guild_step state g) (VDict <$> cs) tt
    (self, w)
  = (Ok tt, (self, w)).
Proof.
  induction 1 as [|c cs Hc _ IH]; [reflexivity|].
  cbn [fmap list_fmap for_each]. unfold st_bind.
  rewrite (guild_step_left_alone _ _ _ _ _ Hc). exact IH.
Qed.

(** [instantiate] when the loop passes over every command of the
    guild. *)
Lemma instantiate_unmatched (overwrite : bool) (state : State.t)
  (self : ApplicationCommand.t) (w : Http.world) (g : Z) :
  ApplicationCommand.guild_of self = Some g ->
  ApplicationCommand._created self = false ->
  Forall (left_alone state self) (Http.of_guild w g) ->
  ApplicationCommand.instantiate overwrite state (self, w)
  = (Ok tt,
     (ApplicationCommand.set_id self (VStr (pretty (Http.next_id w))),
      Http.MkWorld
        (<[g := Http.create_in overwrite (VStr (pretty (Http.next_id w)))
                  (ApplicationCommand.fields self) (Http.of_guild w g)]>
           (Http.guild_commands w))
        (Http.global_commands w) (Http.next_id w + 1))).
Proof.
  intros Hg Hnew Hall. unfold ApplicationCommand.instantiate.
  unfold mbind at 1, stateful_mbind at 1, st_bind at 1,
    ApplicationCommand.get_self at 1.
  rewrite Hg.
  unfold mbind at 1, stateful_mbind at 1, st_bind at 1,
    ApplicationCommand.on_world at 1,
    Http.get_guild_application_commands.
  unfold mbind at 1, stateful_mbind at 1, st_bind at 1.
  rewrite (guild_loop_left_alone _ _ _ _ _ Hall).
  unfold mbind at 1, stateful_mbind at 1, st_bind at 1,
    ApplicationCommand.get_self at 1.
  rewrite Hnew. reflexivity.
Qed.

(** X20. When the guild holds no command that [instantiate] takes for
    its own (every command there has a declared name, and each has
    another name or another type, or the update policy is off), the call
    changes none of them, creates the command and stores the id of the
    answer; it does not set [_created], which stays [False]. *)
Theorem instantiate_creates_unmarked (overwrite : bool) (state : State.t)
  (self : ApplicationCommand.t) (w : Http.world) (g : Z) :
  ApplicationCommand.guild_of self = Some g ->
  ApplicationCommand._created self = false ->
  Forall (left_alone state self) (Http.of_guild w g) ->
  exists self' w' new_id,
    ApplicationCommand.instantiate overwrite state (self, w)
    = (Ok tt, (self', w')) /\
    new_id = VStr (pretty (Http.next_id w)) /\
    ApplicationCommand.id self' = Some new_id /\
    ApplicationCommand._created self' = false /\
    Http.of_guild w' g
    = Http.create_in overwrite new_id (ApplicationCommand.fields self)
        (Http.of_guild w g).
Proof.
  intros Hg Hnew Hall.
  rewrite (instantiate_unmatched _ _ _ _ _ Hg Hnew Hall).
  eexists _, _, _. split; [reflexivity|].
  split_and!; try reflexivity.
  - exact Hnew.
  - unfold Http.of_guild at 1. cbn [Http.guild_commands].
    by rewrite lookup_insert_eq.
Qed.

Lemma instantiate_creates_unmarked_witness :
  exists self' w' new_id,
    ApplicationCommand.instantiate false mixed_state
      (ping_command, mixed_world)
    = (Ok tt, (self', w')) /\
    new_id = VStr (pretty (Http.next_id mixed_world)) /\
    ApplicationCommand.id self' = Some new_id /\
    ApplicationCommand._created self' = false /\
    Http.of_guild w' 5
    = Http.create_in false new_id (ApplicationCommand.fields ping_command)
        (Http.of_guild mixed_world 5).
Proof.
  apply (instantiate_creates_unmarked false mixed_state ping_command
           mixed_world 5).
  - reflexivity.
  - reflexivity.
  - repeat constructor.
    + exists "ping"%string. split_and!; [reflexivity|set_solver|].
      right. right. eexists. split; reflexivity.
    + exists "pong"%string. split_and!; [reflexivity|set_solver|].
      left. discriminate.
Defined.

(** The command that a create stores carries the name and the type of
    the declaration. *)
Lemma created_name (self : ApplicationCommand.t) (id : pyval) :
  get "name" (("id"%string, id) :: ApplicationCommand.fields self)
  = Some (VStr (ApplicationCommand.name self)).
Proof. reflexivity. Qed.

Lemma created_counts (self : ApplicationCommand.t) (id : pyval) :
  ApplicationCommand.str_eq
    (dict_get (("id"%string, id) :: ApplicationCommand.fields self) "name")
    (ApplicationCommand.name self)
  && eq_int
       (dict_get (("id"%string, id) :: ApplicationCommand.fields self) "type")
       (ApplicationCommand.type self)
  = true.
Proof.
  unfold dict_get. rewrite created_name. cbn [ApplicationCommand.str_eq].
  rewrite String.eqb_refl. cbn [andb].
  unfold ApplicationCommand.fields. rewrite !remove_undefined_cons.
  cbn [is_missing get String.eqb Ascii.eqb Bool.eqb].
  destruct (is_missing (ApplicationCommand.name_localizations self)),
    (is_missing (ApplicationCommand.description self)),
    (is_missing (ApplicationCommand.description_localizations self));
    cbn; apply Z.eqb_refl.
Qed.

(** X21. With the update policy off, [instantiate] on a guild command
    creates the command at every call: [_created] is never set, so [n]
    calls leave, on a platform that stores a created command beside the
    existing ones, [n] more commands of that name and type. *)
Theorem update_off_registers_again (state : State.t)
  (self : ApplicationCommand.t) (w : Http.world) (g : Z) (n : nat) :
  State.update_commands state = false ->
  ApplicationCommand.name self ∈ State._application_command_names state ->
  ApplicationCommand.guild_of self = Some g ->
  ApplicationCommand._created self = false ->
  Forall (declared_name state) (Http.of_guild w g) ->
  ApplicationCommand._created
    (instantiate_times false state n (self, w)).1 = false /\
  registered (instantiate_times false state n (self, w)).2 g self
  = (registered w g self + n)%nat.
Proof.
  intros Hoff Hname Hg. revert self w Hname Hg.
  induction n as [|n IH]; intros self w Hname Hg Hnew Hall.
  - cbn. split; [done|lia].
  - cbn [instantiate_times].
    rewrite (instantiate_unmatched false state self w g Hg Hnew).
    2:{ eapply Forall_impl; [exact Hall|].
        intros c (m & Hm & Hin). exists m. eauto. }
    cbn [snd].
    set (new_id := VStr (pretty (Http.next_id w))).
    set (self' := ApplicationCommand.set_id self new_id).
    set (w' := Http.MkWorld _ _ _).
    assert (Hw' : Http.of_guild w' g
                  = Http.of_guild w g
                    ++ [("id"%string, new_id)
                        :: ApplicationCommand.fields self]).
    { unfold Http.of_guild at 1, w'. cbn [Http.guild_commands].
      by rewrite lookup_insert_eq. }
    destruct (IH self' w') as [Hc Hr]; try done.
    { rewrite Hw'. apply Forall_app. split; [exact Hall|].
      constructor; [|constructor].
      exists (ApplicationCommand.name self). split; [|exact Hname].
      apply created_name. }
    split; [exact Hc|].
    unfold registered in *. cbn [ApplicationCommand.name
                                   ApplicationCommand.type self'
                                   ApplicationCommand.set_id] in Hr.
    rewrite Hr, Hw', List.filter_app, length_app.
    cbn [List.filter]. rewrite created_counts. cbn [length]. lia.
Qed.

Lemma update_off_registers_again_witness :
  ApplicationCommand._created
    (instantiate_times false frozen_state 3 (ping_command, registered_world)).1
  = false /\
  registered
    (instantiate_times false frozen_state 3 (ping_command, registered_world)).2
    5 ping_command
  = (registered registered_world 5 ping_command + 3)%nat.
Proof.
  apply (update_off_registers_again frozen_state ping_command
           registered_world 5 3).
  - reflexivity.
  - set_solver.
  - reflexivity.
  - reflexivity.
  - repeat constructor. exists "ping"%string. split; [reflexivity|set_solver].
Defined.

(** ** Editing channels *)

(** A keyword that names no parameter is refused. *)
Lemma accepts_unknown (params : list string) (kwargs : payload)
  (k : string) (v : pyval) :
  (k, v) ∈ kwargs ->
  existsb (String.eqb k) params = false ->
  Call.accepts params kwargs = Raise TypeError.
Proof.
  intros Hin Hk. unfold Call.accepts.
  destruct (forallb _ kwargs) eqn:Hall; [|reflexivity].
  rewrite forallb_forall in Hall.
  apply list_elem_of_In in Hin. specialize (Hall _ Hin). cbn in Hall.
  congruence.
Qed.

(** [modify_channel] on keyword arguments that it refuses, and on
    keyword arguments that it accepts. *)
Lemma modify_channel_refused
  (respond : Channels.http_request -> result pyval) (channel_id : pyval)
  (kwargs : payload) (log : list Channels.http_request) :
  Call.accepts Channels.modify_channel_params kwargs = Raise TypeError ->
  Channels.modify_channel respond channel_id kwargs log
  = (Raise TypeError, log).
Proof.
  intros Hno. unfold Channels.modify_channel, mbind, stateful_mbind, st_bind,
    st_lift. by rewrite Hno.
Qed.

Lemma modify_channel_accepted
  (respond : Channels.http_request -> result pyval) (channel_id : pyval)
  (kwargs : payload) (log : list Channels.http_request) :
  Call.accepts Channels.modify_channel_params kwargs = Ok tt ->
  Channels.modify_channel respond channel_id kwargs log
  = Channels.request respond
      (Channels.MkRequest "PATCH" "/channels/{channel_id}"
         [("channel_id"%string, channel_id)]
         (Some (remove_undefined (Channels.modify_channel_data kwargs)))
         (Some (Call.given kwargs "reason" VNone))) log.
Proof.
  intros Hyes. unfold Channels.modify_channel, mbind, stateful_mbind, st_bind,
    st_lift. by rewrite Hyes.
Qed.

(** X22. [VoiceChannel.edit] and [StageChannel.edit] always raise
    [TypeError] and send no request, whatever their arguments: they pass
    the keyword [user_limit], and [modify_channel] has no parameter of
    that name. *)
Theorem audio_channel_edit_raises
  (respond : Channels.http_request -> result pyval)
  (self_class : Channel.channel_class) (self_id : pyval)
  (name position nsfw bitrate user_limit : pyval)
  (permission_overwrites : option (list _Overwrite.t))
  (parent_id rtc_region : pyval)
  (video_quality_mode : ChannelMethods.enum_arg)
  (log : list Channels.http_request) :
  ChannelMethods.VoiceChannel_edit respond self_class self_id name position
    nsfw bitrate user_limit permission_overwrites parent_id rtc_region
    video_quality_mode log
  = (Raise TypeError, log) /\
  ChannelMethods.StageChannel_edit respond self_class self_id name position
    nsfw bitrate user_limit permission_overwrites parent_id rtc_region
    video_quality_mode log
  = (Raise TypeError, log).
Proof.
  assert (H : ChannelMethods.AudioChannel_edit respond self_class self_id
                name position nsfw bitrate user_limit permission_overwrites
                parent_id rtc_region video_quality_mode log
              = (Raise TypeError, log)).
  { unfold ChannelMethods.AudioChannel_edit, ChannelMethods._base_edit.
    unfold mbind at 1, stateful_mbind at 1, st_bind at 1.
    rewrite modify_channel_refused; [reflexivity|].
    eapply (accepts_unknown _ _ "user_limit" user_limit);
      [|reflexivity].
    set_solver. }
  split; exact H.
Qed.

(** X23. [GroupDMChannel.edit] sends the same request whatever [icon] is:
    one [PATCH] whose body holds [name] when it is set and nothing else.
    The answer is built as a [GroupDMChannel]. *)
Theorem group_dm_icon_not_sent
  (respond : Channels.http_request -> result pyval)
  (self_id name icon : pyval) (log : list Channels.http_request) :
  let sent :=
    Channels.MkRequest "PATCH" "/channels/{channel_id}"
      [("channel_id"%string, self_id)]
      (Some (remove_undefined [("name"%string, name)])) (Some VNone) in
  ChannelMethods.GroupDMChannel_edit respond self_id name icon log
  = (data ← respond sent;
     ChannelMethods.construct Channel.GroupDMChannel data,
     log ++ [sent]).
Proof.
  intros sent. unfold ChannelMethods.GroupDMChannel_edit.
  unfold mbind at 1, stateful_mbind at 1, st_bind at 1.
  rewrite modify_channel_accepted by reflexivity.
  unfold Channels.request.
  replace (remove_undefined (Channels.modify_channel_data _))
    with (remove_undefined [("name"%string, name)]).
  2:{ destruct name; reflexivity. }
  replace (Call.given _ "reason" VNone) with VNone by reflexivity.
  fold sent. destruct (respond sent); reflexivity.
Qed.

Lemma modify_channel_data_keys (kwargs : payload) :
  (Channels.modify_channel_data kwargs).*1
  = ["name"; "archived"; "auto_archive_duration"; "locked"; "invitable";
     "applied_tags"; "rate_limit_per_user"; "flags"; "type"; "position";
     "topic"; "nsfw"; "bitrate"; "user_limit"; "permission_overwrites";
     "parent_id"; "rtc_region"; "video_quality_mode";
     "default_auto_archive_duration"; "available_tags";
     "default_reaction_emoji"; "default_thread_rate_limit_per_user";
     "default_sort_order"; "default_forum_layout"]%string.
Proof. reflexivity. Qed.

Lemma modify_channel_data_get (kwargs : payload) (k : string) :
  k ∈ (Channels.modify_channel_data kwargs).*1 ->
  get k (Channels.modify_channel_data kwargs)
  = Some (Call.given kwargs (wire_parameter k) VMissing).
Proof.
  rewrite modify_channel_data_keys. intros Hin.
  repeat (apply elem_of_cons in Hin as [->|Hin]; [reflexivity|]).
  by apply elem_of_nil in Hin.
Qed.

(** X24. The body that [modify_channel] sends holds, for each of its 24
    keys, the argument of the parameter of that name ([user_imit] for the
    key [user_limit]) when one was given and is not [MISSING], [None]
    included; it holds no other key, so neither [icon] nor [reason]. *)
Theorem modify_channel_body
  (respond : Channels.http_request -> result pyval) (channel_id : pyval)
  (kwargs : payload) (log : list Channels.http_request) :
  Call.accepts Channels.modify_channel_params kwargs = Ok tt ->
  exists res sent,
    Channels.modify_channel respond channel_id kwargs log
    = (res, log ++ [Channels.MkRequest "PATCH" "/channels/{channel_id}"
                      [("channel_id"%string, channel_id)] (Some sent)
                      (Some (Call.given kwargs "reason" VNone))]) /\
    forall k,
      get k sent
      = if bool_decide (k ∈ (Channels.modify_channel_data kwargs).*1)
        then match get (wire_parameter k) kwargs with
             | Some v => if is_missing v then None else Some v
             | None => None
             end
        else None.
Proof.
  intros Hyes. rewrite (modify_channel_accepted _ _ _ _ Hyes).
  eexists _, _. split; [reflexivity|]. intros k.
  rewrite get_remove_undefined.
  2:{ rewrite modify_channel_data_keys. apply (bool_decide_unpack _).
      vm_compute. exact I. }
  destruct (bool_decide_reflect
              (k ∈ (Channels.modify_channel_data kwargs).*1)) as [Hin|Hout].
  - rewrite (modify_channel_data_get _ _ Hin). unfold Call.given.
    destruct (get (wire_parameter k) kwargs); reflexivity.
  - by rewrite (get_absent _ _ Hout).
Qed.

Lemma modify_channel_body_witness :
  exists res sent,
    Channels.modify_channel answers_announcement (VStr "40")
      [("topic", VNone); ("user_imit", VInt 5); ("icon", VStr "x");
       ("name", VMissing)]%string []
    = (res, [] ++ [Channels.MkRequest "PATCH" "/channels/{channel_id}"
                     [("channel_id"%string, VStr "40")] (Some sent)
                     (Some VNone)]) /\
    get "topic" sent = Some VNone /\
    get "user_limit" sent = Some (VInt 5) /\
    get "icon" sent = None /\
    get "name" sent = None.
Proof.
  destruct (modify_channel_body answers_announcement (VStr "40")
              [("topic", VNone); ("user_imit", VInt 5); ("icon", VStr "x");
               ("name", VMissing)]%string [] eq_refl)
    as (res & sent & Heq & Hget).
  exists res, sent. split; [exact Heq|].
  rewrite !Hget. split_and!; reflexivity.
Defined.

(** X26. [CategoryChannel.edit] treats an empty list of permission
    overwrites as no list: the call is the one without the argument, and
    the body has no [permission_overwrites] key. A list that is not empty
    is sent as the list of the overwrites' dictionaries. *)
Theorem empty_overwrites_not_sent
  (respond : Channels.http_request -> result pyval)
  (self_class : Channel.channel_class) (self_id name position : pyval)
  (o : _Overwrite.t) (rest : list _Overwrite.t)
  (log : list Channels.http_request) :
  ChannelMethods.CategoryChannel_edit respond self_class self_id name
    position (Some []) log
  = ChannelMethods.CategoryChannel_edit respond self_class self_id name
      position None log /\
  (exists res sent,
     ChannelMethods.CategoryChannel_edit respond self_class self_id name
       position (Some []) log
     = (res, log ++ [Channels.MkRequest "PATCH" "/channels/{channel_id}"
                       [("channel_id"%string, self_id)] (Some sent)
                       (Some VNone)]) /\
     get "permission_overwrites" sent = None) /\
  (exists res sent,
     ChannelMethods.CategoryChannel_edit respond self_class self_id name
       position (Some (o :: rest)) log
     = (res, log ++ [Channels.MkRequest "PATCH" "/channels/{channel_id}"
                       [("channel_id"%string, self_id)] (Some sent)
                       (Some VNone)]) /\
     get "permission_overwrites" sent
     = Some (VList (VDict <$> (_Overwrite.to_dict <$> o :: rest)))).
Proof.
  split; [reflexivity|].
  assert (Hnd : forall kwargs,
            NoDup (Channels.modify_channel_data kwargs).*1).
  { intros kwargs. rewrite modify_channel_data_keys.
    apply (bool_decide_unpack _). vm_compute. exact I. }
  split.
  - unfold ChannelMethods.CategoryChannel_edit, ChannelMethods._base_edit.
    unfold mbind, stateful_mbind, st_bind.
    rewrite modify_channel_accepted by reflexivity. unfold Channels.request.
    destruct (respond _); (eexists _, _; split; [reflexivity|]);
      rewrite get_remove_undefined by apply Hnd; reflexivity.
  - unfold ChannelMethods.CategoryChannel_edit, ChannelMethods._base_edit.
    unfold mbind, stateful_mbind, st_bind.
    rewrite modify_channel_accepted by reflexivity. unfold Channels.request.
    destruct (respond _); (eexists _, _; split; [reflexivity|]);
      rewrite get_remove_undefined by apply Hnd; reflexivity.
Qed.

(** ** Other channel endpoints *)



(** X28. [start_thread_in_forum_channel] requires [message] and accepts
    [applied_tags], and sends neither: the body of its request holds
    [name] and nothing of the message or the tags. *)
Theorem forum_thread_drops_message
  (respond : Channels.http_request -> result pyval)
  (channel_id name message : pyval) (kwargs : payload)
  (log : list Channels.http_request) :
  Call.accepts
    ["name"; "auto_archive_duration"; "rate_limit_per_user"; "message";
     "applied_tags"; "reason"]%string kwargs = Ok tt ->
  get "name" kwargs = Some name ->
  get "message" kwargs = Some message ->
  is_missing name = false ->
  exists res sent,
    Channels.start_thread_in_forum_channel respond channel_id kwargs log
    = (res,
       log ++ [Channels.MkRequest "POST" "/channels/{channel_id}/threads"
                 [("channel_id"%string, channel_id)] (Some sent)
                 (Some (Call.given kwargs "reason" VNone))]) /\
    get "name" sent = Some name /\
    get "message" sent = None /\
    get "applied_tags" sent = None.
Proof.
  intros Hyes Hname Hmsg Hset.
  unfold Channels.start_thread_in_forum_channel.
  unfold mbind, stateful_mbind, st_bind, st_lift, Channels.request.
  rewrite Hyes. unfold Call.required. rewrite Hname, Hmsg.
  eexists _, _. split; [reflexivity|].
  rewrite !get_remove_undefined
    by (cbn; apply (bool_decide_unpack _); vm_compute; exact I).
  cbn [get String.eqb Ascii.eqb Bool.eqb]. rewrite Hset.
  split_and!; reflexivity.
Qed.

Lemma forum_thread_drops_message_witness :
  exists res sent,
    Channels.start_thread_in_forum_channel answers_announcement (VStr "40")
      [("name", VStr "help me");
       ("message", VDict [("content", VStr "hello")]);
       ("applied_tags", VList [VStr "12"])]%string []
    = (res,
       [] ++ [Channels.MkRequest "POST" "/channels/{channel_id}/threads"
                [("channel_id"%string, VStr "40")] (Some sent)
                (Some VNone)]) /\
    get "name" sent = Some (VStr "help me") /\
    get "message" sent = None /\
    get "applied_tags" sent = None.
Proof.
  apply (forum_thread_drops_message answers_announcement (VStr "40")
           (VStr "help me") (VDict [("content", VStr "hello")]%string)
           [("name", VStr "help me");
            ("message", VDict [("content", VStr "hello")]);
            ("applied_tags", VList [VStr "12"])]%string []);
    reflexivity.
Defined.

(** ** Forum tags *)

(** X29. What [ForumTag.to_dict] returns cannot be read back by
    [ForumTag.from_dict]: the dictionary never holds [id], which
    [from_dict] subscripts, so the call raises [KeyError]. *)
Theorem forum_tag_not_read_back (Snowflake : pyval -> result pyval)
  (tag : ForumTag.t) :
  (forall v, exists w, Snowflake v = Ok w) ->
  get "id" (ForumTag.to_dict tag) = None /\
  ForumTag.from_dict Snowflake (ForumTag.to_dict tag) = Raise KeyError.
Proof.
  intros Htotal. split; [reflexivity|].
  unfold ForumTag.from_dict, ForumTag.to_dict.
  cbn [subscript get String.eqb Ascii.eqb Bool.eqb dict_get mbind
         result_bind bind].
  destruct (ForumTag.is_int (ForumTag.emoji_id tag)); [|reflexivity].
  destruct (Htotal (ForumTag.emoji_id tag)) as [w ->]. reflexivity.
Qed.

Lemma forum_tag_not_read_back_witness :
  get "id"
    (ForumTag.to_dict
       (ForumTag.__init__ (VStr "help") (VBool false) (VInt 5) VNone))
  = None /\
  ForumTag.from_dict keep_snowflake
    (ForumTag.to_dict
       (ForumTag.__init__ (VStr "help") (VBool false) (VInt 5) VNone))
  = Raise KeyError.
Proof.
  apply (forum_tag_not_read_back keep_snowflake).
  intros v. exists v. reflexivity.
Defined.

(** X30. A tag that [ForumTag.from_dict] builds needs [name],
    [moderated] and [id] in the payload; its [id] is the [Snowflake] of
    the payload's, its dictionary holds the payload's [name], [moderated]
    and [emoji_name] ([None] when absent), and an [emoji_id] that is no
    [int] is kept as it is. *)
Theorem forum_tag_from_dict (Snowflake : pyval -> result pyval)
  (data : payload) (tag : ForumTag.t) :
  ForumTag.from_dict Snowflake data = Ok tag ->
  exists n m raw,
    get "name" data = Some n /\
    get "moderated" data = Some m /\
    get "id" data = Some raw /\
    Snowflake raw = Ok (ForumTag.id tag) /\
    ForumTag.to_dict tag
    = [("name", n); ("moderated", m);
       ("emoji_id", ForumTag.emoji_id tag);
       ("emoji_name", dict_get data "emoji_name")]%string /\
    (ForumTag.is_int (dict_get data "emoji_id") = false ->
     ForumTag.emoji_id tag = dict_get data "emoji_id").
Proof.
  unfold ForumTag.from_dict, subscript.
  destruct (get "name" data) as [n|]; [|discriminate].
  destruct (get "moderated" data) as [m|]; [|discriminate].
  cbn [mbind result_bind bind].
  destruct (if ForumTag.is_int (dict_get data "emoji_id")
            then Snowflake (dict_get data "emoji_id")
            else Ok (dict_get data "emoji_id")) as [e|] eqn:He;
    [|discriminate].
  cbn [mbind result_bind bind].
  destruct (get "id" data) as [raw|]; [|discriminate].
  cbn [mbind result_bind bind].
  destruct (Snowflake raw) as [i|] eqn:Hi; [|discriminate].
  cbn [mbind result_bind bind]. intros Heq. apply Ok_inj in Heq. subst tag.
  exists n, m, raw. split_and!; try reflexivity.
  - exact Hi.
  - intros Hint. rewrite Hint in He. cbn. congruence.
Qed.

Lemma forum_tag_from_dict_witness :
  exists tag n m raw,
    ForumTag.from_dict keep_snowflake tag_data = Ok tag /\
    get "name" tag_data = Some n /\
    get "moderated" tag_data = Some m /\
    get "id" tag_data = Some raw /\
    keep_snowflake raw = Ok (ForumTag.id tag) /\
    ForumTag.to_dict tag
    = [("name", n); ("moderated", m);
       ("emoji_id", ForumTag.emoji_id tag);
       ("emoji_name", dict_get tag_data "emoji_name")]%string /\
    (ForumTag.is_int (dict_get tag_data "emoji_id") = false ->
     ForumTag.emoji_id tag = dict_get tag_data "emoji_id").
Proof.
  eexists. 
  destruct (forum_tag_from_dict keep_snowflake tag_data _ eq_refl)
    as (n & m & raw & H).
  exists n, m, raw. split; [reflexivity|exact H].
Defined.
